(** * AI-GitHub-Assistant: the git command runner and the repository facade

    A shallow embedding of [backend/git_utils.py] (command runner and
    repository facade), of [suggest_commit_messages] from
    [backend/ai_features.py] with the client call [ask] of
    [backend/ollama_client.py], and of [Worker.run] from
    [ui/main_window.py], followed by the properties of the specification
    that concern them.

    Python values are modelled as follows.
    - [str] is a sequence of Unicode code points: [pystr := list N].
    - [int] is [Z]; [bool] is [bool]; [None] as a default argument or an
      optional result is [option].
    - an exception is a class together with the text [str(e)].
    - a function that runs external commands is a state transformer over
      the module global [GIT_BIN] and the outside world, returning either a
      value or a raised exception. *)

From Stdlib Require Import List NArith ZArith Bool Lia String Ascii.
From Stdlib Require Decimal.
Import ListNotations.

Set Implicit Arguments.

(* ================================================================== *)
(** * Python strings *)
(* ================================================================== *)

(** A Python [str]: its code points, in order. *)
Definition pystr := list N.

(** Decoder used for the literals of this file only: the bytes of a Rocq
    string literal, read as UTF-8. *)
Fixpoint utf8_decode_aux (acc : N) (more : nat) (bs : list N) : pystr :=
  match bs with
  | [] => []
  | b :: r =>
      match more with
      | O =>
          if (b <? 128)%N then b :: utf8_decode_aux 0 0 r
          else if (b <? 224)%N then utf8_decode_aux (N.land b 31) 1 r
          else if (b <? 240)%N then utf8_decode_aux (N.land b 15) 2 r
          else utf8_decode_aux (N.land b 7) 3 r
      | S O => (acc * 64 + N.land b 63)%N :: utf8_decode_aux 0 0 r
      | S m => utf8_decode_aux (acc * 64 + N.land b 63)%N m r
      end
  end.

Definition py (s : string) : pystr :=
  utf8_decode_aux 0 0 (List.map N_of_ascii (list_ascii_of_string s)).

Arguments py : simpl never.

(** The newline character, written [\n] in the source. *)
Definition NL : pystr := [10%N].

(** [str.isspace] on one character: the code points Python treats as
    whitespace ([str.strip()] with no argument removes exactly these). *)
Definition isspace (c : N) : bool :=
  ((9 <=? c) && (c <=? 13) || (28 <=? c) && (c <=? 32) || (c =? 133)
   || (c =? 160) || (c =? 5760) || (8192 <=? c) && (c <=? 8202)
   || (c =? 8232) || (c =? 8233) || (c =? 8239) || (c =? 8287)
   || (c =? 12288))%N.

Fixpoint lstrip (s : pystr) : pystr :=
  match s with
  | [] => []
  | c :: r => if isspace c then lstrip r else s
  end.

Definition rstrip (s : pystr) : pystr := rev (lstrip (rev s)).

(** [s.strip()] *)
Definition strip (s : pystr) : pystr := rstrip (lstrip s).

(** Truth value of a string: [if s:] holds for the non-empty ones. *)
Definition truthy (s : pystr) : bool :=
  match s with [] => false | _ :: _ => true end.

(** The line boundaries of [str.splitlines]: LF, VT, FF, CR, FS, GS, RS,
    NEL, LINE SEPARATOR, PARAGRAPH SEPARATOR (and CR LF as one). *)
Definition is_linebreak (c : N) : bool :=
  ((10 <=? c) && (c <=? 13) || (28 <=? c) && (c <=? 30) || (c =? 133)
   || (c =? 8232) || (c =? 8233))%N.

(** [s.splitlines()]: the lines without their terminators; a final
    terminator opens no further line. *)
Fixpoint splitlines (s : pystr) : list pystr :=
  match s with
  | [] => []
  | c :: r =>
      if is_linebreak c then
        match r with
        | d :: r' =>
            if ((c =? 13) && (d =? 10))%N then [] :: splitlines r'
            else [] :: splitlines r
        | [] => [[]]
        end
      else
        match splitlines r with
        | [] => [[c]]
        | l :: ls => (c :: l) :: ls
        end
  end.

Definition cons_head (c : N) (fields : list pystr) : list pystr :=
  match fields with
  | [] => [[c]]
  | f :: fs => (c :: f) :: fs
  end.

(** [s.split(sep, maxsplit)] for a separator [sep] of one character: at
    most [maxsplit] cuts, from the left; the last field keeps the rest. *)
Fixpoint split (sep : N) (maxsplit : nat) (s : pystr) : list pystr :=
  match s with
  | [] => [[]]
  | c :: r =>
      match maxsplit with
      | O => [s]
      | S m =>
          if (c =? sep)%N then [] :: split sep m r
          else cons_head c (split sep maxsplit r)
      end
  end.

(** [s.startswith(p)] *)
Fixpoint startswith (p s : pystr) : bool :=
  match p, s with
  | [], _ => true
  | _ :: _, [] => false
  | a :: p', b :: s' => (a =? b)%N && startswith p' s'
  end.

(** [needle in hay] *)
Fixpoint contains (needle hay : pystr) : bool :=
  startswith needle hay
  || match hay with
     | [] => false
     | _ :: r => contains needle r
     end.

(** [s.endswith(p)] *)
Definition endswith (p s : pystr) : bool := startswith (rev p) (rev s).

(** [sep.join(parts)] *)
Fixpoint join (sep : pystr) (parts : list pystr) : pystr :=
  match parts with
  | [] => []
  | [p] => p
  | p :: rest => p ++ sep ++ join sep rest
  end.

(** Equality of strings, [==]. *)
Fixpoint str_eqb (a b : pystr) : bool :=
  match a, b with
  | [], [] => true
  | x :: a', y :: b' => (x =? y)%N && str_eqb a' b'
  | _, _ => false
  end.

(** [str(n)] for an [int], as an f-string renders it. *)
Fixpoint str_of_uint (d : Decimal.uint) : pystr :=
  match d with
  | Decimal.Nil => []
  | Decimal.D0 r => 48%N :: str_of_uint r
  | Decimal.D1 r => 49%N :: str_of_uint r
  | Decimal.D2 r => 50%N :: str_of_uint r
  | Decimal.D3 r => 51%N :: str_of_uint r
  | Decimal.D4 r => 52%N :: str_of_uint r
  | Decimal.D5 r => 53%N :: str_of_uint r
  | Decimal.D6 r => 54%N :: str_of_uint r
  | Decimal.D7 r => 55%N :: str_of_uint r
  | Decimal.D8 r => 56%N :: str_of_uint r
  | Decimal.D9 r => 57%N :: str_of_uint r
  end.

Definition str_of_int (z : Z) : pystr :=
  match z with
  | Z0 => [48%N]
  | Zpos p => str_of_uint (Pos.to_uint p)
  | Zneg p => 45%N :: str_of_uint (Pos.to_uint p)
  end.

(** [s.replace(old, '')]: every occurrence of [old], found from the left
    without overlap, is removed; an empty [old] removes nothing.  [skip]
    counts the characters of the current occurrence still to drop. *)
Fixpoint remove_all_from (old : pystr) (skip : nat) (s : pystr) : pystr :=
  match s with
  | [] => []
  | c :: r =>
      match skip with
      | S k => remove_all_from old k r
      | O =>
          if truthy old && startswith old s
          then remove_all_from old (Nat.pred (List.length old)) r
          else c :: remove_all_from old 0 r
      end
  end.

Definition remove_all (old s : pystr) : pystr := remove_all_from old 0 s.

(** ** UTF-8 *)

(** The bytes of one code point. *)
Definition utf8_encode_cp (c : N) : list N :=
  if (c <? 128)%N then [c]
  else if (c <? 2048)%N then
    [N.lor 192 (N.shiftr c 6); N.lor 128 (N.land c 63)]
  else if (c <? 65536)%N then
    [N.lor 224 (N.shiftr c 12); N.lor 128 (N.land (N.shiftr c 6) 63);
     N.lor 128 (N.land c 63)]
  else
    [N.lor 240 (N.shiftr c 18); N.lor 128 (N.land (N.shiftr c 12) 63);
     N.lor 128 (N.land (N.shiftr c 6) 63); N.lor 128 (N.land c 63)].

(** Lone surrogates are the code points of a [str] that UTF-8 cannot
    encode: [s.encode("utf-8")] raises on them. *)
Definition is_surrogate (c : N) : bool := ((55296 <=? c) && (c <=? 57343))%N.

Definition encodable (s : pystr) : bool := negb (existsb is_surrogate s).

(** [s[:n]] and [s[n:]] for a non-negative literal [n] are [firstn n s]
    and [skipn n s]. *)

(* ================================================================== *)
(** * Exceptions and results *)
(* ================================================================== *)

(** The exception classes that occur; all of them derive from
    [Exception].  [OtherException] stands for any further class deriving
    from [Exception] directly. *)
Inductive exn_class : Type :=
| RuntimeError
| GitConflictError          (* class GitConflictError(RuntimeError) *)
| TimeoutExpired            (* subprocess.TimeoutExpired *)
| OSError
| FileNotFoundError         (* FileNotFoundError(OSError) *)
| NameError
| UnboundLocalError         (* UnboundLocalError(NameError) *)
| ValueError
| UnicodeEncodeError        (* a ValueError *)
| JSONDecodeError           (* json.JSONDecodeError(ValueError) *)
| TypeError
| OtherException.

Definition exn_class_eqb (a b : exn_class) : bool :=
  match a, b with
  | RuntimeError, RuntimeError | GitConflictError, GitConflictError
  | TimeoutExpired, TimeoutExpired | OSError, OSError
  | FileNotFoundError, FileNotFoundError | NameError, NameError
  | UnboundLocalError, UnboundLocalError | ValueError, ValueError
  | UnicodeEncodeError, UnicodeEncodeError
  | JSONDecodeError, JSONDecodeError | TypeError, TypeError
  | OtherException, OtherException => true
  | _, _ => false
  end.

(** The direct base class, when it is not [Exception] itself. *)
Definition base_class (c : exn_class) : option exn_class :=
  match c with
  | GitConflictError => Some RuntimeError
  | FileNotFoundError => Some OSError
  | UnboundLocalError => Some NameError
  | UnicodeEncodeError => Some ValueError
  | JSONDecodeError => Some ValueError
  | _ => None
  end.

(** [issubclass(c, d)] *)
Definition issubclass (c d : exn_class) : bool :=
  exn_class_eqb c d
  || match base_class c with
     | Some b => exn_class_eqb b d
     | None => false
     end.

(** An exception object: its class and [str(e)]. *)
Record exn : Type := Exn { exn_cls : exn_class; exn_msg : pystr }.

(** [isinstance(e, d)] *)
Definition isinstance (e : exn) (d : exn_class) : bool :=
  issubclass (exn_cls e) d.

(** The outcome of evaluating a Python expression or call. *)
Inductive result (A : Type) : Type :=
| Ok (a : A)
| Raise (e : exn).

Arguments Ok {A} a.
Arguments Raise {A} e.

(** [len(s.encode("utf-8"))]: the number of bytes of the encoding;
    [encode] raises on a lone surrogate. *)
Definition encode_utf8 (s : pystr) : result (list N) :=
  if encodable s then Ok (flat_map utf8_encode_cp s)
  else Raise (Exn UnicodeEncodeError
                (py "'utf-8' codec can't encode character: surrogates not allowed")).

(* ================================================================== *)
(** * The outside world *)
(* ================================================================== *)

(** What [subprocess.run(..., stdout=PIPE, stderr=PIPE, text=True)]
    returns when the process ends within the timeout. *)
Record CompletedProcess : Type :=
  { returncode : Z; stdout : pystr; stderr : pystr }.

(** A value read by [json.loads]. *)
#[warnings="-register-all"]
Inductive json : Type :=
| JNull
| JBool (b : bool)
| JNumber (literal : pystr)
| JString (s : pystr)
| JArray (items : list json)
| JObject (members : list (pystr * json)).

(** Everything the modules reach outside themselves: the operating
    system, the file system, the model server and the library tables.
    - [subprocess_run cmd cwd timeout]: runs a command; either the process
      ends ([Ok]) or the call raises ([TimeoutExpired], [FileNotFoundError]
      for a missing executable, ...).  The world may change.
    - [unicode_lower before c after]: [str.lower()] on a code point [c]
      above 127, standing between [rev before] and [after]; the
      lower-casing of ASCII is written out in [lower] below.
    - [os_path_expanduser], [os_path_abspath], [os_path_isdir]: the
      functions of [os.path] that consult the environment.
    - [read_text path]: [io.open(path, "r", encoding="utf-8",
      errors="ignore")] followed by [read()].
    - [ollama_chat question timeout]: [ollama.Client(host, timeout).chat]
      on one user message, followed by
      [response.get("message", {}).get("content", '')].
    - [json_loads]: [json.loads].
    - [MOCK_MODE], [ollama_imported]: the flag read from [AI_MOCK_MODE] on
      import, and whether [import ollama] succeeded. *)
Class Host : Type :=
  { World : Type;
    subprocess_run :
      list pystr -> option pystr -> Z -> World -> result CompletedProcess * World;
    unicode_lower : pystr -> N -> pystr -> pystr;
    os_path_expanduser : pystr -> World -> pystr;
    os_path_abspath : pystr -> World -> pystr;
    os_path_isdir : pystr -> World -> bool;
    read_text : pystr -> World -> result pystr * World;
    ollama_chat : pystr -> option Z -> World -> result pystr * World;
    json_loads : pystr -> result json;
    MOCK_MODE : bool;
    ollama_imported : bool }.

(** One call of [subprocess.run], as recorded in the ghost trace. *)
Record Invocation : Type :=
  { inv_cmd : list pystr; inv_cwd : option pystr }.

Section Monad.

Context {H : Host}.

(** The state a call runs in: the module global [GIT_BIN], the world, and
    a ghost trace of the commands run so far (most recent last), which no
    function reads. *)
Record State : Type :=
  { GIT_BIN : pystr; world : World; trace : list Invocation }.

(** A Python call: from a state to an outcome and the state after it. *)
Definition M (A : Type) : Type := State -> result A * State.

Definition ret {A} (a : A) : M A := fun s => (Ok a, s).

Definition raise {A} (e : exn) : M A := fun s => (Raise e, s).

Definition bind {A B} (m : M A) (k : A -> M B) : M B :=
  fun s =>
    match m s with
    | (Ok a, s') => k a s'
    | (Raise e, s') => (Raise e, s')
    end.

(** [try: m  except C as e: h e], for the classes [C] accepted by
    [catches]; an exception of another class propagates. *)
Definition try_except {A} (m : M A) (catches : exn -> bool) (h : exn -> M A)
  : M A :=
  fun s =>
    match m s with
    | (Ok a, s') => (Ok a, s')
    | (Raise e, s') => if catches e then h e s' else (Raise e, s')
    end.

(** [except Exception]: every exception of the model is an [Exception]. *)
Definition any_Exception (e : exn) : bool := true.

End Monad.

Notation "x <- m ;; k" := (bind m (fun x => k))
  (at level 61, m at next level, right associativity).

(* ================================================================== *)
(** * backend/git_utils.py *)
(* ================================================================== *)

Section GitUtils.

Context {H : Host}.

(** [s.lower()] *)
Definition ascii_lower (c : N) : N :=
  if ((65 <=? c) && (c <=? 90))%N then (c + 32)%N else c.

Fixpoint lower_from (before s : pystr) : pystr :=
  match s with
  | [] => []
  | c :: r =>
      (if (c <? 128)%N then [ascii_lower c] else unicode_lower before c r)
      ++ lower_from (c :: before) r
  end.

Definition lower (s : pystr) : pystr := lower_from [] s.

(** Lifting a pure outcome. *)
Definition lift {A} (r : result A) : M A := fun s => (r, s).

(** The state once [cmd] has been run in [s] and has left the world [w]. *)
Definition ran (s : State) (cmd : list pystr) (cwd : option pystr) (w : World)
  : State :=
  {| GIT_BIN := GIT_BIN s;
     world := w;
     trace := trace s ++ [{| inv_cmd := cmd; inv_cwd := cwd |}] |}.

(** [subprocess.run(cmd, cwd=cwd, stdout=PIPE, stderr=PIPE, text=True,
    timeout=timeout)] *)
Definition run_subprocess (cmd : list pystr) (cwd : option pystr) (timeout : Z)
  : M CompletedProcess :=
  fun s =>
    let (r, w) := subprocess_run cmd cwd timeout (world s) in
    (r, ran s cmd cwd w).

(** <<
def set_git_executable(path: str) -> None:
    global GIT_BIN
    if path:
        GIT_BIN = path
>> *)
Definition set_git_executable (path : pystr) : M unit :=
  fun s =>
    if truthy path
    then (Ok tt, {| GIT_BIN := path; world := world s; trace := trace s |})
    else (Ok tt, s).

(** <<
def get_git_executable() -> str:
    return GIT_BIN
>> *)
Definition get_git_executable : M pystr := fun s => (Ok (GIT_BIN s), s).

(** <<
def run_git_command(args, cwd=None, check=True) -> str:
    cmd = [GIT_BIN] + args
    proc = subprocess.run(cmd, cwd=cwd, stdout=PIPE, stderr=PIPE,
                          text=True, timeout=20)
    if check and proc.returncode != 0:
        if "merge failed" in proc.stderr.lower() and "fix conflicts" in proc.stderr.lower():
            raise GitConflictError(f"Merge conflict detected:\n{proc.stderr}")
        raise RuntimeError(f"git command failed: {' '.join(cmd)}\n{proc.stderr}")
    return proc.stdout
>> *)
Definition run_git_command (args : list pystr) (cwd : option pystr)
  (check : bool) : M pystr :=
  git <- get_git_executable ;;
  let cmd := git :: args in
  proc <- run_subprocess cmd cwd 20 ;;
  if check && negb (returncode proc =? 0)%Z then
    if contains (py "merge failed") (lower (stderr proc))
       && contains (py "fix conflicts") (lower (stderr proc))
    then raise (Exn GitConflictError
                  (py "Merge conflict detected:" ++ NL ++ stderr proc))
    else raise (Exn RuntimeError
                  (py "git command failed: " ++ join (py " ") cmd ++ NL
                   ++ stderr proc))
  else ret (stdout proc).

(** <<
def is_git_repo(cwd=None) -> bool:
    try:
        out = run_git_command(["rev-parse", "--is-inside-work-tree"], cwd=cwd)
        return out.strip() == "true"
    except Exception:
        return False
>> *)
Definition is_git_repo (cwd : option pystr) : M bool :=
  try_except
    (out <- run_git_command [py "rev-parse"; py "--is-inside-work-tree"] cwd true ;;
     ret (str_eqb (strip out) (py "true")))
    any_Exception
    (fun _ => ret false).

(** <<
def current_branch(cwd=None) -> Optional[str]:
    try:
        out = run_git_command(["rev-parse", "--abbrev-ref", "HEAD"], cwd=cwd)
        return out.strip()
    except Exception:
        return None
>> *)
Definition current_branch (cwd : option pystr) : M (option pystr) :=
  try_except
    (out <- run_git_command [py "rev-parse"; py "--abbrev-ref"; py "HEAD"] cwd true ;;
     ret (Some (strip out)))
    any_Exception
    (fun _ => ret None).

(** [[line for line in out.splitlines() if line.strip()]] *)
Definition nonblank_lines (out : pystr) : list pystr :=
  filter (fun line => truthy (strip line)) (splitlines out).

(** <<
def staged_files(cwd=None) -> List[str]:
    if not is_git_repo(cwd=cwd):
        return []
    out = run_git_command(["diff", "--name-only", "--cached"], cwd=cwd)
    return [line for line in out.splitlines() if line.strip()]
>> *)
Definition staged_files (cwd : option pystr) : M (list pystr) :=
  repo <- is_git_repo cwd ;;
  if negb repo then ret []
  else
    out <- run_git_command [py "diff"; py "--name-only"; py "--cached"] cwd true ;;
    ret (nonblank_lines out).

(** As [staged_files], on [ls-files --modified]. *)
Definition unstaged_files (cwd : option pystr) : M (list pystr) :=
  repo <- is_git_repo cwd ;;
  if negb repo then ret []
  else
    out <- run_git_command [py "ls-files"; py "--modified"] cwd true ;;
    ret (nonblank_lines out).

(** As [staged_files], on [diff --name-only --diff-filter=U] run with
    [check=False]. *)
Definition conflicted_files (cwd : option pystr) : M (list pystr) :=
  repo <- is_git_repo cwd ;;
  if negb repo then ret []
  else
    out <- run_git_command [py "diff"; py "--name-only"; py "--diff-filter=U"]
                           cwd false ;;
    ret (nonblank_lines out).

(** [os.path.join(a, b)] of [posixpath]. *)
Definition os_path_join (a b : pystr) : pystr :=
  if startswith (py "/") b then b
  else if negb (truthy a) || endswith (py "/") a then a ++ b
  else a ++ py "/" ++ b.

(** <<
def get_file_content(file_path, cwd=None) -> str:
    full_path = os.path.join(cwd, file_path)
    with io.open(full_path, "r", encoding="utf-8", errors="ignore") as f:
        return f.read()
>>
    [os.path.join(None, ...)] raises [TypeError]. *)
Definition get_file_content (file_path : pystr) (cwd : option pystr) : M pystr :=
  match cwd with
  | None =>
      raise (Exn TypeError
               (py "expected str, bytes or os.PathLike object, not NoneType"))
  | Some dir =>
      fun s =>
        let (r, w) := read_text (os_path_join dir file_path) (world s) in
        (r, {| GIT_BIN := GIT_BIN s; world := w; trace := trace s |})
  end.

Definition stage_file (file_path : pystr) (cwd : option pystr) : M pystr :=
  run_git_command [py "add"; file_path] cwd true.

(** <<
def diff_staged(cwd=None) -> str:
    if not is_git_repo(cwd=cwd):
        return ''
    return run_git_command(["diff", "--cached"], cwd=cwd)
>> *)
Definition diff_staged (cwd : option pystr) : M pystr :=
  repo <- is_git_repo cwd ;;
  if negb repo then ret []
  else run_git_command [py "diff"; py "--cached"] cwd true.

(** <<
def staged_diff_size(cwd=None) -> int:
    if not is_git_repo(cwd=cwd):
        return 0
    d = diff_staged(cwd=cwd)
    return len(d.encode("utf-8"))
>> *)
Definition staged_diff_size (cwd : option pystr) : M Z :=
  repo <- is_git_repo cwd ;;
  if negb repo then ret 0%Z
  else
    d <- diff_staged cwd ;;
    bytes <- lift (encode_utf8 d) ;;
    ret (Z.of_nat (List.length bytes)).

(** <<
def commit(message, cwd=None) -> str:
    return run_git_command(["commit", "-m", message], cwd=cwd)
>> *)
Definition commit (message : pystr) (cwd : option pystr) : M pystr :=
  run_git_command [py "commit"; py "-m"; message] cwd true.

(** <<
def safe_commit(message, cwd=None, max_diff_bytes=2_000_000) -> str:
    size = staged_diff_size(cwd=cwd)
    if size > max_diff_bytes:
        raise RuntimeError(f"Staged diff too large ({size} bytes), refusing to commit")
    return commit(message, cwd=cwd)
>> *)
Definition safe_commit (message : pystr) (cwd : option pystr)
  (max_diff_bytes : Z) : M pystr :=
  size <- staged_diff_size cwd ;;
  if (size >? max_diff_bytes)%Z then
    raise (Exn RuntimeError
             (py "Staged diff too large (" ++ str_of_int size
              ++ py " bytes), refusing to commit"))
  else commit message cwd.

(** The body of the loop of [list_branches]:
<<
        line = line.strip()
        if line.startswith("* "):
            branches.append(line[2:])
        elif line:
            branches.append(line)
>> *)
Definition list_branches_step (branches : list pystr) (line : pystr)
  : list pystr :=
  let line := strip line in
  if startswith (py "* ") line then branches ++ [skipn 2 line]
  else if truthy line then branches ++ [line]
  else branches.

(** <<
def list_branches(cwd=None) -> List[str]:
    if not is_git_repo(cwd=cwd):
        return []
    out = run_git_command(["branch", "--list"], cwd=cwd)
    branches = []
    for line in out.splitlines():
        ...
    return branches
>> *)
Definition list_branches (cwd : option pystr) : M (list pystr) :=
  repo <- is_git_repo cwd ;;
  if negb repo then ret []
  else
    out <- run_git_command [py "branch"; py "--list"] cwd true ;;
    ret (fold_left list_branches_step (splitlines out) []).

(** The dictionary built for one commit:
    [{"hash": ..., "author": ..., "date": ..., "subject": ...}]. *)
Record CommitRecord : Type :=
  { hash : pystr; author : pystr; date : pystr; subject : pystr }.

(** The body of the loop of [get_commit_history]:
<<
        if not line:
            continue
        parts = line.split("|", 3)
        if len(parts) == 4:
            history.append({"hash": parts[0][:7], "author": parts[1],
                            "date": parts[2], "subject": parts[3]})
>> *)
Definition get_commit_history_step (history : list CommitRecord) (line : pystr)
  : list CommitRecord :=
  if negb (truthy line) then history
  else
    match split 124 3 line with
    | [p0; p1; p2; p3] =>
        history ++ [{| hash := firstn 7 p0; author := p1; date := p2;
                       subject := p3 |}]
    | _ => history
    end.

Definition log_format : pystr := py "%H|%an|%ar|%s".

(** <<
def get_commit_history(cwd=None, limit=100) -> List[Dict[str, str]]:
    if not is_git_repo(cwd=cwd):
        return []
    log_format = "%H|%an|%ar|%s"
    out = run_git_command(["log", f"--pretty=format:{log_format}", f"-n{limit}"], cwd=cwd)
    history = []
    for line in out.splitlines():
        ...
    return history
>> *)
Definition get_commit_history (cwd : option pystr) (limit : Z)
  : M (list CommitRecord) :=
  repo <- is_git_repo cwd ;;
  if negb repo then ret []
  else
    out <- run_git_command
             [py "log"; py "--pretty=format:" ++ log_format;
              py "-n" ++ str_of_int limit] cwd true ;;
    ret (fold_left get_commit_history_step (splitlines out) []).

Definition get_commit_diff (commit_hash : pystr) (cwd : option pystr) : M pystr :=
  repo <- is_git_repo cwd ;;
  if negb repo then ret []
  else run_git_command [py "show"; py "--patch"; py "--unified=10"; commit_hash]
                       cwd true.

Definition checkout_branch (branch : pystr) (cwd : option pystr) : M pystr :=
  run_git_command [py "checkout"; branch] cwd true.

Definition create_branch (branch : pystr) (cwd : option pystr) : M pystr :=
  run_git_command [py "checkout"; py "-b"; branch] cwd true.

Definition push (cwd : option pystr) : M pystr :=
  run_git_command [py "push"] cwd true.

Definition fetch_remote (cwd : option pystr) : M pystr :=
  run_git_command [py "fetch"] cwd true.

(** The module calls [_parse_log_output] in [get_incoming_commits] and
    nowhere defines or imports that name: evaluating the call raises
    [NameError], whatever the argument. *)
Definition _parse_log_output (out : pystr) : M (list CommitRecord) :=
  raise (Exn NameError (py "name '_parse_log_output' is not defined")).

(** <<
def get_incoming_commits(cwd=None) -> List[Dict[str, str]]:
    if not is_git_repo(cwd=cwd):
        return []
    try:
        log_format = "%H|%an|%ar|%s"
        out = run_git_command(["log", f"--pretty=format:{log_format}", f"HEAD..@{{u}}"],
                              cwd=cwd, check=False)
        return _parse_log_output(out)
    except RuntimeError:
        return [] # Likely no upstream configured
>> *)
Definition get_incoming_commits (cwd : option pystr) : M (list CommitRecord) :=
  repo <- is_git_repo cwd ;;
  if negb repo then ret []
  else
    try_except
      (out <- run_git_command
                [py "log"; py "--pretty=format:" ++ log_format; py "HEAD..@{u}"]
                cwd false ;;
       _parse_log_output out)
      (fun e => isinstance e RuntimeError)
      (fun _ => ret []).

Definition pull (cwd : option pystr) : M pystr :=
  run_git_command [py "pull"] cwd true.

Definition merge (branch : pystr) (cwd : option pystr) : M pystr :=
  run_git_command [py "merge"; branch] cwd true.

Definition undo_last_commit (cwd : option pystr) : M pystr :=
  run_git_command [py "reset"; py "--soft"; py "HEAD~1"] cwd true.

Definition undo_last_commit_hard (cwd : option pystr) : M pystr :=
  run_git_command [py "reset"; py "--hard"; py "HEAD~1"] cwd true.

Definition abort_merge (cwd : option pystr) : M pystr :=
  run_git_command [py "merge"; py "--abort"] cwd true.

Definition abort_rebase (cwd : option pystr) : M pystr :=
  run_git_command [py "rebase"; py "--abort"] cwd true.

Definition reset_unstaged (cwd : option pystr) : M pystr :=
  run_git_command [py "checkout"; py "."] cwd true.

Definition discard_unstaged_file_changes (file_path : pystr)
  (cwd : option pystr) : M pystr :=
  run_git_command [py "checkout"; py "--"; file_path] cwd true.

Definition reset_staged (cwd : option pystr) : M pystr :=
  run_git_command [py "reset"] cwd true.

Definition reset_file (file_path : pystr) (cwd : option pystr) : M pystr :=
  run_git_command [py "reset"; py "HEAD"; py "--"; file_path] cwd true.

(** [os.path.dirname(p)] of [posixpath]:
<<
    i = p.rfind('/') + 1
    head = p[:i]
    if head and head != '/'*len(head):
        head = head.rstrip('/')
    return head
>>
    The two helpers work on the reversed string. *)
Fixpoint drop_to_slash (r : pystr) : pystr :=
  match r with
  | [] => []
  | c :: t => if (c =? 47)%N then r else drop_to_slash t
  end.

Fixpoint drop_slashes (r : pystr) : pystr :=
  match r with
  | [] => []
  | c :: t => if (c =? 47)%N then drop_slashes t else r
  end.

Definition os_path_dirname (p : pystr) : pystr :=
  let head := rev (drop_to_slash (rev p)) in
  if truthy head && negb (forallb (N.eqb 47) head)
  then rev (drop_slashes (rev head))
  else head.

(** The loop of [find_git_repos]:
<<
        for path in repo_paths:
            if not include_hidden and "/." in path.replace(root, ''):
                continue
            try:
                if is_git_repo(cwd=path):
                    final_results.append(path)
            except Exception:
                pass
>> *)
Fixpoint find_git_repos_loop (root : pystr) (include_hidden : bool)
  (repo_paths final_results : list pystr) : M (list pystr) :=
  match repo_paths with
  | [] => ret final_results
  | path :: rest =>
      if negb include_hidden && contains (py "/.") (remove_all root path)
      then find_git_repos_loop root include_hidden rest final_results
      else
        final_results' <-
          try_except
            (repo <- is_git_repo (Some path) ;;
             ret (if repo then final_results ++ [path] else final_results))
            any_Exception
            (fun _ => ret final_results) ;;
        find_git_repos_loop root include_hidden rest final_results'
  end.

(** <<
def find_git_repos(root, max_depth=3, include_hidden=False) -> List[str]:
    if not root:
        return []
    root = os.path.abspath(os.path.expanduser(root))
    if not os.path.isdir(root):
        return []
    command = ["find", root, "-maxdepth", str(max_depth + 1), "-type", "d", "-name", ".git"]
    try:
        proc = subprocess.run(command, stdout=PIPE, stderr=PIPE, text=True, timeout=30)
        git_dirs = proc.stdout.strip().splitlines()
        repo_paths = [os.path.dirname(p) for p in git_dirs]
        final_results = []
        for path in repo_paths: ...
        return final_results
    except (FileNotFoundError, subprocess.TimeoutExpired):
        raise RuntimeError(...)
    except Exception as e:
        raise RuntimeError(f"...: {e}")
>> *)
Definition find_git_repos (root : pystr) (max_depth : Z) (include_hidden : bool)
  : M (list pystr) :=
  if negb (truthy root) then ret []
  else
    fun s =>
      let root := os_path_abspath (os_path_expanduser root (world s)) (world s) in
      if negb (os_path_isdir root (world s)) then (Ok [], s)
      else
        let command :=
          [py "find"; root; py "-maxdepth"; str_of_int (max_depth + 1);
           py "-type"; py "d"; py "-name"; py ".git"] in
        try_except
          (proc <- run_subprocess command None 30 ;;
           let git_dirs := splitlines (strip (stdout proc)) in
           let repo_paths := List.map os_path_dirname git_dirs in
           find_git_repos_loop root include_hidden repo_paths [])
          any_Exception
          (fun e =>
             if isinstance e FileNotFoundError || isinstance e TimeoutExpired
             then raise (Exn RuntimeError
                           (py "저장소 검색 실패 ('find' 명령어 실행 오류 또는 시간 초과)"))
             else raise (Exn RuntimeError
                           (py "저장소 검색 중 예기치 않은 오류 발생: "
                            ++ exn_msg e)))
          s.

(** <<
def find_all_git_repos(timeout_seconds=60) -> List[str]:
    home = os.path.expanduser("~")
    command = ["find", home, "-type", "d", "-name", ".git"]
    try:
        proc = subprocess.run(command, stdout=PIPE, stderr=PIPE, text=True,
                              timeout=timeout_seconds)
        paths = proc.stdout.strip().splitlines()
        repo_paths = [os.path.dirname(p) for p in paths]
        return repo_paths
    except FileNotFoundError:
        raise RuntimeError("The 'find' command is not available on this system.")
    except subprocess.TimeoutExpired:
        raise RuntimeError(f"Repository search timed out after {timeout_seconds} seconds.")
    except Exception as e:
        raise RuntimeError(f"An unexpected error occurred while searching for repositories: {e}")
>> *)
Definition find_all_git_repos (timeout_seconds : Z) : M (list pystr) :=
  fun s =>
    let home := os_path_expanduser (py "~") (world s) in
    let command := [py "find"; home; py "-type"; py "d"; py "-name"; py ".git"] in
    try_except
      (proc <- run_subprocess command None timeout_seconds ;;
       let paths := splitlines (strip (stdout proc)) in
       ret (List.map os_path_dirname paths))
      any_Exception
      (fun e =>
         if isinstance e FileNotFoundError then
           raise (Exn RuntimeError
                    (py "The 'find' command is not available on this system."))
         else if isinstance e TimeoutExpired then
           raise (Exn RuntimeError
                    (py "Repository search timed out after "
                     ++ str_of_int timeout_seconds ++ py " seconds."))
         else
           raise (Exn RuntimeError
                    (py "An unexpected error occurred while searching for repositories: "
                     ++ exn_msg e)))
      s.

(** ** The operations of the facade other than [set_git_executable] *)

(** A call of one of them, with its arguments. *)
Inductive facade_call : Type :=
| call_get_git_executable
| call_run_git_command (args : list pystr) (cwd : option pystr) (check : bool)
| call_is_git_repo (cwd : option pystr)
| call_current_branch (cwd : option pystr)
| call_staged_files (cwd : option pystr)
| call_unstaged_files (cwd : option pystr)
| call_conflicted_files (cwd : option pystr)
| call_get_file_content (file_path : pystr) (cwd : option pystr)
| call_stage_file (file_path : pystr) (cwd : option pystr)
| call_diff_staged (cwd : option pystr)
| call_staged_diff_size (cwd : option pystr)
| call_commit (message : pystr) (cwd : option pystr)
| call_safe_commit (message : pystr) (cwd : option pystr) (max_diff_bytes : Z)
| call_list_branches (cwd : option pystr)
| call_get_commit_history (cwd : option pystr) (limit : Z)
| call_get_commit_diff (commit_hash : pystr) (cwd : option pystr)
| call_checkout_branch (branch : pystr) (cwd : option pystr)
| call_create_branch (branch : pystr) (cwd : option pystr)
| call_push (cwd : option pystr)
| call_fetch_remote (cwd : option pystr)
| call_get_incoming_commits (cwd : option pystr)
| call_pull (cwd : option pystr)
| call_merge (branch : pystr) (cwd : option pystr)
| call_undo_last_commit (cwd : option pystr)
| call_undo_last_commit_hard (cwd : option pystr)
| call_abort_merge (cwd : option pystr)
| call_abort_rebase (cwd : option pystr)
| call_reset_unstaged (cwd : option pystr)
| call_discard_unstaged_file_changes (file_path : pystr) (cwd : option pystr)
| call_reset_staged (cwd : option pystr)
| call_reset_file (file_path : pystr) (cwd : option pystr)
| call_find_git_repos (root : pystr) (max_depth : Z) (include_hidden : bool)
| call_find_all_git_repos (timeout_seconds : Z).

(** The state a call leaves, whether it returns or raises. *)
Definition state_after (c : facade_call) (s : State) : State :=
  match c with
  | call_get_git_executable => snd (get_git_executable s)
  | call_run_git_command args cwd check => snd (run_git_command args cwd check s)
  | call_is_git_repo cwd => snd (is_git_repo cwd s)
  | call_current_branch cwd => snd (current_branch cwd s)
  | call_staged_files cwd => snd (staged_files cwd s)
  | call_unstaged_files cwd => snd (unstaged_files cwd s)
  | call_conflicted_files cwd => snd (conflicted_files cwd s)
  | call_get_file_content f cwd => snd (get_file_content f cwd s)
  | call_stage_file f cwd => snd (stage_file f cwd s)
  | call_diff_staged cwd => snd (diff_staged cwd s)
  | call_staged_diff_size cwd => snd (staged_diff_size cwd s)
  | call_commit m cwd => snd (commit m cwd s)
  | call_safe_commit m cwd n => snd (safe_commit m cwd n s)
  | call_list_branches cwd => snd (list_branches cwd s)
  | call_get_commit_history cwd n => snd (get_commit_history cwd n s)
  | call_get_commit_diff h cwd => snd (get_commit_diff h cwd s)
  | call_checkout_branch b cwd => snd (checkout_branch b cwd s)
  | call_create_branch b cwd => snd (create_branch b cwd s)
  | call_push cwd => snd (push cwd s)
  | call_fetch_remote cwd => snd (fetch_remote cwd s)
  | call_get_incoming_commits cwd => snd (get_incoming_commits cwd s)
  | call_pull cwd => snd (pull cwd s)
  | call_merge b cwd => snd (merge b cwd s)
  | call_undo_last_commit cwd => snd (undo_last_commit cwd s)
  | call_undo_last_commit_hard cwd => snd (undo_last_commit_hard cwd s)
  | call_abort_merge cwd => snd (abort_merge cwd s)
  | call_abort_rebase cwd => snd (abort_rebase cwd s)
  | call_reset_unstaged cwd => snd (reset_unstaged cwd s)
  | call_discard_unstaged_file_changes f cwd =>
      snd (discard_unstaged_file_changes f cwd s)
  | call_reset_staged cwd => snd (reset_staged cwd s)
  | call_reset_file f cwd => snd (reset_file f cwd s)
  | call_find_git_repos r d h => snd (find_git_repos r d h s)
  | call_find_all_git_repos t => snd (find_all_git_repos t s)
  end.

End GitUtils.

(* ================================================================== *)
(** * backend/ollama_client.py and backend/ai_features.py *)
(* ================================================================== *)

Section AIFeatures.

Context {H : Host}.

(** <<
def _ollama_available() -> bool:
    return ollama is not None and not MOCK_MODE
>> *)
Definition _ollama_available : bool := ollama_imported && negb MOCK_MODE.

(** <<
            if content.startswith("```json"):
                content = content[7:]
                if content.endswith("```"):
                    content = content[:-3]
            elif content.startswith("```"):
                content = content[3:]
                if content.endswith("```"):
                    content = content[:-3]
>> *)
Definition strip_code_fence (content : pystr) : pystr :=
  if startswith (py "```json") content then
    let content := skipn 7 content in
    if endswith (py "```") content
    then firstn (List.length content - 3) content
    else content
  else if startswith (py "```") content then
    let content := skipn 3 content in
    if endswith (py "```") content
    then firstn (List.length content - 3) content
    else content
  else content.

(** [ollama.Client(host=OLLAMA_HOST, timeout=timeout).chat(...)] and the
    reading of the content of the answer. *)
Definition chat (question : pystr) (timeout : option Z) : M pystr :=
  fun s =>
    let (r, w) := ollama_chat question timeout (world s) in
    (r, {| GIT_BIN := GIT_BIN s; world := w; trace := trace s |}).

(** The retry loop of [ask], [attempts] iterations being left; the pause
    [time.sleep] between attempts and the debugging prints leave no mark
    on the state:
<<
    last_exc = None
    for attempt in range(max(1, retries)):
        try:
            ... content = ... ; return content.strip()
        except Exception as e:
            last_exc = e
            time.sleep(0.5 + attempt * 0.5)
    raise RuntimeError(f"Ollama request failed: {last_exc}")
>> *)
Fixpoint ask_loop (question : pystr) (timeout : option Z) (attempts : nat)
  (last_exc : option exn) : M pystr :=
  match attempts with
  | O =>
      raise (Exn RuntimeError
               (py "Ollama request failed: "
                ++ match last_exc with
                   | Some e => exn_msg e
                   | None => py "None"
                   end))
  | S n =>
      try_except
        (content <- chat question timeout ;;
         ret (strip (strip_code_fence content)))
        any_Exception
        (fun e => ask_loop question timeout n (Some e))
  end.

(** <<
def ask(question, timeout=None, retries=1) -> str:
    if MOCK_MODE or not _ollama_available():
        return "feat: update (mocked)"
    ...
>> *)
Definition ask (question : pystr) (timeout : option Z) (retries : Z) : M pystr :=
  if MOCK_MODE || negb _ollama_available
  then ret (py "feat: update (mocked)")
  else ask_loop question timeout (Z.to_nat (Z.max 1 retries)) None.

(** The double quote. *)
Definition DQ : pystr := [34%N].

(** The f-string [prompt] of [suggest_commit_messages]. *)
Definition suggest_prompt (diff_content context : pystr) (count : Z) : pystr :=
  py "You are a Git commit message expert. Based on this diff, suggest "
     ++ str_of_int count ++ py " distinct commit messages." ++ NL
  ++ NL
  ++ py "The format should be:" ++ NL
  ++ py "<기능/파일 등 범위>(<작업 내용 요약>)" ++ NL
  ++ NL
  ++ py "Here are some good examples:" ++ NL
  ++ py "- 로그인 기능(백엔드 요청 기능 추가)" ++ NL
  ++ py "- 로그인 화면(이미지 추가)" ++ NL
  ++ py "- main.py(오타 수정)" ++ NL
  ++ NL
  ++ py "Context: " ++ context ++ NL
  ++ NL
  ++ py "Diff:" ++ NL
  ++ py "```" ++ NL
  ++ diff_content ++ NL
  ++ py "```" ++ NL
  ++ NL
  ++ py "Respond in this exact JSON format (a list of " ++ str_of_int count
     ++ py " JSON objects, in Korean language)." ++ NL
  ++ py "The " ++ DQ ++ py "scope" ++ DQ
     ++ py " should be the feature or file name, and the " ++ DQ
     ++ py "subject" ++ DQ ++ py " should be a summary of the work." ++ NL
  ++ py "The " ++ DQ ++ py "body" ++ DQ
     ++ py " should be a more detailed explanation if needed." ++ NL
  ++ NL
  ++ py "[" ++ NL
  ++ py "  {" ++ NL
  ++ py "    " ++ DQ ++ py "scope" ++ DQ ++ py ": " ++ DQ
     ++ py "기능 또는 파일 이름 (반드시 한글)" ++ DQ ++ py "," ++ NL
  ++ py "    " ++ DQ ++ py "subject" ++ DQ ++ py ": " ++ DQ
     ++ py "작업 내용 요약 (반드시 한글)" ++ DQ ++ py "," ++ NL
  ++ py "    " ++ DQ ++ py "body" ++ DQ ++ py ": " ++ DQ
     ++ py "필요시 상세 설명 (반드시 한글)" ++ DQ ++ NL
  ++ py "  }," ++ NL
  ++ py "  ..." ++ NL
  ++ py "]".

(** The handler of [suggest_commit_messages]:
<<
    except Exception as e:
        return [{"error": str(e), "raw_response": response}]
>>
    [response] is a local variable of the function, assigned in the [try]
    block by [response = ollama_client.ask(prompt)]; read before that
    assignment has taken place, it raises [UnboundLocalError]. *)
Definition suggest_except (e : exn) (response : option pystr) : M json :=
  match response with
  | Some raw =>
      ret (JArray [JObject [(py "error", JString (exn_msg e));
                            (py "raw_response", JString raw)]])
  | None =>
      raise (Exn UnboundLocalError
               (py "cannot access local variable 'response' where it is not"
                ++ py " associated with a value"))
  end.

(** <<
def suggest_commit_messages(diff_content, context='', count=3) -> list:
    prompt = (the f-string, [suggest_prompt] above)
    try:
        import json
        response = ollama_client.ask(prompt)
        parsed = json.loads(response)
        if isinstance(parsed, dict):
            return [parsed]
        return parsed
    except Exception as e:
        return [{"error": str(e), "raw_response": response}]
>> *)
Definition suggest_commit_messages (diff_content context : pystr) (count : Z)
  : M json :=
  let prompt := suggest_prompt diff_content context count in
  fun s =>
    match ask prompt None 1 s with
    | (Raise e, s1) => suggest_except e None s1
    | (Ok response, s1) =>
        match json_loads response with
        | Raise e => suggest_except e (Some response) s1
        | Ok parsed =>
            match parsed with
            | JObject _ => (Ok (JArray [parsed]), s1)
            | _ => (Ok parsed, s1)
            end
        end
    end.

End AIFeatures.

(* ================================================================== *)
(** * ui/main_window.py: Worker *)
(* ================================================================== *)

Section Worker.

Context {H : Host}.

(** The pair handed to the slots of the signal [done]: [(error, result)].
    A component that is Python's [None] is [None] here; so a task returns
    an [option], [None] standing for a task that returns [None]. *)
Definition emitted (V : Type) : Type := (option exn * option V)%type.

(** <<
    def run(self):
        try:
            res = self.fn( *self.args, **self.kwargs)
            self.done.emit((None, res))
        except Exception as e:
            self.done.emit((e, None))
>>
    The result is the sequence of pairs emitted on [done]. *)
Definition Worker_run {V} (fn : M (option V)) : State -> list (emitted V) * State :=
  fun s =>
    match fn s with
    | (Ok res, s') => ([(None, res)], s')
    | (Raise e, s') => ([(Some e, None)], s')
    end.

End Worker.

(* ================================================================== *)
(** * Notions used to state the properties *)
(* ================================================================== *)

(** [x] occurs in [y] as a contiguous piece. *)
Definition infix (x y : pystr) : Prop := exists pre post, y = pre ++ x ++ post.

(** A text of ASCII characters only. *)
Definition is_ascii (s : pystr) : bool := forallb (fun c => (c <? 128)%N) s.

(** The capital letters and, in the same order, the small letters. *)
Definition capital_letters : pystr := py "ABCDEFGHIJKLMNOPQRSTUVWXYZ".

Definition small_letters : pystr := py "abcdefghijklmnopqrstuvwxyz".

(** Two characters that are the same but for the letter case: one
    character twice, or a capital letter and its small letter, in either
    order. *)
Definition same_letter (c d : N) : Prop :=
  c = d
  \/ In (c, d) (combine capital_letters small_letters)
  \/ In (d, c) (combine capital_letters small_letters).

(** [marker] occurs in [text] case-insensitively: a piece of [text] is
    [marker] character by character, but for the letter case. *)
Definition occurs_any_case (marker text : pystr) : Prop :=
  exists pre mid post,
    text = pre ++ mid ++ post /\ Forall2 same_letter mid marker.

(** A marker that the lower-casing of no other text can produce: ASCII
    characters, no capital letter, no [k], and no [i] at its end. *)
Definition plain_marker (marker : pystr) : bool :=
  forallb (fun d => (d <? 128)%N
                    && negb (existsb (N.eqb d) capital_letters)
                    && negb (d =? 107)%N) marker
  && negb (last marker 0 =? 105)%N.

(** What [str.lower] makes of a character that is not ASCII, as far as
    ASCII goes: the capital I with a dot above (U+0130) becomes an [i]
    followed by the combining dot above (U+0307), the Kelvin sign
    (U+212A) becomes a [k], and the lower-case form of any other is not
    empty and holds no ASCII character. *)
Definition lower_as_python (H : Host) : Prop :=
  forall before c after,
    (128 <= c)%N ->
    unicode_lower before c after = [105; 775]%N
    \/ unicode_lower before c after = [107]%N
    \/ (unicode_lower before c after <> []
        /\ Forall (fun x => (128 <= x)%N) (unicode_lower before c after)).

(** The number of bytes UTF-8 spends on a code point, and on a text. *)
Definition utf8_width (c : N) : nat :=
  if (c <? 128)%N then 1
  else if (c <? 2048)%N then 2
  else if (c <? 65536)%N then 3
  else 4.

Definition utf8_length (s : pystr) : Z :=
  Z.of_nat (list_sum (List.map utf8_width s)).


(** Removal of the marker of the current branch. *)
Definition strip_marker (line : pystr) : pystr :=
  if startswith (py "* ") line then skipn 2 line else line.

(** The records one line of a log contributes to a history: none or one. *)
Definition commit_of_line (line : pystr) : list CommitRecord :=
  get_commit_history_step [] line.

(** The number of delimiters [|] of a line. *)
Definition count_bars (line : pystr) : nat :=
  List.length (filter (N.eqb 124) line).

(** An invocation of [git commit]: the word after the executable. *)
Definition is_commit_invocation (i : Invocation) : bool :=
  match inv_cmd i with
  | _ :: sub :: _ => str_eqb sub (py "commit")
  | _ => false
  end.

Definition not_commit (i : Invocation) : bool := negb (is_commit_invocation i).

(** A failure message carries an integer when its decimal writing occurs
    in it. *)
Definition carries_int (n : Z) (e : exn) : bool :=
  contains (str_of_int n) (exn_msg e).

Section Frames.

Context {H : Host}.

(** A call that leaves the configured executable as it found it. *)
Definition keeps_git_bin {A} (m : M A) : Prop :=
  forall s, GIT_BIN (snd (m s)) = GIT_BIN s.

(** A call that runs only commands accepted by [P], and forgets none of
    the commands run before it. *)
Definition runs_only (P : Invocation -> bool) {A} (m : M A) : Prop :=
  forall s, exists l, trace (snd (m s)) = trace s ++ l /\ forallb P l = true.

End Frames.

(* ================================================================== *)
(** * A scripted world, in the manner of the test-suite *)
(* ================================================================== *)

(** The tests replace [subprocess.run] by a function of the command line;
    so does this host.  [script] answers to the arguments after the
    executable; [answer] stands for the model server and [loads] for
    [json.loads]. *)
Definition scripted_host
  (script : list pystr -> result CompletedProcess)
  (answer : pystr -> result pystr)
  (loads : pystr -> result json) : Host :=
  {| World := unit;
     subprocess_run := fun cmd _ _ w => (script (tl cmd), w);
     unicode_lower := fun _ c _ => [c];
     os_path_expanduser := fun p _ => p;
     os_path_abspath := fun p _ => p;
     os_path_isdir := fun _ _ => true;
     read_text := fun _ w => (Raise (Exn FileNotFoundError []), w);
     ollama_chat := fun q _ w => (answer q, w);
     json_loads := loads;
     MOCK_MODE := false;
     ollama_imported := true |}.

Definition completed (code : Z) (out err : pystr) : result CompletedProcess :=
  Ok {| returncode := code; stdout := out; stderr := err |}.

Fixpoint args_eqb (a b : list pystr) : bool :=
  match a, b with
  | [], [] => true
  | x :: a', y :: b' => str_eqb x y && args_eqb a' b'
  | _, _ => false
  end.

(** A working tree: [rev-parse --is-inside-work-tree] prints [true];
    the commands of [table] answer as listed; any other command prints
    nothing and succeeds. *)
Fixpoint lookup_args (table : list (list pystr * result CompletedProcess))
  (args : list pystr) : result CompletedProcess :=
  match table with
  | [] => completed 0 [] []
  | (a, r) :: rest => if args_eqb a args then r else lookup_args rest args
  end.

Definition work_tree (table : list (list pystr * result CompletedProcess))
  : list pystr -> result CompletedProcess :=
  lookup_args
    (([py "rev-parse"; py "--is-inside-work-tree"], completed 0 (py "true" ++ NL) [])
     :: table).

Definition no_answer (q : pystr) : result pystr :=
  Raise (Exn OtherException (py "connection refused")).

Definition no_json (text : pystr) : result json :=
  Raise (Exn JSONDecodeError (py "Expecting value: line 1 column 1 (char 0)")).

Definition git_host (table : list (list pystr * result CompletedProcess)) : Host :=
  scripted_host (work_tree table) no_answer no_json.

(** The state on start: the default executable, nothing run yet. *)
Definition start (H : Host) (w : @World H) : @State H :=
  {| GIT_BIN := py "git"; world := w; trace := [] |}.

(** ** Scenarios *)

(** A merge that stops on a conflict. *)
Definition conflict_text : pystr :=
  py "Automatic merge failed; fix conflicts and then commit the result." ++ NL.

Definition conflict_proc : CompletedProcess :=
  {| returncode := 1; stdout := []; stderr := conflict_text |}.

Definition merging : Host :=
  git_host [([py "merge"; py "dev"], Ok conflict_proc)].

(** A staged diff of four bytes. *)
Definition four_bytes : Host :=
  git_host [([py "diff"; py "--cached"], completed 0 (py "aaaa") [])].

(** The working tree of the test of [safe_commit]: a small staged diff,
    and a commit that goes through. *)
Definition small_diff : pystr := py "+ line1" ++ NL ++ py "+ line2" ++ NL.

Definition commit_output : pystr := py "[main abc123] test commit" ++ NL.

Definition committing : Host :=
  git_host
    [([py "rev-parse"; py "--abbrev-ref"; py "HEAD"], completed 0 (py "main" ++ NL) []);
     ([py "diff"; py "--cached"], completed 0 small_diff []);
     ([py "commit"; py "-m"; py "msg"], completed 0 commit_output [])].

(** A staged diff with characters of two, three and four bytes. *)
Definition multibyte_diff : pystr := py "+ 저é😀" ++ NL.

Definition multibyte : Host :=
  git_host [([py "diff"; py "--cached"], completed 0 multibyte_diff [])].

(** A directory that is no working tree: every command fails. *)
Definition outside : Host :=
  scripted_host
    (fun _ => completed 128 [] (py "fatal: not a git repository" ++ NL))
    no_answer no_json.

(** A staged file whose name starts with a space, and two branches. *)
Definition padded_names : pystr := py " a.py" ++ NL.

Definition branch_listing : pystr := py "* main" ++ NL ++ py "  dev" ++ NL.

Definition listing : Host :=
  git_host
    [([py "diff"; py "--name-only"; py "--cached"], completed 0 padded_names []);
     ([py "branch"; py "--list"], completed 0 branch_listing [])].

(** A log of one commit followed by a line that is no commit. *)
Definition log_output : pystr :=
  py "abc123def4567890|Alice|3 days ago|fix bug" ++ NL ++ py "no delimiter here" ++ NL.

Definition logging : Host :=
  git_host
    [([py "log"; py "--pretty=format:%H|%an|%ar|%s"; py "-n100"],
      completed 0 log_output [])].

(** A branch without upstream: the log of incoming commits fails. *)
Definition no_upstream_proc : CompletedProcess :=
  {| returncode := 128; stdout := [];
     stderr := py "fatal: no upstream configured for branch 'main'" ++ NL |}.

Definition no_upstream : Host :=
  git_host
    [([py "log"; py "--pretty=format:%H|%an|%ar|%s"; py "HEAD..@{u}"],
      Ok no_upstream_proc)].

(** A model server that cannot be reached. *)
Definition unreachable : Host := git_host [].

(* ================================================================== *)
(** * backend/ai_features.py: the summary; ui/main_window.py: the status check *)
(* ================================================================== *)
Section MoreAI.
Context {H : Host}.

(** The line of [history_text] for one commit:
    [f"- {c['subject']} (by {c['author']}, {c['date']})"]. *)
Definition history_line (c : CommitRecord) : pystr :=
  py "- " ++ subject c ++ py " (by " ++ author c ++ py ", " ++ date c ++ py ")".

(** The f-string [prompt] of [summarize_history]. *)
Definition summary_prompt (history_text : pystr) : pystr :=
  py "You are a project manager AI. Analyze the following recent commit "
     ++ py "history and provide a high-level summary of the project's progress."
     ++ NL
  ++ NL
  ++ py "Focus on:" ++ NL
  ++ py "1.  What major features were added?" ++ NL
  ++ py "2.  What important bugs were fixed?" ++ NL
  ++ py "3.  What is the general development trend?" ++ NL
  ++ NL
  ++ py "Recent Commits:" ++ NL
  ++ history_text ++ NL
  ++ NL
  ++ py "Provide the summary in Korean.".

(** <<
def summarize_history(history: list) -> str:
    if not history:
        return "분석할 커밋 히스토리가 없습니다."
    history_text = "\n".join([f"- {c['subject']} (by {c['author']}, {c['date']})" for c in history])
    prompt = (the f-string, [summary_prompt] above)
    return ollama_client.ask(prompt)
>>
    The history is a list of the dictionaries built by
    [get_commit_history]. *)
Definition summarize_history (history : list CommitRecord) : M pystr :=
  match history with
  | [] => ret (py "분석할 커밋 히스토리가 없습니다.")
  | _ :: _ =>
      let history_text := join NL (List.map history_line history) in
      ask (summary_prompt history_text) None 1
  end.

(** The dictionary returned by the task of [on_ai_check_status]. *)
Record StatusReport : Type :=
  { status_unstaged : list pystr;
    status_staged : list pystr;
    status_incoming : list CommitRecord }.

(** The task of [MainWindow.on_ai_check_status]:
<<
        def task():
            unstaged = git_utils.unstaged_files(cwd=self.current_project)
            staged = git_utils.staged_files(cwd=self.current_project)
            git_utils.fetch_remote(cwd=self.current_project)
            incoming = git_utils.get_incoming_commits(cwd=self.current_project)
            return {"unstaged": unstaged, "staged": staged, "incoming": incoming}
>> *)
Definition check_status_task (current_project : pystr) : M StatusReport :=
  unstaged <- unstaged_files (Some current_project) ;;
  staged <- staged_files (Some current_project) ;;
  _ <- fetch_remote (Some current_project) ;;
  incoming <- get_incoming_commits (Some current_project) ;;
  ret {| status_unstaged := unstaged; status_staged := staged;
         status_incoming := incoming |}.

End MoreAI.

(* ================================================================== *)
(** * backend/config.py *)
(* ================================================================== *)

(** A Python dictionary: its items in insertion order.  The keys are the
    JSON values that can be hashed. *)
Definition pydict : Type := list (json * json).

Section Config.

(** [a == b] between two JSON numbers or booleans (Python compares them
    by value: [1 == 1.0 == True]). *)
Variable number_eqb : json -> json -> bool.

(** Equality of two keys. *)
Definition key_eqb (a b : json) : bool :=
  match a, b with
  | JString x, JString y => str_eqb x y
  | JNull, JNull => true
  | (JBool _ | JNumber _), (JBool _ | JNumber _) => number_eqb a b
  | _, _ => false
  end.

(** [d.get(k)] *)
Fixpoint dict_get (k : json) (d : pydict) : option json :=
  match d with
  | [] => None
  | (k', v) :: rest => if key_eqb k k' then Some v else dict_get k rest
  end.

(** [d[k] = v]: the value of an existing key is replaced where it stands,
    a new key is added at the end. *)
Fixpoint dict_set (k v : json) (d : pydict) : pydict :=
  match d with
  | [] => [(k, v)]
  | (k', v') :: rest =>
      if key_eqb k k' then (k', v) :: rest else (k', v') :: dict_set k v rest
  end.

(** Lists and dictionaries cannot be keys. *)
Definition hashable (k : json) : bool :=
  match k with
  | JArray _ | JObject _ => false
  | _ => true
  end.

(** The keys of the dictionary that [json.load] builds from an object:
    each name once, in the order of its first occurrence ([seen] holds
    the names met so far). *)
Fixpoint object_keys (members : list (pystr * json)) (seen : list pystr)
  : list pystr :=
  match members with
  | [] => []
  | (k, _) :: rest =>
      if existsb (str_eqb k) seen then object_keys rest seen
      else k :: object_keys rest (k :: seen)
  end.

(** One element of a sequence given to [dict.update]: it must be an
    iterable of two items, a key that can be hashed and a value; a
    dictionary is iterated over its keys. *)
Definition pair_of_item (item : json) : option (json * json) :=
  match item with
  | JArray [k; v] => if hashable k then Some (k, v) else None
  | JString [c1; c2] => Some (JString [c1], JString [c2])
  | JObject members =>
      match object_keys members [] with
      | [k1; k2] => Some (JString k1, JString k2)
      | _ => None
      end
  | _ => None
  end.

Fixpoint dict_update_sequence (d : pydict) (items : list json) : option pydict :=
  match items with
  | [] => Some d
  | item :: rest =>
      match pair_of_item item with
      | Some (k, v) => dict_update_sequence (dict_set k v d) rest
      | None => None
      end
  end.

(** [d.update(other)] for a value read by [json.load]; [None] when the
    call raises ([TypeError] on a value that cannot be iterated,
    [ValueError] or [TypeError] on an element that is no pair). *)
Definition dict_update (d : pydict) (other : json) : option pydict :=
  match other with
  | JObject members =>
      Some (fold_left (fun acc kv => dict_set (JString (fst kv)) (snd kv) acc)
                      members d)
  | JArray items => dict_update_sequence d items
  | JString [] => Some d
  | _ => None
  end.

(** The dictionary [defaults] of [load_config]; [which_git] is the
    result of [shutil.which("git")]. *)
Definition config_defaults (which_git : option pystr) : pydict :=
  [(JString (py "max_diff_bytes"), JNumber (py "2000000"));
   (JString (py "ai_timeout_seconds"), JNumber (py "30.0"));
   (JString (py "git_executable"),
    JString (match which_git with
             | Some p => if truthy p then p else py "git"
             | None => py "git"
             end));
   (JString (py "ollama_host"), JString (py "http://localhost:11434"));
   (JString (py "ollama_model"), JString (py "exaone3.5:2.4b"))].

(** <<
def load_config() -> Dict[str, Any]:
    config_file = get_config_file()
    defaults = {...}
    if not config_file.exists():
        return defaults
    try:
        with open(config_file, "r", encoding="utf-8") as f:
            user_config = json.load(f)
        result = defaults.copy()
        result.update(user_config)
        return result
    except Exception as e:
        print(f"Error loading config: {e}, using defaults")
        return defaults
>>
    [file_exists] is [config_file.exists()] and [loaded] the outcome of
    opening the file and of [json.load]. *)
Definition load_config (which_git : option pystr) (file_exists : bool)
  (loaded : result json) : pydict :=
  let defaults := config_defaults which_git in
  if negb file_exists then defaults
  else
    match loaded with
    | Ok user_config =>
        match dict_update defaults user_config with
        | Some result => result
        | None => defaults
        end
    | Raise _ => defaults
    end.

(** The value a JSON object gives to a name: that of its last member of
    that name. *)
Fixpoint member (name : pystr) (members : list (pystr * json)) : option json :=
  match members with
  | [] => None
  | (k, v) :: rest =>
      match member name rest with
      | Some v' => Some v'
      | None => if str_eqb name k then Some v else None
      end
  end.

End Config.

(* ================================================================== *)
(** * ui/ai_features_widget.py and ui/main_window.py: the assistant *)
(* ================================================================== *)

Section Assistant.

Context {H : Host}.

(** What the Python interpreter and the Qt binding decide and the model
    leaves open: [str(v)] of a value read by [json.loads], [bool(x)] of a
    JSON number given by its literal, and the text of the [TypeError] an
    operation raises on a value. *)
Variable py_str : json -> pystr.
Variable number_truthy : pystr -> bool.
Variable type_error_text : json -> pystr.

(** [v == s] for a string [s]: only an equal string is equal to it. *)
Definition json_eq_str (v : json) (s : pystr) : bool :=
  match v with
  | JString t => str_eqb t s
  | _ => false
  end.

(** [bool(v)] *)
Definition json_truthy (v : json) : bool :=
  match v with
  | JNull => false
  | JBool b => b
  | JNumber literal => number_truthy literal
  | JString s => truthy s
  | JArray items => match items with [] => false | _ => true end
  | JObject members => match members with [] => false | _ => true end
  end.

(** [needle in container] for a string [needle]: a key of a dictionary,
    an element of a list, a substring of a string; [TypeError] on a
    number, a boolean or [None]. *)
Definition str_in (needle : pystr) (container : json) : result bool :=
  match container with
  | JObject members => Ok (existsb (fun kv => str_eqb (fst kv) needle) members)
  | JArray items => Ok (existsb (fun v => json_eq_str v needle) items)
  | JString s => Ok (contains needle s)
  | _ => Raise (Exn TypeError (type_error_text container))
  end.

(** What the chat does, in order: a line added to the chat history, and
    the signal [command_requested] emitted with a dictionary. *)
Inductive chat_event : Type :=
| add_chat_message (sender message : pystr)
| command_requested (command_data : list (pystr * json)).

(** <<
            cleaned_response = response.strip()
            if cleaned_response.startswith("```json"):
                cleaned_response = cleaned_response[7:]
            if cleaned_response.endswith("```"):
                cleaned_response = cleaned_response[:-3]
            cleaned_response = cleaned_response.strip()
>> *)
Definition clean_response (response : pystr) : pystr :=
  let cleaned := strip response in
  let cleaned :=
    if startswith (py "```json") cleaned then skipn 7 cleaned else cleaned in
  let cleaned :=
    if endswith (py "```") cleaned
    then firstn (List.length cleaned - 3) cleaned else cleaned in
  strip cleaned.

(** The callback [done_cb] of [send_chat_message], on the pair
    [(err, response)] the worker emits:
<<
            err, response = result
            if err:
                self.add_chat_message("AI", f"오류가 발생했습니다: {err}")
                return
            (cleaned_response, above)
            try:
                command_data = json.loads(cleaned_response)
                if "command" in command_data:
                    self.add_chat_message("AI", f"알겠습니다. '{command_data['command']}' 명령을 실행합니다.")
                    self.command_requested.emit(command_data)
                    return
            except json.JSONDecodeError:
                pass
            self.add_chat_message("AI", response)
>>
    The subscript [command_data['command']] raises [TypeError] on a list
    and on a string; [KeyError] (one of the further classes) cannot occur
    after the test. *)
Definition chat_done_cb (err : option exn) (response : pystr)
  : result (list chat_event) :=
  match err with
  | Some e =>
      Ok [add_chat_message (py "AI") (py "오류가 발생했습니다: " ++ exn_msg e)]
  | None =>
      match json_loads (clean_response response) with
      | Raise e =>
          if isinstance e JSONDecodeError
          then Ok [add_chat_message (py "AI") response]
          else Raise e
      | Ok command_data =>
          match str_in (py "command") command_data with
          | Raise e => Raise e
          | Ok false => Ok [add_chat_message (py "AI") response]
          | Ok true =>
              match command_data with
              | JObject members =>
                  match member (py "command") members with
                  | Some command =>
                      Ok [add_chat_message (py "AI")
                            (py "알겠습니다. '" ++ py_str command
                             ++ py "' 명령을 실행합니다.");
                          command_requested members]
                  | None => Raise (Exn OtherException (py "'command'"))
                  end
              | _ => Raise (Exn TypeError (type_error_text command_data))
              end
          end
      end
  end.

(** The methods of the main window that [on_ai_command_requested] calls,
    each with the keyword argument [done_cb] but the last. *)
Inductive handler : Type :=
| on_stage_all
| on_commit
| on_ai_commit
| on_push
| on_pull
| on_branch_changed (branch : json)
| on_merge_dialog (force_branch : json)
| on_undo_commit_hard
| on_undo_commit_soft
| on_ai_check_status.

(** Whether the method has a parameter [done_cb]:
    [def on_push(self)] has none, [def on_ai_check_status(self)] neither. *)
Definition has_done_cb (h : handler) : bool :=
  match h with
  | on_push | on_ai_check_status => false
  | _ => true
  end.

(** What the slot does, in order. *)
Inductive action : Type :=
| system_message (message : pystr)
| commit_edit_setText (text : pystr)
| call (h : handler).

(** A call [self.h(..., done_cb=done_cb)]: [TypeError] when the method
    takes no such argument. *)
Definition call_with_done_cb (h : handler) : result (list action) :=
  if has_done_cb h then Ok [call h]
  else Raise (Exn TypeError (py "got an unexpected keyword argument 'done_cb'")).

(** [command_data.get(key, default)] *)
Definition get (key : pystr) (default : json) (members : list (pystr * json))
  : json :=
  match member key members with
  | Some v => v
  | None => default
  end.

(** [any(keyword in user_input for keyword in ["생성", "만들어줘", "ai", "AI"])
    if user_input else False] *)
Definition force_ai_generation (user_input : pystr) : bool :=
  if truthy user_input
  then existsb (fun keyword => contains keyword user_input)
               [py "생성"; py "만들어줘"; py "ai"; py "AI"]
  else false.

(** [bool(self.current_project)] *)
Definition open_project (current_project : option pystr) : bool :=
  match current_project with Some p => truthy p | None => false end.

(** The slot [on_ai_command_requested(self, command_data)].
    [current_project] is the attribute of that name ([None] at start);
    [user_input] is [getattr(chat_widget.chat_input, 'user_text', '')].
    [QLineEdit.setText] raises [TypeError] on a value that is no string. *)
Definition on_ai_command_requested (current_project : option pystr)
  (user_input : pystr) (command_data : list (pystr * json))
  : result (list action) :=
  let command := get (py "command") JNull command_data in
  if negb (open_project current_project)
  then Ok [system_message
             (py "오류: 먼저 Git 프로젝트를 열어주세요. '프로젝트' 탭에서 저장소를 선택할 수 있습니다.")]
  else if json_eq_str command (py "stage") then
    let files := get (py "files") (JArray []) command_data in
    match str_in (py "all") files with
    | Raise e => Raise e
    | Ok true => call_with_done_cb on_stage_all
    | Ok false => Ok []
    end
  else if json_eq_str command (py "commit") then
    let msg := get (py "message") JNull command_data in
    if json_truthy msg && negb (force_ai_generation user_input)
       && negb (json_eq_str msg (py "commit") || json_eq_str msg (py "커밋"))
    then
      match msg with
      | JString text =>
          match call_with_done_cb on_commit with
          | Ok calls => Ok (commit_edit_setText text :: calls)
          | Raise e => Raise e
          end
      | _ => Raise (Exn TypeError (type_error_text msg))
      end
    else
      match call_with_done_cb on_ai_commit with
      | Ok calls =>
          Ok (system_message (py "AI로 커밋 메시지를 생성 후 커밋을 진행합니다.")
              :: calls)
      | Raise e => Raise e
      end
  else if json_eq_str command (py "push") then call_with_done_cb on_push
  else if json_eq_str command (py "pull") then call_with_done_cb on_pull
  else if json_eq_str command (py "checkout") then
    let branch := get (py "branch") JNull command_data in
    if json_truthy branch then call_with_done_cb (on_branch_changed branch)
    else Ok []
  else if json_eq_str command (py "merge") then
    let branch := get (py "branch") JNull command_data in
    if json_truthy branch then call_with_done_cb (on_merge_dialog branch)
    else Ok []
  else if json_eq_str command (py "reset") then
    let mode := get (py "mode") (JString (py "soft")) command_data in
    if json_eq_str mode (py "hard") then call_with_done_cb on_undo_commit_hard
    else call_with_done_cb on_undo_commit_soft
  else if json_eq_str command (py "check_status") then Ok [call on_ai_check_status]
  else Ok [].

End Assistant.

(* ================================================================== *)
(** * ui/main_window.py: the callback of a pull *)
(* ================================================================== *)
Section PullCallback.

Context {H : Host}.

(** What the callbacks of the main window do, in order. *)
Inductive window_event : Type :=
| QMessageBox_warning (title text : pystr)
| QMessageBox_critical (title text : pystr)
| QMessageBox_information (title text : pystr)
| handle_merge_conflict (source_branch : pystr)
| refresh_staged
| refresh_history
| statusBar_showMessage (text : pystr)
| done_cb_call (err : option exn) (summary : pystr).

(** The task of [MainWindow.on_pull]:
    [return git_utils.pull(cwd=self.current_project)]. *)
Definition pull_task (current_project : pystr) : M (option pystr) :=
  out <- pull (Some current_project) ;; ret (Some out).

(** The callback [internal_done_cb] of [MainWindow.on_pull]:
<<
        def internal_done_cb(result):
            err, res = result
            if isinstance(err, git_utils.GitConflictError):
                if not done_cb:
                    QMessageBox.warning(self, "풀 충돌", "...")
                self.handle_merge_conflict("원격 저장소의 변경사항")
            elif err:
                if not done_cb:
                    QMessageBox.critical(self, "풀 실패", str(err))
            else:
                pull_summary = res.strip() if res else "원격 변경사항이 병합되었습니다."
                if not done_cb:
                    QMessageBox.information(self, "풀 성공", pull_summary)
                self.refresh_staged()
                self.refresh_history()
                self.statusBar().showMessage("풀 완료", 5000)
            if done_cb:
                done_cb(err, pull_summary)
>>
    [done_cb] tells whether [on_pull] was given a callback;
    [conflict_handler] is the exception [handle_merge_conflict] raises, if
    it raises.  The local variable [pull_summary] is assigned in the last
    branch only.  The result is what was done and the exception that
    ended the callback, if one did. *)
Definition pull_internal_done_cb (done_cb : bool) (conflict_handler : option exn)
  (result : emitted pystr) : list window_event * option exn :=
  let (err, res) := result in
  let finish (events : list window_event) (pull_summary : option pystr) :=
    if done_cb then
      match pull_summary with
      | Some summary => (events ++ [done_cb_call err summary], None)
      | None =>
          (events,
           Some (Exn UnboundLocalError
                   (py "cannot access local variable 'pull_summary' where it is not"
                    ++ py " associated with a value")))
      end
    else (events, None) in
  match err with
  | Some e =>
      if isinstance e GitConflictError then
        let events :=
          (if done_cb then []
           else [QMessageBox_warning (py "풀 충돌")
                   (py "원격 변경사항을 가져오는 중 충돌이 발생했습니다." ++ NL
                    ++ py "AI가 충돌 분석을 시작합니다.")])
          ++ [handle_merge_conflict (py "원격 저장소의 변경사항")] in
        match conflict_handler with
        | Some e' => (events, Some e')
        | None => finish events None
        end
      else
        finish (if done_cb then []
                else [QMessageBox_critical (py "풀 실패") (exn_msg e)]) None
  | None =>
      let pull_summary :=
        match res with
        | Some out => if truthy out then strip out
                      else py "원격 변경사항이 병합되었습니다."
        | None => py "원격 변경사항이 병합되었습니다."
        end in
      finish ((if done_cb then []
               else [QMessageBox_information (py "풀 성공") pull_summary])
              ++ [refresh_staged; refresh_history;
                  statusBar_showMessage (py "풀 완료")])
             (Some pull_summary)
  end.

(** [on_pull] once its worker is started ([_start_worker] starts none
    while another task runs): the worker runs the task and the callback
    receives each pair it emits. *)
Definition on_pull_run (done_cb : bool) (conflict_handler : option exn)
  (current_project : pystr) (s : State)
  : list (list window_event * option exn) * State :=
  let (pairs, s') := Worker_run (pull_task current_project) s in
  (List.map (pull_internal_done_cb done_cb conflict_handler) pairs, s').

Definition is_done_cb_call (ev : window_event) : bool :=
  match ev with
  | done_cb_call _ _ => true
  | _ => false
  end.

End PullCallback.

(* ================================================================== *)
(** * Further notions *)
(* ================================================================== *)

(** A string that [strip] leaves as it is: it neither starts nor ends
    with white space. *)
Definition is_trimmed (s : pystr) : bool :=
  match s with
  | [] => true
  | c :: _ => negb (isspace c) && negb (isspace (last s c))
  end.

(** A string with one of the line boundaries of [str.splitlines]. *)
Definition has_linebreak (s : pystr) : bool := existsb is_linebreak s.

(** The lines, each closed by a newline: what a command prints. *)
Definition unlines (lines : list pystr) : pystr :=
  flat_map (fun l => l ++ NL) lines.



(** The line [%H|%an|%ar|%s] that [git log] prints for a commit. *)
Definition log_line (c : CommitRecord) : pystr :=
  hash c ++ 124%N :: author c ++ 124%N :: date c ++ 124%N :: subject c.

(** The record with its hash cut to seven characters. *)
Definition short_hash (c : CommitRecord) : CommitRecord :=
  {| hash := firstn 7 (hash c); author := author c; date := date c;
     subject := subject c |}.

(** A string that holds the delimiter [|]. *)
Definition has_bar (s : pystr) : bool := existsb (N.eqb 124) s.

(** A commit that its line of the log determines: no delimiter in the
    hash, the author and the date, no line boundary in any field. *)
Definition clean_commit (c : CommitRecord) : bool :=
  negb (has_bar (hash c)) && negb (has_bar (author c)) && negb (has_bar (date c))
  && negb (has_linebreak (hash c)) && negb (has_linebreak (author c))
  && negb (has_linebreak (date c)) && negb (has_linebreak (subject c)).

(** The line [git branch --list] prints for a branch: the current one
    after [* ], another after two spaces. *)
Definition branch_line (current : bool) (name : pystr) : pystr :=
  (if current then py "* " else py "  ") ++ name.

(** A branch name that its line determines. *)
Definition clean_branch (name : pystr) : bool :=
  truthy name && is_trimmed name && negb (has_linebreak name)
  && negb (startswith (py "* ") name).

(** [l1] is [l2] with some of its elements left out. *)
Inductive subseq {A : Type} : list A -> list A -> Prop :=
| subseq_nil : subseq [] []
| subseq_skip (x : A) (l1 l2 : list A) : subseq l1 l2 -> subseq l1 (x :: l2)
| subseq_keep (x : A) (l1 l2 : list A) : subseq l1 l2 -> subseq (x :: l1) (x :: l2).


(* ================================================================== *)
(** * Further scenarios *)
(* ================================================================== *)

(** A merge that stops on a conflict, reported in capital letters. *)
Definition shouted_proc : CompletedProcess :=
  {| returncode := 1; stdout := [];
     stderr := py "AUTOMATIC MERGE FAILED; Fix Conflicts and then commit the result."
               ++ NL |}.

Definition shouting : Host :=
  git_host [([py "merge"; py "dev"], Ok shouted_proc)].

(** What every command of the scenario [outside] ends with. *)
Definition not_a_repository : CompletedProcess :=
  {| returncode := 128; stdout := [];
     stderr := py "fatal: not a git repository" ++ NL |}.

(** A log of two commits, as [git log --pretty=format:%H|%an|%ar|%s]
    prints them. *)
Definition two_commits : list CommitRecord :=
  [{| hash := py "abc123def4567890"; author := py "Alice";
      date := py "3 days ago"; subject := py "fix bug | parser" |};
   {| hash := py "0123456789abcdef"; author := py "Bob";
      date := py "5 days ago"; subject := py "add tests" |}].

(** The working tree whose log prints these two commits. *)
Definition recording : Host :=
  git_host
    [([py "log"; py "--pretty=format:%H|%an|%ar|%s"; py "-n100"],
      completed 0 (join NL (List.map log_line two_commits)) [])].

(** A commit whose subject holds a form feed, followed by a text that
    reads as the line of another commit; and the working tree whose log
    prints it. *)
Definition forged_commit : CommitRecord :=
  {| hash := py "deadbeefcafe0000"; author := py "Mallory";
     date := py "now"; subject := py "x" |}.

Definition form_feed_commit : CommitRecord :=
  {| hash := py "abc123def4567890"; author := py "Alice";
     date := py "3 days ago";
     subject := py "page" ++ 12%N :: log_line forged_commit |}.

Definition forging : Host :=
  git_host
    [([py "log"; py "--pretty=format:%H|%an|%ar|%s"; py "-n100"],
      completed 0 (log_line form_feed_commit) [])].

(** A merge in progress: the listing of the files in conflict ends with
    the exit code 1, and so does that of the staged files. *)
Definition conflict_listing : CompletedProcess :=
  {| returncode := 1; stdout := py "a.py" ++ NL; stderr := [] |}.

Definition conflicting : Host :=
  git_host
    [([py "diff"; py "--name-only"; py "--diff-filter=U"], Ok conflict_listing);
     ([py "diff"; py "--name-only"; py "--cached"], Ok conflict_listing)].

(** A system without [find]. *)
Definition no_find : Host :=
  scripted_host
    (fun _ => Raise (Exn FileNotFoundError
                       (py "[Errno 2] No such file or directory: 'find'")))
    no_answer no_json.




(** A directory that is no working tree, where the other commands
    succeed and print nothing. *)
Definition plain_directory : Host :=
  scripted_host
    (fun args =>
       if args_eqb args [py "rev-parse"; py "--is-inside-work-tree"]
       then completed 128 [] (py "fatal: not a git repository" ++ NL)
       else completed 0 [] [])
    no_answer no_json.

(** The client in mock mode. *)
Definition mocked : Host :=
  {| World := unit;
     subprocess_run := fun cmd _ _ w => (work_tree [] (tl cmd), w);
     unicode_lower := fun _ c _ => [c];
     os_path_expanduser := fun p _ => p;
     os_path_abspath := fun p _ => p;
     os_path_isdir := fun _ _ => true;
     read_text := fun _ w => (Raise (Exn FileNotFoundError []), w);
     ollama_chat := fun q _ w => (no_answer q, w);
     json_loads := no_json;
     MOCK_MODE := true;
     ollama_imported := true |}.

(** A reply of the assistant that reads as the command [pull]. *)
Definition pull_command : list (pystr * json) :=
  [(py "command", JString (py "pull"))].

(** A [json.loads] that reads every reply as that command. *)
Definition commanding : Host :=
  scripted_host (work_tree []) no_answer (fun _ => Ok (JObject pull_command)).

(** A configuration file that sets the model and a key of its own. *)
Definition user_settings : list (pystr * json) :=
  [(py "ollama_model", JString (py "llama3")); (py "theme", JString (py "dark"))].

(** Stand-ins for what the interpreter decides. *)
Definition no_number_eqb (a b : json) : bool := false.

Definition plain_str (v : json) : pystr :=
  match v with
  | JString s => s
  | _ => []
  end.

Definition no_text (v : json) : pystr := [].

Definition nonzero (literal : pystr) : bool := negb (str_eqb literal (py "0")).

(* ================================================================== *)
(** * Properties of the string operations *)
(* ================================================================== *)

Lemma str_eqb_eq (a b : pystr) : str_eqb a b = true <-> a = b.
Proof.
  revert b; induction a as [|x a IH]; intros [|y b]; simpl;
    try (split; [discriminate | discriminate]); try tauto.
  rewrite andb_true_iff, N.eqb_eq, IH.
  split; [intros [-> ->]; reflexivity | intros E; inversion E; auto].
Qed.

Lemma str_eqb_refl (a : pystr) : str_eqb a a = true.
Proof. apply str_eqb_eq; reflexivity. Qed.

Lemma startswith_prefix (p s : pystr) :
  startswith p s = true <-> exists t, s = p ++ t.
Proof.
  revert s; induction p as [|a p IH]; intros s; simpl.
  - split; [intros _; exists s; reflexivity | reflexivity].
  - destruct s as [|b s].
    + split; [discriminate | intros [t E]; discriminate].
    + rewrite andb_true_iff, N.eqb_eq, IH. split.
      * intros [-> [t ->]]. exists t; reflexivity.
      * intros [t E]. inversion E; subst. split; [reflexivity | exists t; reflexivity].
Qed.

Lemma contains_infix (needle hay : pystr) :
  contains needle hay = true <-> infix needle hay.
Proof.
  unfold infix. induction hay as [|c hay IH]; simpl.
  - rewrite orb_false_r, startswith_prefix. split.
    + intros [t E]. exists [], t. exact E.
    + intros (pre & post & E). symmetry in E.
      apply app_eq_nil in E as [-> E]. apply app_eq_nil in E as [-> ->].
      exists []; reflexivity.
  - rewrite orb_true_iff, startswith_prefix, IH. split.
    + intros [[t E] | (pre & post & E)].
      * exists [], t. exact E.
      * exists (c :: pre), post. simpl. rewrite E. reflexivity.
    + intros (pre & post & E). destruct pre as [|d pre]; simpl in E.
      * left. exists post. exact E.
      * right. inversion E; subst. exists pre, post. reflexivity.
Qed.

Lemma infix_refl (x : pystr) : infix x x.
Proof. exists [], []. rewrite app_nil_r. reflexivity. Qed.

Lemma infix_app_l (x y z : pystr) : infix x y -> infix x (z ++ y).
Proof.
  intros (pre & post & ->). exists (z ++ pre), post.
  rewrite <- app_assoc. reflexivity.
Qed.

Lemma infix_app_r (x y z : pystr) : infix x y -> infix x (y ++ z).
Proof.
  intros (pre & post & ->). exists pre, (post ++ z).
  rewrite <- !app_assoc. reflexivity.
Qed.

Lemma infix_join_tail (sep g : pystr) (args : list pystr) :
  infix (join sep args) (join sep (g :: args)).
Proof.
  destruct args as [|a args].
  - exists g, []. simpl. rewrite app_nil_r. reflexivity.
  - change (join sep (g :: a :: args)) with (g ++ sep ++ join sep (a :: args)).
    do 2 apply infix_app_l. apply infix_refl.
Qed.

Create HintDb infix.

#[local] Hint Resolve infix_refl infix_app_l infix_app_r infix_join_tail : infix.

(* ================================================================== *)
(** * Properties of the command runner and of the facade *)
(* ================================================================== *)

Section Properties.

Context {H : Host}.

(** ** The command runner, unfolded *)

Lemma run_git_command_unfold (args : list pystr) (cwd : option pystr)
  (check : bool) (s : State) :
  run_git_command args cwd check s =
  let cmd := GIT_BIN s :: args in
  match subprocess_run cmd cwd 20 (world s) with
  | (Raise e, w) => (Raise e, ran s cmd cwd w)
  | (Ok proc, w) =>
      if check && negb (returncode proc =? 0)%Z then
        if contains (py "merge failed") (lower (stderr proc))
           && contains (py "fix conflicts") (lower (stderr proc))
        then (Raise (Exn GitConflictError
                       (py "Merge conflict detected:" ++ NL ++ stderr proc)),
              ran s cmd cwd w)
        else (Raise (Exn RuntimeError
                       (py "git command failed: " ++ join (py " ") cmd ++ NL
                        ++ stderr proc)),
              ran s cmd cwd w)
      else (Ok (stdout proc), ran s cmd cwd w)
  end.
Proof.
  unfold run_git_command, bind, get_git_executable, run_subprocess, ret, raise.
  cbv zeta.
  destruct (subprocess_run (GIT_BIN s :: args) cwd 20 (world s)) as [[proc|e] w];
    [|reflexivity].
  destruct (check && negb (returncode proc =? 0)%Z); [|reflexivity].
  destruct (contains (py "merge failed") (lower (stderr proc))
            && contains (py "fix conflicts") (lower (stderr proc)));
    reflexivity.
Qed.

Lemma run_git_command_state (args : list pystr) (cwd : option pystr)
  (check : bool) (s : State) :
  snd (run_git_command args cwd check s) =
  ran s (GIT_BIN s :: args) cwd
      (snd (subprocess_run (GIT_BIN s :: args) cwd 20 (world s))).
Proof.
  rewrite run_git_command_unfold. cbv zeta.
  destruct (subprocess_run (GIT_BIN s :: args) cwd 20 (world s)) as [[proc|e] w];
    [|reflexivity].
  destruct (check && negb (returncode proc =? 0)%Z); [|reflexivity].
  destruct (contains (py "merge failed") (lower (stderr proc))
            && contains (py "fix conflicts") (lower (stderr proc)));
    reflexivity.
Qed.

(** ** Calls that keep the configured executable *)

Lemma keeps_ret {A} (a : A) : keeps_git_bin (ret a).
Proof. intros s; reflexivity. Qed.

Lemma keeps_raise {A} (e : exn) : keeps_git_bin (@raise _ A e).
Proof. intros s; reflexivity. Qed.

Lemma keeps_lift {A} (r : result A) : keeps_git_bin (lift r).
Proof. intros s; reflexivity. Qed.

Lemma keeps_bind {A B} (m : M A) (k : A -> M B) :
  keeps_git_bin m -> (forall a, keeps_git_bin (k a)) -> keeps_git_bin (bind m k).
Proof.
  intros Hm Hk s. unfold bind. specialize (Hm s).
  destruct (m s) as [[a|e] s']; simpl in *.
  - rewrite Hk. exact Hm.
  - exact Hm.
Qed.

Lemma keeps_try_except {A} (m : M A) (c : exn -> bool) (h : exn -> M A) :
  keeps_git_bin m -> (forall e, keeps_git_bin (h e)) ->
  keeps_git_bin (try_except m c h).
Proof.
  intros Hm Hh s. unfold try_except. specialize (Hm s).
  destruct (m s) as [[a|e] s']; simpl in *.
  - exact Hm.
  - destruct (c e); simpl; [rewrite Hh|]; exact Hm.
Qed.

Lemma keeps_if {A} (b : bool) (m1 m2 : M A) :
  keeps_git_bin m1 -> keeps_git_bin m2 -> keeps_git_bin (if b then m1 else m2).
Proof. destruct b; auto. Qed.

Lemma keeps_run_subprocess cmd cwd t : keeps_git_bin (run_subprocess cmd cwd t).
Proof.
  intros s. unfold run_subprocess.
  destruct (subprocess_run cmd cwd t (world s)); reflexivity.
Qed.

Lemma keeps_run_git_command args cwd check :
  keeps_git_bin (run_git_command args cwd check).
Proof. intros s. rewrite run_git_command_state. reflexivity. Qed.

Create HintDb frame.

#[local] Hint Resolve keeps_ret keeps_raise keeps_lift keeps_bind
  keeps_try_except keeps_if keeps_run_subprocess keeps_run_git_command : frame.

Lemma keeps_is_git_repo cwd : keeps_git_bin (is_git_repo cwd).
Proof. unfold is_git_repo. auto 8 with frame. Qed.

#[local] Hint Resolve keeps_is_git_repo : frame.

Ltac keeps := repeat (first
  [ match goal with |- forall _, _ => intro end
  | solve [auto with frame]
  | apply keeps_bind
  | apply keeps_try_except
  | apply keeps_if ]).

Lemma keeps_diff_staged cwd : keeps_git_bin (diff_staged cwd).
Proof. unfold diff_staged. keeps. Qed.

#[local] Hint Resolve keeps_diff_staged : frame.

Lemma keeps_staged_diff_size cwd : keeps_git_bin (staged_diff_size cwd).
Proof. unfold staged_diff_size. keeps. Qed.

#[local] Hint Resolve keeps_staged_diff_size : frame.

Lemma keeps_find_git_repos_loop root hidden paths acc :
  keeps_git_bin (find_git_repos_loop root hidden paths acc).
Proof.
  revert acc. induction paths as [|path rest IH]; intros acc; simpl.
  - keeps.
  - apply keeps_if; [apply IH|]. keeps.
Qed.

#[local] Hint Resolve keeps_find_git_repos_loop : frame.

Lemma keeps_find_git_repos root depth hidden :
  keeps_git_bin (find_git_repos root depth hidden).
Proof.
  unfold find_git_repos. apply keeps_if; [keeps|].
  intros s.
  destruct (negb (os_path_isdir _ (world s))); [reflexivity|].
  match goal with |- GIT_BIN (snd (?m s)) = _ => assert (keeps_git_bin m) as K end.
  { keeps. }
  apply K.
Qed.

Lemma keeps_find_all_git_repos t : keeps_git_bin (find_all_git_repos t).
Proof.
  intros s. unfold find_all_git_repos. cbv zeta.
  match goal with |- GIT_BIN (snd (?m s)) = _ => assert (keeps_git_bin m) as K end.
  { keeps. }
  apply K.
Qed.

Lemma keeps_get_file_content f cwd : keeps_git_bin (get_file_content f cwd).
Proof.
  destruct cwd as [dir|]; simpl; [|keeps].
  intros s. destruct (read_text (os_path_join dir f) (world s)); reflexivity.
Qed.

Lemma keeps_at {A} (m : M A) (s : State) :
  keeps_git_bin m -> GIT_BIN (snd (m s)) = GIT_BIN s.
Proof. intros K. apply K. Qed.

Lemma state_after_keeps (c : facade_call) (s : State) :
  GIT_BIN (state_after c s) = GIT_BIN s.
Proof.
  destruct c; cbn [state_after]; apply keeps_at;
    try apply keeps_run_git_command;
    try apply keeps_find_git_repos;
    try apply keeps_find_all_git_repos;
    try apply keeps_get_file_content;
    try (intros s'; reflexivity);
    unfold current_branch, staged_files, unstaged_files, conflicted_files,
      safe_commit, commit, list_branches, get_commit_history, get_commit_diff,
      get_incoming_commits, _parse_log_output;
    keeps.
Qed.

(** ** The configured executable *)

(** C10.  [set_git_executable] with the empty string changes nothing,
    so that [get_git_executable] still returns the value it returned
    before; with a non-empty [p] it makes [get_git_executable] return
    exactly [p]; and every other operation of the facade, called with
    any arguments in any state, and whether it returns or raises, leaves
    the value returned by [get_git_executable] unchanged. *)
Theorem set_git_executable_only_writer :
  (forall s, set_git_executable [] s = (Ok tt, s)) /\
  (forall p s, p <> [] ->
     fst (get_git_executable (snd (set_git_executable p s))) = Ok p) /\
  (forall c s,
     fst (get_git_executable (state_after c s)) = fst (get_git_executable s)).
Proof.
  split; [|split].
  - intros s. reflexivity.
  - intros p s Hp. unfold set_git_executable.
    destruct p as [|c p]; [contradiction|]. reflexivity.
  - intros c s. unfold get_git_executable. simpl.
    rewrite state_after_keeps. reflexivity.
Qed.

(** ** The identity probes *)

(** C5.  [is_git_repo] and [current_branch] always return.  When the
    call of the command runner beneath raises, whatever the exception,
    [is_git_repo] returns [False] and [current_branch] returns [None];
    when it returns an output, [is_git_repo] returns whether the trimmed
    output is [true] and [current_branch] returns the trimmed output.  In
    particular a process that cannot be run, that times out or that exits
    with a non-zero code gives [False] and [None]. *)
Theorem identity_probes_never_raise (cwd : option pystr) (s : State) :
  let inside := [py "rev-parse"; py "--is-inside-work-tree"] in
  let head := [py "rev-parse"; py "--abbrev-ref"; py "HEAD"] in
  match run_git_command inside cwd true s with
  | (Ok out, s') => is_git_repo cwd s = (Ok (str_eqb (strip out) (py "true")), s')
  | (Raise _, s') => is_git_repo cwd s = (Ok false, s')
  end
  /\
  match run_git_command head cwd true s with
  | (Ok out, s') => current_branch cwd s = (Ok (Some (strip out)), s')
  | (Raise _, s') => current_branch cwd s = (Ok None, s')
  end
  /\
  match subprocess_run (GIT_BIN s :: inside) cwd 20 (world s) with
  | (Ok proc, _) =>
      if (returncode proc =? 0)%Z then True
      else fst (is_git_repo cwd s) = Ok false
  | (Raise _, _) => fst (is_git_repo cwd s) = Ok false
  end
  /\
  match subprocess_run (GIT_BIN s :: head) cwd 20 (world s) with
  | (Ok proc, _) =>
      if (returncode proc =? 0)%Z then True
      else fst (current_branch cwd s) = Ok None
  | (Raise _, _) => fst (current_branch cwd s) = Ok None
  end.
Proof.
  cbv zeta. unfold is_git_repo, current_branch, try_except, bind, ret, any_Exception.
  repeat split.
  - destruct (run_git_command _ cwd true s) as [[out|e] s']; reflexivity.
  - destruct (run_git_command _ cwd true s) as [[out|e] s']; reflexivity.
  - rewrite run_git_command_unfold. cbv zeta.
    destruct (subprocess_run _ cwd 20 (world s)) as [[proc|e] w]; [|reflexivity].
    destruct (returncode proc =? 0)%Z; [exact I|]. simpl.
    destruct (contains _ _ && contains _ _); reflexivity.
  - rewrite run_git_command_unfold. cbv zeta.
    destruct (subprocess_run _ cwd 20 (world s)) as [[proc|e] w]; [|reflexivity].
    destruct (returncode proc =? 0)%Z; [exact I|]. simpl.
    destruct (contains _ _ && contains _ _); reflexivity.
Qed.

(** ** Classification of failures by the command runner *)

Lemma lower_from_ascii_app (before x y : pystr) :
  is_ascii x = true ->
  lower_from before (x ++ y)
  = List.map ascii_lower x ++ lower_from (rev x ++ before) y.
Proof.
  revert before. induction x as [|c x IH]; intros before Hx; simpl in *;
    [reflexivity|].
  apply andb_true_iff in Hx as [Hc Hx]. rewrite Hc, IH by exact Hx.
  rewrite <- !app_assoc. reflexivity.
Qed.

Lemma lower_from_ascii (before x : pystr) :
  is_ascii x = true -> lower_from before x = List.map ascii_lower x.
Proof.
  revert before. induction x as [|c x IH]; intros before Hx; simpl in *;
    [reflexivity|].
  apply andb_true_iff in Hx as [Hc Hx]. rewrite Hc, IH by exact Hx.
  reflexivity.
Qed.

Lemma capital_in_range (d : N) :
  (65 <= d <= 90)%N -> In (d, (d + 32)%N) (combine capital_letters small_letters).
Proof.
  intros Hd.
  assert (E : (d = 65 \/ d = 66 \/ d = 67 \/ d = 68 \/ d = 69 \/ d = 70
               \/ d = 71 \/ d = 72 \/ d = 73 \/ d = 74 \/ d = 75 \/ d = 76
               \/ d = 77 \/ d = 78 \/ d = 79 \/ d = 80 \/ d = 81 \/ d = 82
               \/ d = 83 \/ d = 84 \/ d = 85 \/ d = 86 \/ d = 87 \/ d = 88
               \/ d = 89 \/ d = 90)%N) by lia.
  repeat (destruct E as [->|E]; [vm_compute; tauto|]).
  subst. vm_compute. tauto.
Qed.

Lemma capital_is_listed (d : N) :
  existsb (N.eqb d) capital_letters = false ->
  ((65 <=? d) && (d <=? 90))%N = false.
Proof.
  intros Hd. destruct ((65 <=? d) && (d <=? 90))%N eqn:R; [|reflexivity].
  apply andb_true_iff in R as [R1 R2].
  apply N.leb_le in R1. apply N.leb_le in R2.
  assert (L : In d capital_letters).
  { pose proof (@capital_in_range d (conj R1 R2)) as P.
    apply in_combine_l in P. exact P. }
  assert (X : existsb (N.eqb d) capital_letters = true).
  { apply existsb_exists. exists d. split; [exact L | apply N.eqb_refl]. }
  congruence.
Qed.

Lemma letter_pair (c d : N) :
  In (c, d) (combine capital_letters small_letters) ->
  (65 <= c <= 90)%N /\ d = (c + 32)%N.
Proof.
  intros P. vm_compute in P.
  repeat (destruct P as [P|P]; [inversion P; subst; split; [lia | reflexivity]|]).
  contradiction.
Qed.

(** A character of the text that is the same letter as a character of a
    plain marker is ASCII, and [lower] turns it into that character. *)
Lemma same_letter_lower (c d : N) :
  same_letter c d ->
  (d <? 128)%N = true -> existsb (N.eqb d) capital_letters = false ->
  (c <? 128)%N = true /\ ascii_lower c = d.
Proof.
  intros [->|[P|P]] Hd Hcap.
  - split; [exact Hd|]. unfold ascii_lower.
    rewrite (capital_is_listed _ Hcap). reflexivity.
  - apply letter_pair in P as [R ->]. split; [apply N.ltb_lt; lia|].
    unfold ascii_lower.
    replace ((65 <=? c) && (c <=? 90))%N with true; [reflexivity|].
    symmetry. apply andb_true_iff. split; apply N.leb_le; lia.
  - apply letter_pair in P as [R _].
    pose proof (capital_is_listed _ Hcap) as X.
    replace ((65 <=? d) && (d <=? 90))%N with true in X; [discriminate|].
    symmetry. apply andb_true_iff. split; apply N.leb_le; lia.
Qed.

(** What [lower] turns an ASCII character into is the same letter. *)
Lemma lower_same_letter (c : N) : same_letter c (ascii_lower c).
Proof.
  unfold ascii_lower. destruct ((65 <=? c) && (c <=? 90))%N eqn:R.
  - right. left. apply capital_in_range.
    apply andb_true_iff in R as [R1 R2].
    apply N.leb_le in R1. apply N.leb_le in R2. lia.
  - left. reflexivity.
Qed.

Lemma plain_marker_tail (m : N) (ms : pystr) :
  plain_marker (m :: ms) = true ->
  (m <? 128)%N = true /\ existsb (N.eqb m) capital_letters = false
  /\ m <> 107%N /\ (ms = [] -> m <> 105%N) /\ plain_marker ms = true.
Proof.
  unfold plain_marker. cbn [forallb]. intros P.
  apply andb_true_iff in P as [P L].
  apply andb_true_iff in P as [Pm Pms].
  apply andb_true_iff in Pm as [Pm K].
  apply andb_true_iff in Pm as [A C].
  apply negb_true_iff in C. apply negb_true_iff in K. apply negb_true_iff in L.
  apply N.eqb_neq in K.
  repeat split; try assumption.
  - intros ->. cbn [last] in L. apply N.eqb_neq in L. exact L.
  - apply andb_true_iff. split; [exact Pms|]. apply negb_true_iff.
    destruct ms as [|m' ms']; [reflexivity | exact L].
Qed.

Lemma any_case_is_found (marker text : pystr) :
  plain_marker marker = true ->
  occurs_any_case marker text -> contains marker (lower text) = true.
Proof.
  intros Hplain (pre & mid & post & -> & Hmid).
  assert (E : is_ascii mid = true /\ List.map ascii_lower mid = marker).
  { clear pre post. induction Hmid as [|c d mid marker Hcd Hmid IH];
      [split; reflexivity|].
    apply plain_marker_tail in Hplain as (A & C & _ & _ & Hplain).
    destruct (same_letter_lower Hcd A C) as [Hc El].
    destruct (IH Hplain) as [Ha Em].
    split; [cbn [is_ascii forallb]; rewrite Hc; exact Ha|].
    cbn [List.map]. rewrite El, Em. reflexivity. }
  destruct E as [Hascii <-]. apply contains_infix.
  unfold lower. generalize (@nil N) as before.
  induction pre as [|c pre IH]; intros before.
  - simpl. rewrite lower_from_ascii_app by exact Hascii.
    apply infix_app_r, infix_refl.
  - simpl. apply infix_app_l, IH.
Qed.

(** The lower-case form of one character starts with one character and
    goes on, if it does, with characters that are not ASCII. *)
Lemma lower_of_character (before : pystr) (c : N) (after : pystr) :
  lower_as_python H ->
  exists x rest,
    (if (c <? 128)%N then [ascii_lower c] else unicode_lower before c after)
    = x :: rest
    /\ Forall (fun y => (128 <= y)%N) rest.
Proof.
  intros Hpy. destruct (c <? 128)%N eqn:A.
  - exists (ascii_lower c), []. split; [reflexivity | constructor].
  - apply N.ltb_ge in A.
    destruct (Hpy before c after A) as [->|[->|[Hne Hall]]].
    + exists 105%N, [775%N]. split; [reflexivity|].
      constructor; [lia | constructor].
    + exists 107%N, []. split; [reflexivity | constructor].
    + destruct (unicode_lower before c after) as [|x rest]; [contradiction|].
      exists x, rest. split; [reflexivity|]. inversion Hall; assumption.
Qed.

(** A plain marker found at the start of a lower-cased text stands, but
    for the letter case, at the start of the text. *)
Lemma found_at_start (marker : pystr) :
  lower_as_python H ->
  plain_marker marker = true ->
  forall before text,
    startswith marker (lower_from before text) = true ->
    exists mid post, text = mid ++ post /\ Forall2 same_letter mid marker.
Proof.
  intros Hpy. induction marker as [|m ms IH]; intros Hplain before text Hs.
  - exists [], text. split; [reflexivity | constructor].
  - apply plain_marker_tail in Hplain as (A & C & K & I & Hplain).
    apply N.ltb_lt in A.
    destruct text as [|c r]; [discriminate|]. cbn [lower_from] in Hs.
    destruct (c <? 128)%N eqn:Ac.
    + cbn [app startswith] in Hs. apply andb_true_iff in Hs as [Em Hs].
      apply N.eqb_eq in Em. subst m.
      destruct (IH Hplain _ _ Hs) as (mid & post & -> & Hmid).
      exists (c :: mid), post. split; [reflexivity|].
      constructor; [apply lower_same_letter | exact Hmid].
    + exfalso. apply N.ltb_ge in Ac.
      destruct (Hpy before c r Ac) as [E|[E|[Hne Hall]]]; rewrite ?E in Hs.
      * cbn [app startswith] in Hs. apply andb_true_iff in Hs as [Em Hs].
        apply N.eqb_eq in Em. destruct ms as [|m2 ms]; [apply I; auto|].
        apply plain_marker_tail in Hplain as (A2 & _).
        cbn [startswith] in Hs. apply andb_true_iff in Hs as [Em2 _].
        apply N.eqb_eq in Em2. subst m2. discriminate A2.
      * cbn [app startswith] in Hs. apply andb_true_iff in Hs as [Em _].
        apply N.eqb_eq in Em. contradiction.
      * destruct (unicode_lower before c r) as [|x rest]; [contradiction|].
        cbn [app startswith] in Hs. apply andb_true_iff in Hs as [Em _].
        apply N.eqb_eq in Em. subst m. inversion Hall; subst. lia.
Qed.

(** A marker of ASCII characters does not start inside a run of
    characters that are not ASCII. *)
Lemma found_after_run (m : N) (ms run hay : pystr) :
  (m < 128)%N -> Forall (fun y => (128 <= y)%N) run ->
  contains (m :: ms) (run ++ hay) = true -> contains (m :: ms) hay = true.
Proof.
  intros A. induction 1 as [|y run Hy Hrun IH]; intros Hc; [exact Hc|].
  apply IH. cbn [app contains] in Hc. apply orb_true_iff in Hc as [Hs|Hc];
    [|exact Hc].
  cbn [startswith] in Hs. apply andb_true_iff in Hs as [Em _].
  apply N.eqb_eq in Em. subst. lia.
Qed.

Lemma found_is_any_case (marker text : pystr) :
  lower_as_python H ->
  plain_marker marker = true ->
  contains marker (lower text) = true -> occurs_any_case marker text.
Proof.
  intros Hpy Hplain. destruct marker as [|m ms].
  { intros _. exists [], [], text. split; [reflexivity | constructor]. }
  pose proof (@plain_marker_tail _ _ Hplain) as (A & _). apply N.ltb_lt in A.
  unfold lower. generalize (@nil N) as before.
  induction text as [|c r IH]; intros before Hc; [discriminate|].
  cbn [lower_from] in Hc.
  destruct (lower_of_character before c r Hpy) as (x & rest & E & Hrest).
  assert (Hc' : contains (m :: ms) ((x :: rest) ++ lower_from (c :: before) r)
                = true) by (rewrite <- E; exact Hc).
  cbn [app] in Hc'. cbn [contains] in Hc'.
  apply orb_true_iff in Hc' as [Hs|Hin].
  - destruct (@found_at_start (m :: ms) Hpy Hplain before (c :: r))
      as (mid & post & Et & Hmid).
    + cbn [lower_from]. rewrite E. exact Hs.
    + exists [], mid, post. split; [exact Et | exact Hmid].
  - apply (@found_after_run m ms rest _ A Hrest) in Hin.
    destruct (IH _ Hin) as (pre & mid & post & -> & Hmid).
    exists (c :: pre), mid, post. split; [reflexivity | exact Hmid].
Qed.

(** C1.  When the process of a call with [check=True] ends with a
    non-zero code, the call raises.  If the standard error contains both
    [merge failed] and [fix conflicts], each in any letter case, it
    raises a [GitConflictError] whose message contains the standard
    error.  In every other case it raises a [RuntimeError] proper (not a
    [GitConflictError]) whose message contains the arguments joined by
    spaces, the whole command line joined by spaces, and the standard
    error; this for a [str.lower] that treats the characters outside
    ASCII as Python's does. *)
Theorem run_git_command_failure_classified
  (args : list pystr) (cwd : option pystr) (s : State)
  (proc : CompletedProcess) (w : World) :
  subprocess_run (GIT_BIN s :: args) cwd 20 (world s) = (Ok proc, w) ->
  returncode proc <> 0%Z ->
  exists e,
    run_git_command args cwd true s = (Raise e, ran s (GIT_BIN s :: args) cwd w)
    /\ (occurs_any_case (py "merge failed") (stderr proc)
        /\ occurs_any_case (py "fix conflicts") (stderr proc) ->
        exn_cls e = GitConflictError
        /\ infix (stderr proc) (exn_msg e))
    /\ (lower_as_python H ->
        ~ (occurs_any_case (py "merge failed") (stderr proc)
           /\ occurs_any_case (py "fix conflicts") (stderr proc)) ->
        exn_cls e = RuntimeError
        /\ isinstance e GitConflictError = false
        /\ infix (join (py " ") args) (exn_msg e)
        /\ infix (join (py " ") (GIT_BIN s :: args)) (exn_msg e)
        /\ infix (stderr proc) (exn_msg e)).
Proof.
  intros Hrun Hcode.
  assert (P1 : plain_marker (py "merge failed") = true) by (vm_compute; reflexivity).
  assert (P2 : plain_marker (py "fix conflicts") = true) by (vm_compute; reflexivity).
  rewrite run_git_command_unfold. cbv zeta. rewrite Hrun.
  apply Z.eqb_neq in Hcode. rewrite Hcode. cbn [andb negb].
  destruct (contains (py "merge failed") (lower (stderr proc))) eqn:F1;
    [destruct (contains (py "fix conflicts") (lower (stderr proc))) eqn:F2|];
    cbn [andb].
  - eexists; split; [reflexivity|]. cbn [exn_cls exn_msg]. split.
    + intros _. split; [reflexivity|]. auto with infix.
    + intros Hpy Hnot. exfalso. apply Hnot.
      split; apply found_is_any_case; assumption.
  - eexists; split; [reflexivity|]. cbn [exn_cls exn_msg]. split.
    + intros [_ O2]. apply (any_case_is_found P2) in O2. congruence.
    + intros _ _. repeat split.
      * apply infix_app_l. apply infix_app_r. apply infix_join_tail.
      * apply infix_app_l. apply infix_app_r. apply infix_refl.
      * auto with infix.
  - eexists; split; [reflexivity|]. cbn [exn_cls exn_msg]. split.
    + intros [O1 _]. apply (any_case_is_found P1) in O1. congruence.
    + intros _ _. repeat split.
      * apply infix_app_l. apply infix_app_r. apply infix_join_tail.
      * apply infix_app_l. apply infix_app_r. apply infix_refl.
      * auto with infix.
Qed.

(** ** Commands run by the measurement of the staged diff *)

Lemma runs_only_ret P {A} (a : A) : runs_only P (ret a).
Proof. intros s. exists []. rewrite app_nil_r. split; reflexivity. Qed.

Lemma runs_only_raise P {A} (e : exn) : runs_only P (@raise _ A e).
Proof. intros s. exists []. rewrite app_nil_r. split; reflexivity. Qed.

Lemma runs_only_lift P {A} (r : result A) : runs_only P (lift r).
Proof. intros s. exists []. rewrite app_nil_r. split; reflexivity. Qed.

Lemma runs_only_bind P {A B} (m : M A) (k : A -> M B) :
  runs_only P m -> (forall a, runs_only P (k a)) -> runs_only P (bind m k).
Proof.
  intros Hm Hk s. unfold bind. destruct (Hm s) as (l1 & E1 & F1).
  destruct (m s) as [[a|e] s']; simpl in *.
  - destruct (Hk a s') as (l2 & E2 & F2). exists (l1 ++ l2).
    rewrite E2, E1, app_assoc, forallb_app, F1, F2. split; reflexivity.
  - exists l1. split; assumption.
Qed.

Lemma runs_only_try_except P {A} (m : M A) (c : exn -> bool) (h : exn -> M A) :
  runs_only P m -> (forall e, runs_only P (h e)) -> runs_only P (try_except m c h).
Proof.
  intros Hm Hh s. unfold try_except. destruct (Hm s) as (l1 & E1 & F1).
  destruct (m s) as [[a|e] s']; simpl in *.
  - exists l1. split; assumption.
  - destruct (c e); simpl.
    + destruct (Hh e s') as (l2 & E2 & F2). exists (l1 ++ l2).
      rewrite E2, E1, app_assoc, forallb_app, F1, F2. split; reflexivity.
    + exists l1. split; assumption.
Qed.

Lemma runs_only_if P {A} (b : bool) (m1 m2 : M A) :
  runs_only P m1 -> runs_only P m2 -> runs_only P (if b then m1 else m2).
Proof. destruct b; auto. Qed.

Lemma runs_only_run_git_command P args cwd check :
  (forall g, P {| inv_cmd := g :: args; inv_cwd := cwd |} = true) ->
  runs_only P (run_git_command args cwd check).
Proof.
  intros HP s. rewrite run_git_command_state.
  eexists; split; [reflexivity|]. simpl. rewrite HP. reflexivity.
Qed.

Lemma measurement_runs_no_commit cwd : runs_only not_commit (staged_diff_size cwd).
Proof.
  assert (R : runs_only not_commit (is_git_repo cwd)).
  { unfold is_git_repo. apply runs_only_try_except.
    - apply runs_only_bind.
      + apply runs_only_run_git_command. intros g. reflexivity.
      + intros out. apply runs_only_ret.
    - intros e. apply runs_only_ret. }
  unfold staged_diff_size, diff_staged.
  apply runs_only_bind; [exact R|]. intros repo.
  apply runs_only_if; [apply runs_only_ret|].
  apply runs_only_bind.
  - apply runs_only_bind; [exact R|]. intros repo'.
    apply runs_only_if; [apply runs_only_ret|].
    apply runs_only_run_git_command. intros g. reflexivity.
  - intros d. apply runs_only_bind; [apply runs_only_lift|].
    intros b. apply runs_only_ret.
Qed.

(** ** Size of the staged diff *)

Lemma utf8_encode_cp_length (c : N) :
  List.length (utf8_encode_cp c) = utf8_width c.
Proof.
  unfold utf8_encode_cp, utf8_width.
  destruct (c <? 128)%N; [reflexivity|].
  destruct (c <? 2048)%N; [reflexivity|].
  destruct (c <? 65536)%N; reflexivity.
Qed.

Lemma utf8_encode_length (d : pystr) :
  Z.of_nat (List.length (flat_map utf8_encode_cp d)) = utf8_length d.
Proof.
  unfold utf8_length. f_equal.
  induction d as [|c d IH]; simpl; [reflexivity|].
  rewrite length_app, utf8_encode_cp_length, IH. reflexivity.
Qed.

(** C3.  [is_git_repo] always answers, [True] or [False].  On [True],
    [staged_diff_size] returns the number of bytes of the UTF-8 encoding
    of the text returned by [diff_staged] - one to four bytes for each
    code point, according to its range - for every text free of lone
    surrogates, as every text decoded from the output of a process is;
    and when [diff_staged] raises, so does [staged_diff_size].  On
    [False], [diff_staged] returns the empty string and
    [staged_diff_size] returns 0, which is its length. *)
Theorem staged_diff_size_is_utf8_length
  (cwd : option pystr) (s s1 : State) :
  (is_git_repo cwd s = (Ok true, s1) ->
   match diff_staged cwd s1 with
   | (Ok d, s2) =>
       encodable d = true ->
       exists bytes,
         encode_utf8 d = Ok bytes
         /\ staged_diff_size cwd s = (Ok (Z.of_nat (List.length bytes)), s2)
         /\ Z.of_nat (List.length bytes) = utf8_length d
   | (Raise e, s2) => staged_diff_size cwd s = (Raise e, s2)
   end)
  /\
  (is_git_repo cwd s = (Ok false, s1) ->
   diff_staged cwd s = (Ok [], s1)
   /\ staged_diff_size cwd s = (Ok 0%Z, s1)
   /\ utf8_length [] = 0%Z)
  /\
  (exists repo s', is_git_repo cwd s = (Ok repo, s')).
Proof.
  split; [|split].
  3: { unfold is_git_repo, try_except, any_Exception.
       match goal with
       | |- context [bind ?m ?k s] => destruct (bind m k s) as [[repo|e] s']
       end; [exists repo, s' | exists false, s']; reflexivity. }
  - intros Hrepo. unfold staged_diff_size, bind. rewrite Hrepo. cbn [negb].
    destruct (diff_staged cwd s1) as [[d|e] s2]; [|reflexivity].
    intros Henc. exists (flat_map utf8_encode_cp d).
    unfold encode_utf8, lift, ret. rewrite Henc.
    repeat split. apply utf8_encode_length.
  - intros Hrepo. unfold staged_diff_size, diff_staged, bind. rewrite Hrepo.
    repeat split.
Qed.

(** ** The guarded commit *)

(** C2, as the code has it.  When the measurement of the staged diff
    raises, [safe_commit] raises the same.  When it gives a size greater
    than the limit, [safe_commit] raises a [RuntimeError] of its own, in
    the state the measurement left: its message starts with
    [Staged diff too large] and carries the measured size, and no
    [git commit] was run.  Otherwise [safe_commit] is the plain [commit]
    call, with its outcome unchanged, which runs [git commit -m message]
    as the one further command. *)
Theorem safe_commit_guard
  (message : pystr) (cwd : option pystr) (max_diff_bytes : Z) (s : State) :
  match staged_diff_size cwd s with
  | (Raise e, s1) => safe_commit message cwd max_diff_bytes s = (Raise e, s1)
  | (Ok size, s1) =>
      if (size >? max_diff_bytes)%Z then
        exists e,
          safe_commit message cwd max_diff_bytes s = (Raise e, s1)
          /\ exn_cls e = RuntimeError
          /\ startswith (py "Staged diff too large") (exn_msg e) = true
          /\ carries_int size e = true
          /\ exists l, trace s1 = trace s ++ l
                       /\ existsb is_commit_invocation l = false
      else
        safe_commit message cwd max_diff_bytes s = commit message cwd s1
        /\ trace (snd (commit message cwd s1))
           = trace s1
             ++ [{| inv_cmd := [GIT_BIN s1; py "commit"; py "-m"; message];
                    inv_cwd := cwd |}]
  end.
Proof.
  unfold safe_commit, bind.
  pose proof (measurement_runs_no_commit cwd s) as (l & El & Fl).
  destruct (staged_diff_size cwd s) as [[size|e] s1]; [|reflexivity].
  simpl in El.
  destruct (size >? max_diff_bytes)%Z.
  - eexists. split; [reflexivity|]. cbn [exn_cls exn_msg].
    split; [reflexivity|]. split; [reflexivity|]. split.
    + unfold carries_int. cbn [exn_msg]. apply contains_infix.
      apply infix_app_l. apply infix_app_r. apply infix_refl.
    + exists l. split; [exact El|].
      clear -Fl. induction l as [|i l IH]; simpl in *; [reflexivity|].
      apply andb_true_iff in Fl as [Fi Fl]. unfold not_commit in Fi.
      apply negb_true_iff in Fi. rewrite Fi, IH; auto.
  - split; [reflexivity|]. unfold commit. rewrite run_git_command_state.
    reflexivity.
Qed.

(** ** The listing operations *)



Lemma list_branches_fold (lines acc : list pystr) :
  fold_left list_branches_step lines acc
  = acc ++ List.map strip_marker (filter truthy (List.map strip lines)).
Proof.
  revert acc. induction lines as [|l ls IH]; intros acc; simpl.
  - rewrite app_nil_r. reflexivity.
  - rewrite IH. unfold list_branches_step. cbv zeta.
    destruct (strip l) as [|c t] eqn:E.
    + reflexivity.
    + cbn [truthy List.map]. unfold strip_marker at 2.
      destruct (startswith (py "* ") (c :: t));
        rewrite <- app_assoc; reflexivity.
Qed.


(** ** History parsing *)

Lemma split_zero (sep : N) (line : pystr) : split sep 0 line = [line].
Proof. destruct line; reflexivity. Qed.

Lemma split_field (sep : N) (n : nat) (x rest : pystr) :
  ~ In sep x ->
  split sep (S n) (x ++ sep :: rest) = x :: split sep n rest.
Proof.
  induction x as [|c x IH]; intros Hx; simpl.
  - rewrite N.eqb_refl. reflexivity.
  - destruct (N.eqb_spec c sep) as [->|Hc].
    + exfalso. apply Hx. left. reflexivity.
    + change (split sep (S n) (x ++ sep :: rest)) with
        (split sep (S n) (x ++ sep :: rest)).
      rewrite IH; [reflexivity|]. intros Hin. apply Hx. right. exact Hin.
Qed.

Lemma split_length (sep : N) (n : nat) (line : pystr) :
  List.length (split sep n line)
  = S (Nat.min n (List.length (filter (N.eqb sep) line))).
Proof.
  revert n. induction line as [|c r IH]; intros n; simpl.
  - rewrite Nat.min_0_r. reflexivity.
  - destruct n as [|m]; [reflexivity|].
    rewrite (N.eqb_sym sep c).
    destruct (c =? sep)%N; simpl.
    + rewrite IH. reflexivity.
    + specialize (IH (S m)).
      destruct (split sep (S m) r) as [|f fs]; [discriminate IH|].
      simpl in *. exact IH.
Qed.

Lemma first_bar (sep : N) (line : pystr) :
  (1 <= List.length (filter (N.eqb sep) line))%nat ->
  exists x rest,
    ~ In sep x /\ line = x ++ sep :: rest
    /\ List.length (filter (N.eqb sep) line)
       = S (List.length (filter (N.eqb sep) rest)).
Proof.
  induction line as [|c r IH]; simpl; [lia|].
  destruct (N.eqb_spec sep c) as [<-|Hc]; simpl.
  - intros _. exists [], r. repeat split. intros [].
  - intros Hn. destruct (IH Hn) as (x & rest & Hx & -> & Hlen).
    exists (c :: x), rest. repeat split; [|exact Hlen].
    intros [E|Hin]; [apply Hc; symmetry; exact E | exact (Hx Hin)].
Qed.

Lemma commit_of_wellformed_line (h a d sub : pystr) :
  ~ In 124%N h -> ~ In 124%N a -> ~ In 124%N d ->
  commit_of_line (h ++ 124%N :: a ++ 124%N :: d ++ 124%N :: sub)
  = [{| hash := firstn 7 h; author := a; date := d; subject := sub |}].
Proof.
  intros Hh Ha Hd. unfold commit_of_line, get_commit_history_step.
  replace (truthy (h ++ 124%N :: a ++ 124%N :: d ++ 124%N :: sub)) with true
    by (destruct h; reflexivity).
  cbn [negb].
  rewrite (@split_field 124 2 h _ Hh), (@split_field 124 1 a _ Ha),
    (@split_field 124 0 d _ Hd), split_zero.
  reflexivity.
Qed.

Lemma commit_of_short_line (line : pystr) :
  (count_bars line < 3)%nat -> commit_of_line line = [].
Proof.
  intros Hn. unfold commit_of_line, get_commit_history_step.
  destruct (negb (truthy line)); [reflexivity|].
  pose proof (split_length 124 3 line) as L. unfold count_bars in Hn.
  destruct (split 124 3 line) as [|p0 [|p1 [|p2 [|p3 [|p4 ps]]]]];
    try reflexivity.
  cbn [List.length] in L. lia.
Qed.

Lemma history_step_appends (history : list CommitRecord) (line : pystr) :
  get_commit_history_step history line = history ++ commit_of_line line.
Proof.
  unfold commit_of_line, get_commit_history_step.
  destruct (negb (truthy line)); [rewrite app_nil_r; reflexivity|].
  destruct (split 124 3 line) as [|p0 [|p1 [|p2 [|p3 [|p4 ps]]]]];
    rewrite ?app_nil_r; reflexivity.
Qed.

Lemma history_fold (lines : list pystr) (history : list CommitRecord) :
  fold_left get_commit_history_step lines history
  = history ++ flat_map commit_of_line lines.
Proof.
  revert history. induction lines as [|l ls IH]; intros history; simpl.
  - rewrite app_nil_r. reflexivity.
  - rewrite IH, history_step_appends, <- app_assoc. reflexivity.
Qed.

Lemma commit_of_line_length (line : pystr) :
  (List.length (commit_of_line line) <= 1)%nat.
Proof.
  unfold commit_of_line, get_commit_history_step.
  destruct (negb (truthy line)); [simpl; lia|].
  destruct (split 124 3 line) as [|p0 [|p1 [|p2 [|p3 [|p4 ps]]]]]; simpl; lia.
Qed.

Lemma history_length (lines : list pystr) :
  (List.length (flat_map commit_of_line lines) <= List.length lines)%nat.
Proof.
  induction lines as [|l ls IH]; simpl; [lia|].
  rewrite length_app. pose proof (commit_of_line_length l). lia.
Qed.

(** The history, line by line.  In a working tree, on the output of the
    log command, [get_commit_history] returns the records of the lines of
    [str.splitlines], in order, each line giving one record or none.
    Splitting at the first three delimiters, a line [h|a|d|subject] whose
    fields [h], [a], [d] hold no delimiter gives the record of the first
    seven characters of [h], and of [a], [d] and [subject] as they stand;
    every line with three delimiters or more is of that form, and a line
    with fewer than three delimiters (the empty line among them) gives no
    record. *)
Theorem get_commit_history_parses
  (cwd : option pystr) (limit : Z) (s s1 s2 : State) (out : pystr) :
  is_git_repo cwd s = (Ok true, s1) ->
  run_git_command [py "log"; py "--pretty=format:" ++ log_format;
                   py "-n" ++ str_of_int limit] cwd true s1 = (Ok out, s2) ->
  exists history,
    get_commit_history cwd limit s = (Ok history, s2)
    /\ history = flat_map commit_of_line (splitlines out)
    /\ (List.length history <= List.length (splitlines out))%nat
    /\ (forall h a d sub,
          ~ In 124%N h -> ~ In 124%N a -> ~ In 124%N d ->
          commit_of_line (h ++ 124%N :: a ++ 124%N :: d ++ 124%N :: sub)
          = [{| hash := firstn 7 h; author := a; date := d; subject := sub |}])
    /\ (forall line,
          (3 <= count_bars line)%nat ->
          exists h a d sub,
            ~ In 124%N h /\ ~ In 124%N a /\ ~ In 124%N d
            /\ line = h ++ 124%N :: a ++ 124%N :: d ++ 124%N :: sub)
    /\ (forall line, (count_bars line < 3)%nat -> commit_of_line line = []).
Proof.
  intros Hrepo Hrun.
  exists (flat_map commit_of_line (splitlines out)). split; [|split; [|split; [|split; [|split]]]].
  - unfold get_commit_history, bind. rewrite Hrepo. cbn [negb]. rewrite Hrun.
    unfold ret. rewrite history_fold. reflexivity.
  - reflexivity.
  - apply history_length.
  - apply commit_of_wellformed_line.
  - intros line Hn. unfold count_bars in Hn.
    destruct (@first_bar 124 line) as (h & r1 & Hh & -> & L1); [lia|].
    destruct (@first_bar 124 r1) as (a & r2 & Ha & -> & L2); [lia|].
    destruct (@first_bar 124 r2) as (d & sub & Hd & -> & L3); [lia|].
    exists h, a, d, sub. repeat split; assumption.
  - apply commit_of_short_line.
Qed.

(** ** The background worker *)

(** C8.  [Worker.run] emits one pair.  When the task raises [e] the pair
    is [(e, None)]; when it returns [res] the pair is [(None, res)].  In
    every pair emitted one component at least is [None]: never an error
    together with a value. *)
Theorem worker_emits_error_or_value {V} (fn : M (option V)) (s : State) :
  match fn s with
  | (Raise e, s') => Worker_run fn s = ([(Some e, None)], s')
  | (Ok res, s') => Worker_run fn s = ([(None, res)], s')
  end
  /\ List.length (fst (Worker_run fn s)) = 1%nat
  /\ Forall (fun p : emitted V =>
               (fst p = None \/ snd p = None)
               /\ ~ (fst p <> None /\ snd p <> None))
            (fst (Worker_run fn s)).
Proof.
  unfold Worker_run.
  destruct (fn s) as [[res|e] s']; simpl; repeat split;
    repeat constructor; simpl; auto; tauto.
Qed.

(** ** The probe of incoming commits *)

(** C4, where the code departs from it.  In a working tree, as soon as
    the log command ends - with any exit code, the call being made with
    [check=False] - [get_incoming_commits] raises [NameError]: the
    function [_parse_log_output] it calls on the output does not exist,
    and the handler accepts [RuntimeError] only.  An exception of the
    process call that is no [RuntimeError], such as a timeout, escapes
    the same way. *)
Theorem get_incoming_commits_raises
  (cwd : option pystr) (s s1 : State) :
  is_git_repo cwd s = (Ok true, s1) ->
  let args := [py "log"; py "--pretty=format:" ++ log_format; py "HEAD..@{u}"] in
  match subprocess_run (GIT_BIN s1 :: args) cwd 20 (world s1) with
  | (Ok proc, w) =>
      exists e,
        get_incoming_commits cwd s = (Raise e, ran s1 (GIT_BIN s1 :: args) cwd w)
        /\ exn_cls e = NameError
  | (Raise e, w) =>
      isinstance e RuntimeError = false ->
      get_incoming_commits cwd s = (Raise e, ran s1 (GIT_BIN s1 :: args) cwd w)
  end.
Proof.
  intros Hrepo args.
  assert (E : get_incoming_commits cwd s
              = try_except
                  (out <- run_git_command args cwd false ;; _parse_log_output out)
                  (fun e => isinstance e RuntimeError)
                  (fun _ => ret []) s1).
  { unfold get_incoming_commits. unfold bind at 1. rewrite Hrepo. reflexivity. }
  rewrite E. unfold try_except, bind.
  rewrite run_git_command_unfold. cbv zeta.
  destruct (subprocess_run (GIT_BIN s1 :: args) cwd 20 (world s1))
    as [[proc|e] w].
  - cbn [andb]. eexists. split; reflexivity.
  - intros He. rewrite He. reflexivity.
Qed.

(** ** Commit suggestions *)

Lemma ask_unanswered (question : pystr) (s : State) (e : exn) (w : World) :
  MOCK_MODE = false -> ollama_imported = true ->
  ollama_chat question None (world s) = (Raise e, w) ->
  ask question None 1 s
  = (Raise (Exn RuntimeError (py "Ollama request failed: " ++ exn_msg e)),
     {| GIT_BIN := GIT_BIN s; world := w; trace := trace s |}).
Proof.
  intros Hmock Himp Hchat. unfold ask, _ollama_available.
  rewrite Hmock, Himp. cbn [negb andb orb].
  change (Z.to_nat (Z.max 1 1)) with 1%nat.
  cbn [ask_loop]. unfold try_except, bind, chat. rewrite Hchat.
  reflexivity.
Qed.

(** What [suggest_commit_messages] returns once the model has answered:
    a JSON object is wrapped into a list of one element, any other JSON
    value is returned as it is, and a text that is no JSON gives the list
    of one object holding the error and the raw answer. *)
Lemma suggest_commit_messages_answered
  (diff_content context : pystr) (count : Z) (s s1 : State) (response : pystr) :
  ask (suggest_prompt diff_content context count) None 1 s = (Ok response, s1) ->
  suggest_commit_messages diff_content context count s
  = (Ok match json_loads response with
        | Ok (JObject members) => JArray [JObject members]
        | Ok parsed => parsed
        | Raise e =>
            JArray [JObject [(py "error", JString (exn_msg e));
                             (py "raw_response", JString response)]]
        end, s1).
Proof.
  intros Hask. unfold suggest_commit_messages. rewrite Hask.
  destruct (json_loads response) as [[| | | | |]|e]; reflexivity.
Qed.

(** C9, where the code departs from it.  When the request to the model
    fails - the client is not in mock mode and the chat call raises -
    [suggest_commit_messages] raises [UnboundLocalError] where the claim
    has it return the error structure: the handler reads [response],
    which the failed call has not assigned. *)
Theorem suggest_commit_messages_request_failure
  (diff_content context : pystr) (count : Z) (s : State) (e : exn) (w : World) :
  MOCK_MODE = false -> ollama_imported = true ->
  ollama_chat (suggest_prompt diff_content context count) None (world s)
  = (Raise e, w) ->
  exists e',
    suggest_commit_messages diff_content context count s
    = (Raise e', {| GIT_BIN := GIT_BIN s; world := w; trace := trace s |})
    /\ exn_cls e' = UnboundLocalError.
Proof.
  intros Hmock Himp Hchat. unfold suggest_commit_messages.
  rewrite (ask_unanswered _ _ Hmock Himp Hchat).
  eexists. split; reflexivity.
Qed.

End Properties.

(* ================================================================== *)
(** * The properties at work in the scenarios *)
(* ================================================================== *)

(** The encoder on the ends of the four ranges of UTF-8. *)
Example utf8_encode_cp_vectors :
  List.map utf8_encode_cp
    [0x7F; 0x80; 0xE9; 0x7FF; 0x800; 0xD55C; 0xFFFF; 0x10000; 0x1F600; 0x10FFFF]%N
  = [[0x7F]; [0xC2; 0x80]; [0xC3; 0xA9]; [0xDF; 0xBF]; [0xE0; 0xA0; 0x80];
     [0xED; 0x95; 0x9C]; [0xEF; 0xBF; 0xBF]; [0xF0; 0x90; 0x80; 0x80];
     [0xF0; 0x9F; 0x98; 0x80]; [0xF4; 0x8F; 0xBF; 0xBF]]%N.
Proof. vm_compute. reflexivity. Qed.

(** The string operations on the inputs that matter below. *)
Example string_operations :
  splitlines (py "a" ++ NL ++ NL ++ py " b " ++ [13; 10]%N ++ py "c")
  = [py "a"; []; py " b "; py "c"]
  /\ split 124 3 (py "a|b|c|d|e") = [py "a"; py "b"; py "c"; py "d|e"]
  /\ split 124 3 (py "a|b") = [py "a"; py "b"]
  /\ split 124 3 [] = [[]]
  /\ strip ([9; 32]%N ++ py "true" ++ NL) = py "true"
  /\ str_of_int 5000000 = py "5000000"
  /\ str_of_int (-12) = py "-12"
  /\ join (py " ") [py "git"; py "commit"; py "-m"; py "msg"] = py "git commit -m msg".
Proof. vm_compute. repeat split. Qed.

(** The probes in a working tree and outside one. *)
Example probes_in_and_out :
  fst (is_git_repo (H := committing) None (start committing tt)) = Ok true
  /\ fst (current_branch (H := committing) None (start committing tt))
     = Ok (Some (py "main"))
  /\ fst (is_git_repo (H := outside) None (start outside tt)) = Ok false
  /\ fst (current_branch (H := outside) None (start outside tt)) = Ok None.
Proof. vm_compute. repeat split. Qed.

(** The guarded commit on a diff of 16 bytes: it goes through with the
    limits 1000 and 16, running two probes, the diff and the commit; with
    the limit 15 it is refused and the commit is not run. *)
Example safe_commit_small_diff :
  fst (staged_diff_size (H := committing) None (start committing tt)) = Ok 16%Z
  /\ fst (safe_commit (H := committing) (py "msg") None 1000 (start committing tt))
     = Ok commit_output
  /\ fst (safe_commit (H := committing) (py "msg") None 16 (start committing tt))
     = Ok commit_output
  /\ List.map (fun i => tl (inv_cmd i))
       (trace (snd (safe_commit (H := committing) (py "msg") None 16
                      (start committing tt))))
     = [[py "rev-parse"; py "--is-inside-work-tree"];
        [py "rev-parse"; py "--is-inside-work-tree"];
        [py "diff"; py "--cached"];
        [py "commit"; py "-m"; py "msg"]]
  /\ fst (safe_commit (H := committing) (py "msg") None 15 (start committing tt))
     = Raise (Exn RuntimeError
                (py "Staged diff too large (16 bytes), refusing to commit"))
  /\ List.map (fun i => tl (inv_cmd i))
       (trace (snd (safe_commit (H := committing) (py "msg") None 15
                      (start committing tt))))
     = [[py "rev-parse"; py "--is-inside-work-tree"];
        [py "rev-parse"; py "--is-inside-work-tree"];
        [py "diff"; py "--cached"]].
Proof. vm_compute. repeat split. Qed.

(** The scripted hosts leave the characters outside ASCII as they are. *)
Lemma scripted_lower script answer loads :
  lower_as_python (scripted_host script answer loads).
Proof.
  intros before c after Hc. right. right.
  split; [discriminate|]. constructor; [exact Hc | constructor].
Qed.

(** A conflict reported in capital letters raises [GitConflictError],
    with the standard error in the message; outside a working tree
    [git status] raises a [RuntimeError] whose message holds the argument
    and the standard error. *)
Lemma run_git_command_failure_classified_witness :
  (exists e,
     fst (run_git_command (H := shouting) [py "merge"; py "dev"] None true
            (start shouting tt)) = Raise e
     /\ exn_cls e = GitConflictError
     /\ infix (stderr shouted_proc) (exn_msg e))
  /\ (exists e,
        fst (run_git_command (H := outside) [py "status"] None true
               (start outside tt)) = Raise e
        /\ exn_cls e = RuntimeError
        /\ infix (join (py " ") [py "status"]) (exn_msg e)
        /\ infix (stderr not_a_repository) (exn_msg e)).
Proof.
  split.
  - destruct (@run_git_command_failure_classified shouting
                [py "merge"; py "dev"] None (start shouting tt) shouted_proc tt)
      as (e & He & Hconflict & _).
    + vm_compute. reflexivity.
    + vm_compute. discriminate.
    + destruct Hconflict as [Hcls Hmsg].
      { split.
        - exists (py "AUTOMATIC "), (py "MERGE FAILED"),
            (py "; Fix Conflicts and then commit the result." ++ NL).
          split; [vm_compute; reflexivity|].
          vm_compute. repeat (apply Forall2_cons; [auto 60|]). apply Forall2_nil.
        - exists (py "AUTOMATIC MERGE FAILED; "), (py "Fix Conflicts"),
            (py " and then commit the result." ++ NL).
          split; [vm_compute; reflexivity|].
          vm_compute. repeat (apply Forall2_cons; [auto 60|]). apply Forall2_nil. }
      exists e. rewrite He. split; [reflexivity|]. split; assumption.
  - destruct (@run_git_command_failure_classified outside
                [py "status"] None (start outside tt) not_a_repository tt)
      as (e & He & _ & Hgeneric).
    + vm_compute. reflexivity.
    + vm_compute. discriminate.
    + destruct Hgeneric as (Hcls & _ & Hargs & _ & Hmsg).
      * apply scripted_lower.
      * intros [O1 _].
        apply (@any_case_is_found outside) in O1; [|vm_compute; reflexivity].
        vm_compute in O1. discriminate O1.
      * exists e. rewrite He. split; [reflexivity|].
        split; [exact Hcls|]. split; assumption.
Defined.

(** With the executable set to a path, [get_git_executable] returns that
    path. *)
Lemma set_git_executable_only_writer_witness :
  fst (get_git_executable (H := merging)
         (snd (set_git_executable (py "/opt/homebrew/bin/git") (start merging tt))))
  = Ok (py "/opt/homebrew/bin/git").
Proof.
  apply (proj1 (proj2 (@set_git_executable_only_writer merging))).
  vm_compute. discriminate.
Defined.

(** The staged diff [+ 저é😀], closed by a newline, measures 12 bytes;
    outside a working tree the size is 0. *)
Lemma staged_diff_size_is_utf8_length_witness :
  (exists n,
     fst (staged_diff_size (H := multibyte) None (start multibyte tt)) = Ok n
     /\ n = utf8_length multibyte_diff
     /\ utf8_length multibyte_diff = 12%Z)
  /\ fst (staged_diff_size (H := outside) None (start outside tt)) = Ok 0%Z.
Proof.
  split.
  - set (s0 := start multibyte tt).
    set (s1 := snd (is_git_repo None s0)).
    set (s2 := snd (diff_staged None s1)).
    pose proof (proj1 (@staged_diff_size_is_utf8_length multibyte None s0 s1)) as T.
    assert (R : is_git_repo None s0 = (Ok true, s1)) by (vm_compute; reflexivity).
    specialize (T R).
    assert (D : diff_staged None s1 = (Ok multibyte_diff, s2))
      by (vm_compute; reflexivity).
    rewrite D in T.
    destruct T as (bytes & _ & Hsize & Hlen); [vm_compute; reflexivity|].
    exists (Z.of_nat (List.length bytes)). rewrite Hsize.
    split; [reflexivity|]. split; [exact Hlen|]. vm_compute. reflexivity.
  - set (s0 := start outside tt).
    set (s1 := snd (is_git_repo None s0)).
    destruct (proj1 (proj2 (@staged_diff_size_is_utf8_length outside None s0 s1)))
      as (_ & F & _); [vm_compute; reflexivity|].
    rewrite F. reflexivity.
Defined.

(** The guard at work on a diff of four bytes and a limit of three: the
    failure carries the size, 4, and not the limit, 3. *)
Lemma safe_commit_limit_not_carried :
  exists e,
    fst (safe_commit (H := four_bytes) (py "msg") None 3 (start four_bytes tt))
    = Raise e
    /\ carries_int 4 e = true
    /\ carries_int 3 e = false.
Proof.
  exists (Exn RuntimeError (py "Staged diff too large (4 bytes), refusing to commit")).
  vm_compute. repeat split.
Qed.



(** The history of the scenario [logging]: one record, the second line
    being dropped. *)
Lemma get_commit_history_parses_witness :
  exists history,
    fst (get_commit_history (H := logging) None 100 (start logging tt))
    = Ok history
    /\ history = flat_map commit_of_line (splitlines log_output)
    /\ flat_map commit_of_line (splitlines log_output)
       = [{| hash := py "abc123d"; author := py "Alice";
             date := py "3 days ago"; subject := py "fix bug" |}].
Proof.
  set (s0 := start logging tt).
  set (s1 := snd (is_git_repo None s0)).
  assert (R : is_git_repo None s0 = (Ok true, s1)) by (vm_compute; reflexivity).
  destruct (@get_commit_history_parses logging None 100 s0 s1
              (snd (run_git_command
                      [py "log"; py "--pretty=format:" ++ log_format;
                       py "-n" ++ str_of_int 100] None true s1))
              log_output R)
    as (history & Hrun & Hhist & _).
  - vm_compute. reflexivity.
  - exists history. rewrite Hrun. split; [reflexivity|]. split; [exact Hhist|].
    vm_compute. reflexivity.
Defined.

(** On a branch without upstream the probe raises [NameError]. *)
Lemma get_incoming_commits_raises_witness :
  exists e,
    fst (get_incoming_commits (H := no_upstream) None (start no_upstream tt))
    = Raise e
    /\ exn_cls e = NameError.
Proof.
  set (s0 := start no_upstream tt).
  set (s1 := snd (is_git_repo None s0)).
  assert (R : is_git_repo None s0 = (Ok true, s1)) by (vm_compute; reflexivity).
  pose proof (@get_incoming_commits_raises no_upstream None s0 s1 R) as T.
  cbv zeta in T.
  match type of T with
  | match ?x with _ => _ end =>
      assert (E : x = (Ok no_upstream_proc, tt)) by (vm_compute; reflexivity);
      rewrite E in T
  end.
  destruct T as (e & He & Hcls).
  exists e. rewrite He. split; [reflexivity | exact Hcls].
Defined.

(** With the model server out of reach the suggestion raises
    [UnboundLocalError]. *)
Lemma suggest_commit_messages_request_failure_witness :
  exists e,
    fst (suggest_commit_messages (H := unreachable) (py "+ line") [] 3
           (start unreachable tt)) = Raise e
    /\ exn_cls e = UnboundLocalError.
Proof.
  destruct (@suggest_commit_messages_request_failure unreachable
              (py "+ line") [] 3 (start unreachable tt)
              (Exn OtherException (py "connection refused")) tt)
    as (e & He & Hcls).
  - vm_compute. reflexivity.
  - vm_compute. reflexivity.
  - vm_compute. reflexivity.
  - exists e. rewrite He. split; [reflexivity | exact Hcls].
Defined.

(* ================================================================== *)
(** * Properties of strip and splitlines *)
(* ================================================================== *)

Lemma lstrip_decompose (s : pystr) :
  exists ws, s = ws ++ lstrip s /\ forallb isspace ws = true
             /\ match lstrip s with [] => True | c :: _ => isspace c = false end.
Proof.
  induction s as [|c s (ws & E & Hws & Hhd)]; simpl.
  - exists []. repeat split.
  - destruct (isspace c) eqn:Hc.
    + exists (c :: ws). simpl. rewrite Hc, Hws. repeat split; [|exact Hhd].
      f_equal. exact E.
    + exists []. repeat split. exact Hc.
Qed.

Lemma lstrip_spaces (ws s : pystr) :
  forallb isspace ws = true -> lstrip (ws ++ s) = lstrip s.
Proof.
  induction ws as [|c ws IH]; simpl; [reflexivity|].
  intros Hws. apply andb_true_iff in Hws as [Hc Hws]. rewrite Hc. auto.
Qed.

Lemma lstrip_head (c : N) (s : pystr) :
  isspace c = false -> lstrip (c :: s) = c :: s.
Proof. intros Hc. simpl. rewrite Hc. reflexivity. Qed.

Lemma rstrip_spaces (s ws : pystr) :
  forallb isspace ws = true -> rstrip (s ++ ws) = rstrip s.
Proof.
  intros Hws. unfold rstrip. rewrite rev_app_distr, lstrip_spaces; [reflexivity|].
  rewrite forallb_forall in *. intros x Hx. apply Hws. apply in_rev. exact Hx.
Qed.

Lemma rstrip_last (s : pystr) (c : N) :
  isspace c = false -> rstrip (s ++ [c]) = s ++ [c].
Proof.
  intros Hc. unfold rstrip. rewrite rev_app_distr. simpl. rewrite Hc.
  simpl. rewrite rev_involutive. reflexivity.
Qed.

Lemma rstrip_decompose (s : pystr) :
  exists ws, s = rstrip s ++ ws /\ forallb isspace ws = true.
Proof.
  unfold rstrip. destruct (lstrip_decompose (rev s)) as (ws & E & Hws & _).
  exists (rev ws). split.
  - rewrite <- rev_app_distr, <- E, rev_involutive. reflexivity.
  - rewrite forallb_forall in *. intros x Hx. apply Hws. apply in_rev.
    exact Hx.
Qed.

Lemma is_trimmed_last (s : pystr) (c : N) :
  is_trimmed (s ++ [c]) = true -> isspace c = false.
Proof.
  destruct s as [|d s].
  - simpl. intros Hc. apply andb_true_iff in Hc as [Hc _].
    apply negb_true_iff. exact Hc.
  - unfold is_trimmed. cbn [app].
    intros Hc. apply andb_true_iff in Hc as [_ Hc]. apply negb_true_iff in Hc.
    change (d :: s ++ [c]) with ((d :: s) ++ [c]) in Hc.
    rewrite last_last in Hc. exact Hc.
Qed.

Lemma strip_trimmed (s : pystr) : is_trimmed s = true -> strip s = s.
Proof.
  intros Ht. unfold strip. destruct s as [|c s]; [reflexivity|].
  pose proof Ht as Hhd. simpl in Hhd. apply andb_true_iff in Hhd as [Hhd _].
  apply negb_true_iff in Hhd. rewrite lstrip_head by exact Hhd.
  destruct (@exists_last _ (c :: s)) as (s' & d & E); [discriminate|].
  rewrite E in *. apply rstrip_last. apply (is_trimmed_last _ _ Ht).
Qed.

Lemma strip_is_trimmed (s : pystr) : is_trimmed (strip s) = true.
Proof.
  unfold strip.
  destruct (lstrip_decompose s) as (ws & _ & _ & Hhd).
  remember (lstrip s) as t eqn:Et. clear Et ws s.
  destruct (rstrip_decompose t) as (ws & E & Hws).
  destruct (rstrip t) as [|c m] eqn:Em; [reflexivity|].
  simpl. apply andb_true_iff. split.
  - rewrite E in Hhd. simpl in Hhd. rewrite Hhd. reflexivity.
  - (* last of rstrip is not a space *)
    unfold rstrip in Em.
    destruct (lstrip_decompose (rev t)) as (ws' & _ & _ & Hhd').
    destruct (lstrip (rev t)) as [|d u] eqn:Eu; [discriminate|].
    simpl in Em.
    assert (L : last (c :: m) c = d).
    { rewrite <- Em. apply last_last. }
    change (match m with [] => c | _ :: _ => last m c end) with (last (c :: m) c).
    rewrite L, Hhd'. reflexivity.
Qed.

Lemma strip_idempotent (s : pystr) : strip (strip s) = strip s.
Proof. apply strip_trimmed, strip_is_trimmed. Qed.

Lemma strip_padded (ws1 s ws2 : pystr) :
  forallb isspace ws1 = true -> forallb isspace ws2 = true ->
  is_trimmed s = true -> strip (ws1 ++ s ++ ws2) = s.
Proof.
  intros H1 H2 Ht. destruct s as [|c s].
  - simpl. unfold strip. rewrite lstrip_spaces by exact H1.
    destruct (lstrip_decompose ws2) as (ws & E & Hws & Hhd).
    assert (L : lstrip ws2 = []).
    { destruct (lstrip ws2) as [|d u] eqn:Eu; [reflexivity|].
      rewrite forallb_forall in H2. specialize (H2 d).
      rewrite H2 in Hhd; [discriminate|]. rewrite E. apply in_or_app. right. left. reflexivity. }
    rewrite L. reflexivity.
  - unfold strip. rewrite lstrip_spaces by exact H1.
    pose proof Ht as Hhd. simpl in Hhd. apply andb_true_iff in Hhd as [Hhd _].
    apply negb_true_iff in Hhd.
    change ((c :: s) ++ ws2) with (c :: (s ++ ws2)). rewrite lstrip_head by exact Hhd.
    change (c :: s ++ ws2) with ((c :: s) ++ ws2). rewrite rstrip_spaces by exact H2.
    fold (strip (c :: s)).
    assert (E : rstrip (c :: s) = strip (c :: s)).
    { unfold strip. rewrite lstrip_head by exact Hhd. reflexivity. }
    rewrite E. apply strip_trimmed. exact Ht.
Qed.

(** splitlines *)

Lemma splitlines_line (l r : pystr) :
  has_linebreak l = false -> splitlines (l ++ 10%N :: r) = l :: splitlines r.
Proof.
  induction l as [|c l IH]; intros Hl.
  - simpl. destruct r; reflexivity.
  - unfold has_linebreak in *. simpl in Hl. apply orb_false_iff in Hl as [Hc Hl].
    simpl. rewrite Hc, IH by exact Hl. reflexivity.
Qed.

(** A line boundary other than the carriage return cuts as the newline
    does: the form feed, the vertical tab, the separators. *)
Lemma splitlines_break (b : N) (l r : pystr) :
  is_linebreak b = true -> b <> 13%N -> has_linebreak l = false ->
  splitlines (l ++ b :: r) = l :: splitlines r.
Proof.
  intros Hb Hcr. induction l as [|c l IH]; intros Hl.
  - cbn [app splitlines]. rewrite Hb. destruct r as [|d r']; [reflexivity|].
    replace (b =? 13)%N with false by (symmetry; apply N.eqb_neq; exact Hcr).
    reflexivity.
  - unfold has_linebreak in *. simpl in Hl. apply orb_false_iff in Hl as [Hc Hl].
    simpl. rewrite Hc, IH by exact Hl. reflexivity.
Qed.

Lemma splitlines_single (l : pystr) :
  l <> [] -> has_linebreak l = false -> splitlines l = [l].
Proof.
  induction l as [|c l IH]; intros Hne Hl; [contradiction|].
  unfold has_linebreak in *. simpl in Hl. apply orb_false_iff in Hl as [Hc Hl].
  simpl. rewrite Hc. destruct l as [|d l]; [reflexivity|].
  rewrite IH; [reflexivity|discriminate|exact Hl].
Qed.

Lemma splitlines_join (lines : list pystr) :
  Forall (fun l => l <> [] /\ has_linebreak l = false) lines ->
  splitlines (join NL lines) = lines.
Proof.
  induction 1 as [|l ls [Hne Hl] Hls IH]; [reflexivity|].
  destruct ls as [|l' ls].
  - simpl. apply splitlines_single; assumption.
  - change (join NL (l :: l' :: ls)) with (l ++ NL ++ join NL (l' :: ls)).
    unfold NL at 1. cbn [app]. rewrite splitlines_line by exact Hl.
    rewrite IH. reflexivity.
Qed.

Lemma splitlines_unlines (lines : list pystr) :
  Forall (fun l => has_linebreak l = false) lines ->
  splitlines (unlines lines) = lines.
Proof.
  unfold unlines. induction 1 as [|l ls Hl Hls IH]; [reflexivity|].
  simpl. rewrite <- app_assoc. unfold NL at 1. cbn [app].
  rewrite splitlines_line by exact Hl. rewrite IH. reflexivity.
Qed.

Lemma splitlines_no_break_bounded (n : nat) (s : pystr) :
  (List.length s <= n)%nat ->
  Forall (fun l => has_linebreak l = false) (splitlines s).
Proof.
  revert s. induction n as [|n IH]; intros s Hn.
  - destruct s; [constructor | simpl in Hn; lia].
  - destruct s as [|c r]; [constructor|]. simpl in Hn.
    simpl. destruct (is_linebreak c) eqn:Hc.
    + destruct r as [|d r']; [repeat constructor|].
      destruct ((c =? 13) && (d =? 10))%N; constructor; try reflexivity;
        apply IH; simpl in *; lia.
    + assert (Hr : Forall (fun l => has_linebreak l = false) (splitlines r))
        by (apply IH; lia).
      destruct (splitlines r) as [|l ls]; [repeat constructor|].
      * unfold has_linebreak. simpl. rewrite Hc. reflexivity.
      * inversion Hr; subst. constructor; [|assumption].
        unfold has_linebreak in *. simpl. rewrite Hc. assumption.
Qed.

Lemma splitlines_no_break (s : pystr) :
  Forall (fun l => has_linebreak l = false) (splitlines s).
Proof. apply (splitlines_no_break_bounded (n := List.length s)). lia. Qed.

(** split *)

Lemma split_inv (sep : N) (n : nat) (s f g : pystr) (fs : list pystr) :
  split sep (S n) s = f :: g :: fs ->
  ~ In sep f /\ exists rest, s = f ++ sep :: rest /\ split sep n rest = g :: fs.
Proof.
  revert f. induction s as [|c r IH]; intros f; simpl; [discriminate|].
  destruct (N.eqb_spec c sep) as [->|Hc].
  - intros E. inversion E; subst. split; [intros []|].
    exists r. split; reflexivity.
  - destruct (split sep (S n) r) as [|f' fs'] eqn:Er; simpl; [discriminate|].
    intros E. inversion E; subst.
    destruct (IH f' eq_refl) as (Hf & rest & -> & Hrest).
    split.
    + intros [E'|Hin]; [apply Hc; exact E' | exact (Hf Hin)].
    + exists rest. split; [reflexivity | exact Hrest].
Qed.

Lemma commit_of_line_shape (line : pystr) (r : CommitRecord) :
  In r (commit_of_line line) ->
  exists h a d sub,
    line = h ++ 124%N :: a ++ 124%N :: d ++ 124%N :: sub
    /\ ~ In 124%N h /\ ~ In 124%N a /\ ~ In 124%N d
    /\ r = {| hash := firstn 7 h; author := a; date := d; subject := sub |}.
Proof.
  unfold commit_of_line, get_commit_history_step.
  destruct (negb (truthy line)); [intros []|].
  destruct (split 124 3 line) as [|p0 [|p1 [|p2 [|p3 [|p4 ps]]]]] eqn:E;
    try solve [intros []].
  cbn [app]. intros [<-|[]].
  apply split_inv in E as (H0 & r1 & -> & E).
  apply split_inv in E as (H1 & r2 & -> & E).
  apply split_inv in E as (H2 & r3 & -> & E).
  rewrite split_zero in E. inversion E; subst.
  exists p0, p1, p2, p3. repeat split; assumption.
Qed.

(* ================================================================== *)
(** * Further properties of the facade *)
(* ================================================================== *)

Section More.
Context {H : Host}.

Lemma has_bar_false (s : pystr) : has_bar s = false <-> ~ In 124%N s.
Proof.
  unfold has_bar. split.
  - intros E Hin. assert (existsb (N.eqb 124) s = true); [|congruence].
    apply existsb_exists. exists 124%N. split; [exact Hin | apply N.eqb_refl].
  - intros Hn. destruct (existsb (N.eqb 124) s) eqn:E; [|reflexivity].
    apply existsb_exists in E as (x & Hx & Ex). apply N.eqb_eq in Ex. subst.
    contradiction.
Qed.

Lemma is_git_repo_returns (cwd : option pystr) (s : State) :
  exists repo,
    is_git_repo cwd s
    = (Ok repo,
       ran s (GIT_BIN s :: [py "rev-parse"; py "--is-inside-work-tree"]) cwd
         (snd (subprocess_run
                 (GIT_BIN s :: [py "rev-parse"; py "--is-inside-work-tree"])
                 cwd 20 (world s)))).
Proof.
  unfold is_git_repo, try_except, bind, any_Exception, ret.
  pose proof (run_git_command_state
                [py "rev-parse"; py "--is-inside-work-tree"] cwd true s) as E.
  destruct (run_git_command _ cwd true s) as [[out|e] s']; simpl in E; subst s';
    eexists; reflexivity.
Qed.

(** X1.  The runner returns exactly when the process ends within the
    timeout and, with [check], its exit code is 0; what it returns is the
    standard output as it stands, and the command run is the executable
    of [GIT_BIN] followed by the arguments, in the given directory. *)
Theorem run_git_command_returns_iff
  (args : list pystr) (cwd : option pystr) (check : bool) (s s' : State) (out : pystr) :
  run_git_command args cwd check s = (Ok out, s')
  <->
  exists proc w,
    subprocess_run (GIT_BIN s :: args) cwd 20 (world s) = (Ok proc, w)
    /\ (check = false \/ returncode proc = 0%Z)
    /\ out = stdout proc
    /\ s' = ran s (GIT_BIN s :: args) cwd w.
Proof.
  rewrite run_git_command_unfold. cbv zeta.
  destruct (subprocess_run (GIT_BIN s :: args) cwd 20 (world s)) as [[proc|e] w].
  - destruct check; cbn [andb].
    + destruct (Z.eqb_spec (returncode proc) 0) as [E0|N0]; cbn [negb].
      * split.
        -- intros E. inversion E; subst. exists proc, w. repeat split. right. exact E0.
        -- intros (p & w' & E & _ & -> & ->). inversion E; subst. reflexivity.
      * split.
        -- destruct (contains _ _ && contains _ _); discriminate.
        -- intros (p & w' & E & [C|C] & _); [discriminate|].
           inversion E; subst. contradiction.
    + split.
      * intros E. inversion E; subst. exists proc, w. repeat split. left. reflexivity.
      * intros (p & w' & E & _ & -> & ->). inversion E; subst. reflexivity.
  - split; [discriminate|]. intros (p & w' & E & _). discriminate.
Qed.

(** X2.  After [set_git_executable p], with [p] not empty, the runner runs
    [p] with the arguments; a later [set_git_executable] of the empty
    string changes nothing, and of two paths set the last is the one
    run. *)
Theorem configured_executable_is_used
  (p q : pystr) (args : list pystr) (cwd : option pystr) (check : bool) (s : State) :
  p <> [] ->
  trace (snd (run_git_command args cwd check (snd (set_git_executable p s))))
  = trace s ++ [{| inv_cmd := p :: args; inv_cwd := cwd |}]
  /\ snd (set_git_executable [] (snd (set_git_executable p s)))
     = snd (set_git_executable p s)
  /\ (q <> [] ->
      trace (snd (run_git_command args cwd check
                    (snd (set_git_executable q (snd (set_git_executable p s))))))
      = trace s ++ [{| inv_cmd := q :: args; inv_cwd := cwd |}]).
Proof.
  intros Hp. destruct p as [|c p]; [contradiction|].
  split; [|split].
  - rewrite run_git_command_state. reflexivity.
  - reflexivity.
  - intros Hq. destruct q as [|d q]; [contradiction|].
    rewrite run_git_command_state. reflexivity.
Qed.

(** X3.  Where the probe [is_git_repo] answers no, the listings of staged,
    unstaged and conflicted files, of branches, of the history and of the
    incoming commits are empty and the diff of a commit is the empty
    string; each of them has run the probe and no other command. *)
Theorem outside_working_tree_is_empty
  (cwd : option pystr) (s s1 : State) (limit : Z) (commit_hash : pystr) :
  is_git_repo cwd s = (Ok false, s1) ->
  staged_files cwd s = (Ok [], s1)
  /\ unstaged_files cwd s = (Ok [], s1)
  /\ conflicted_files cwd s = (Ok [], s1)
  /\ list_branches cwd s = (Ok [], s1)
  /\ get_commit_history cwd limit s = (Ok [], s1)
  /\ get_commit_diff commit_hash cwd s = (Ok [], s1)
  /\ get_incoming_commits cwd s = (Ok [], s1)
  /\ trace s1
     = trace s ++ [{| inv_cmd := [GIT_BIN s; py "rev-parse"; py "--is-inside-work-tree"];
                      inv_cwd := cwd |}].
Proof.
  intros Hrepo.
  unfold staged_files, unstaged_files, conflicted_files, list_branches,
    get_commit_history, get_commit_diff, get_incoming_commits, bind.
  rewrite Hrepo. cbn [negb]. repeat split.
  destruct (is_git_repo_returns cwd s) as (repo & E). rewrite E in Hrepo.
  inversion Hrepo. reflexivity.
Qed.

Lemma utf8_width_bounds (c : N) : (1 <= utf8_width c <= 4)%nat.
Proof.
  unfold utf8_width.
  destruct (c <? 128)%N; [lia|]. destruct (c <? 2048)%N; [lia|].
  destruct (c <? 65536)%N; lia.
Qed.

Lemma utf8_length_bounds (d : pystr) :
  (Z.of_nat (List.length d) <= utf8_length d <= 4 * Z.of_nat (List.length d))%Z.
Proof.
  unfold utf8_length. induction d as [|c d IH]; simpl; [lia|].
  pose proof (utf8_width_bounds c). lia.
Qed.

(** X4.  In a working tree the size of the staged diff lies between the
    number of characters of the diff and four times that number, and it is
    0 exactly when the diff is empty. *)
Theorem staged_diff_size_bounds
  (cwd : option pystr) (s s1 s2 s3 : State) (d : pystr) (n : Z) :
  is_git_repo cwd s = (Ok true, s1) ->
  diff_staged cwd s1 = (Ok d, s2) ->
  staged_diff_size cwd s = (Ok n, s3) ->
  (Z.of_nat (List.length d) <= n <= 4 * Z.of_nat (List.length d))%Z
  /\ (n = 0%Z <-> d = []).
Proof.
  intros Hrepo Hdiff. unfold staged_diff_size, bind. rewrite Hrepo. cbn [negb].
  rewrite Hdiff. unfold lift, encode_utf8, ret.
  destruct (encodable d); [|discriminate].
  intros E. inversion E; subst. rewrite utf8_encode_length.
  pose proof (utf8_length_bounds d) as B. split; [exact B|].
  split.
  - intros E0. destruct d; [reflexivity|]. simpl in B. lia.
  - intros ->. reflexivity.
Qed.

Lemma staged_diff_size_nonneg (cwd : option pystr) (s s' : State) (n : Z) :
  staged_diff_size cwd s = (Ok n, s') -> (0 <= n)%Z.
Proof.
  unfold staged_diff_size, bind.
  destruct (is_git_repo cwd s) as [[[|]|e] s1]; cbn [negb]; try discriminate.
  - destruct (diff_staged cwd s1) as [[d|e] s2]; [|discriminate].
    unfold lift, ret. destruct (encode_utf8 d); [|discriminate].
    intros E. inversion E. lia.
  - unfold ret. intros E. inversion E. lia.
Qed.

(** X5.  With a negative limit [safe_commit] raises whatever the staged
    diff, the empty one too, and runs no [git commit]. *)
Theorem safe_commit_negative_limit
  (message : pystr) (cwd : option pystr) (max_diff_bytes : Z) (s : State) :
  (max_diff_bytes < 0)%Z ->
  (exists e, fst (safe_commit message cwd max_diff_bytes s) = Raise e)
  /\ exists l,
       trace (snd (safe_commit message cwd max_diff_bytes s)) = trace s ++ l
       /\ existsb is_commit_invocation l = false.
Proof.
  intros Hneg. unfold safe_commit, bind.
  pose proof (measurement_runs_no_commit cwd s) as (l & El & Fl).
  destruct (staged_diff_size cwd s) as [[size|e] s1] eqn:Em.
  - apply staged_diff_size_nonneg in Em.
    assert (G : (size >? max_diff_bytes)%Z = true) by (apply Z.gtb_lt; lia).
    rewrite G. unfold raise. split; [eexists; reflexivity|].
    exists l. split; [exact El|].
    clear -Fl. induction l as [|i l IH]; simpl in *; [reflexivity|].
    apply andb_true_iff in Fl as [Fi Fl]. unfold not_commit in Fi.
    apply negb_true_iff in Fi. rewrite Fi, IH; auto.
  - split; [eexists; reflexivity|]. exists l. split; [exact El|].
    clear -Fl. induction l as [|i l IH]; simpl in *; [reflexivity|].
    apply andb_true_iff in Fl as [Fi Fl]. unfold not_commit in Fi.
    apply negb_true_iff in Fi. rewrite Fi, IH; auto.
Qed.

Lemma has_linebreak_app (a b : pystr) :
  has_linebreak (a ++ b) = has_linebreak a || has_linebreak b.
Proof. unfold has_linebreak. apply existsb_app. Qed.

Lemma has_linebreak_firstn (n : nat) (a : pystr) :
  has_linebreak a = false -> has_linebreak (firstn n a) = false.
Proof.
  intros Ha. rewrite <- (firstn_skipn n a), has_linebreak_app in Ha.
  apply orb_false_iff in Ha as [Ha _]. exact Ha.
Qed.

(** X6.  In every record of the history the hash has at most seven
    characters, neither the hash nor the author nor the date holds the
    delimiter [|], and no field holds a line boundary. *)
Theorem commit_history_fields
  (cwd : option pystr) (limit : Z) (s s' : State) (history : list CommitRecord) :
  get_commit_history cwd limit s = (Ok history, s') ->
  Forall (fun c =>
            (List.length (hash c) <= 7)%nat
            /\ ~ In 124%N (hash c) /\ ~ In 124%N (author c) /\ ~ In 124%N (date c)
            /\ has_linebreak (hash c) = false /\ has_linebreak (author c) = false
            /\ has_linebreak (date c) = false /\ has_linebreak (subject c) = false)
         history.
Proof.
  unfold get_commit_history, bind.
  destruct (is_git_repo cwd s) as [[[|]|e] s1]; cbn [negb]; try discriminate.
  2: { unfold ret. intros E. inversion E. constructor. }
  destruct (run_git_command _ cwd true s1) as [[out|e] s2]; [|discriminate].
  unfold ret. intros E. inversion E; subst. clear E.
  rewrite history_fold. cbn [app]. apply Forall_forall. intros c Hc.
  apply in_flat_map in Hc as (line & Hline & Hc).
  apply commit_of_line_shape in Hc as (h & a & d & sub & -> & Hh & Ha & Hd & ->).
  pose proof (splitlines_no_break out) as Hnb.
  rewrite Forall_forall in Hnb. specialize (Hnb _ Hline).
  rewrite has_linebreak_app in Hnb. apply orb_false_iff in Hnb as [Bh Hnb].
  change (124%N :: a ++ 124%N :: d ++ 124%N :: sub)
    with ([124%N] ++ a ++ [124%N] ++ d ++ [124%N] ++ sub) in Hnb.
  rewrite !has_linebreak_app in Hnb.
  repeat (apply orb_false_iff in Hnb as [? Hnb]).
  cbn [hash author date subject]. repeat split; try assumption.
  - rewrite length_firstn. lia.
  - intros Hin. apply Hh. rewrite <- (firstn_skipn 7 h). apply in_or_app. left. exact Hin.
  - apply has_linebreak_firstn. exact Bh.
Qed.

Lemma clean_log_line (c : CommitRecord) :
  clean_commit c = true ->
  log_line c <> [] /\ has_linebreak (log_line c) = false
  /\ commit_of_line (log_line c) = [short_hash c].
Proof.
  unfold clean_commit. rewrite !andb_true_iff, !negb_true_iff.
  intros ((((((Bh & Ba) & Bd) & Lh) & La) & Ld) & Ls).
  split; [|split].
  - unfold log_line. destruct (hash c); discriminate.
  - unfold log_line.
    change (hash c ++ 124%N :: author c ++ 124%N :: date c ++ 124%N :: subject c)
      with (hash c ++ [124%N] ++ author c ++ [124%N] ++ date c ++ [124%N] ++ subject c).
    rewrite !has_linebreak_app, Lh, La, Ld, Ls. reflexivity.
  - apply commit_of_wellformed_line; apply has_bar_false; assumption.
Qed.

(** X7.  When the log prints one line [hash|author|date|subject] for each
    of a list of commits, the lines joined by newlines, and no hash,
    author or date holds the delimiter and no field a line boundary, the
    history is that list of commits, in order, each with its hash cut to
    seven characters; the subject may hold the delimiter. *)
Theorem commit_history_round_trip
  (cwd : option pystr) (limit : Z) (s s1 s2 : State) (commits : list CommitRecord) :
  is_git_repo cwd s = (Ok true, s1) ->
  run_git_command [py "log"; py "--pretty=format:" ++ log_format;
                   py "-n" ++ str_of_int limit] cwd true s1
  = (Ok (join NL (List.map log_line commits)), s2) ->
  forallb clean_commit commits = true ->
  get_commit_history cwd limit s = (Ok (List.map short_hash commits), s2).
Proof.
  intros Hrepo Hrun Hclean. unfold get_commit_history, bind. rewrite Hrepo.
  cbn [negb]. rewrite Hrun. unfold ret. f_equal. f_equal.
  rewrite history_fold. cbn [app]. rewrite splitlines_join.
  - rewrite forallb_forall in Hclean.
    clear -Hclean. induction commits as [|c cs IH]; [reflexivity|].
    cbn [List.map flat_map].
    destruct (clean_log_line c) as (_ & _ & ->); [apply Hclean; left; reflexivity|].
    rewrite IH; [reflexivity|]. intros x Hx. apply Hclean. right. exact Hx.
  - rewrite forallb_forall in Hclean. apply Forall_forall. intros l Hl.
    apply in_map_iff in Hl as (c & <- & Hc).
    destruct (clean_log_line c (Hclean c Hc)) as (A & B & _). split; assumption.
Qed.

(** C7, where the code departs from it.  [str.splitlines] cuts at a form
    feed as it does at a newline, and [git log] prints the subject of a
    commit with the form feeds it holds.  Take a working tree whose log
    is the line of one commit [c], without a newline in it, the subject
    of [c] being [before], a form feed, and a text that reads as the line
    of a commit [forged].  The history then holds two records for that
    one line: that of [c] with its subject cut to [before], and that of
    [forged], a commit the repository does not hold. *)
Theorem get_commit_history_cuts_subject
  (cwd : option pystr) (limit : Z) (s s1 s2 : State)
  (c forged : CommitRecord) (before : pystr) :
  is_git_repo cwd s = (Ok true, s1) ->
  run_git_command [py "log"; py "--pretty=format:" ++ log_format;
                   py "-n" ++ str_of_int limit] cwd true s1
  = (Ok (log_line c), s2) ->
  subject c = before ++ 12%N :: log_line forged ->
  has_bar (hash c) = false -> has_bar (author c) = false ->
  has_bar (date c) = false ->
  has_linebreak (hash c) = false -> has_linebreak (author c) = false ->
  has_linebreak (date c) = false -> has_linebreak before = false ->
  clean_commit forged = true ->
  ~ In 10%N (log_line c)
  /\ get_commit_history cwd limit s
     = (Ok [{| hash := firstn 7 (hash c); author := author c; date := date c;
               subject := before |};
            short_hash forged], s2)
  /\ before <> subject c.
Proof.
  intros Hrepo Hrun Hsub Bh Ba Bd Lh La Ld Lb Hforged.
  destruct (@clean_log_line forged Hforged) as (Fne & Fl & Fc).
  set (line := hash c ++ 124%N :: author c ++ 124%N :: date c ++ 124%N :: before).
  assert (Eout : log_line c = line ++ 12%N :: log_line forged).
  { unfold log_line at 1, line. rewrite Hsub.
    change (hash c ++ 124%N :: author c ++ 124%N :: date c ++ 124%N
              :: before ++ 12%N :: log_line forged)
      with (hash c ++ [124%N] ++ author c ++ [124%N] ++ date c ++ [124%N]
              ++ before ++ 12%N :: log_line forged).
    change (hash c ++ 124%N :: author c ++ 124%N :: date c ++ 124%N :: before)
      with (hash c ++ [124%N] ++ author c ++ [124%N] ++ date c ++ [124%N]
              ++ before).
    rewrite <- !app_assoc. reflexivity. }
  assert (Lline : has_linebreak line = false).
  { unfold line.
    change (hash c ++ 124%N :: author c ++ 124%N :: date c ++ 124%N :: before)
      with (hash c ++ [124%N] ++ author c ++ [124%N] ++ date c ++ [124%N]
              ++ before).
    rewrite !has_linebreak_app, Lh, La, Ld, Lb. reflexivity. }
  assert (Nl : forall t, has_linebreak t = false -> ~ In 10%N t).
  { intros t Ht Hin.
    assert (X : has_linebreak t = true); [|congruence].
    apply existsb_exists. exists 10%N. split; [exact Hin | reflexivity]. }
  split; [|split].
  - rewrite Eout. intros Hin. apply in_app_or in Hin as [Hin|[Hin|Hin]].
    + exact (Nl _ Lline Hin).
    + discriminate Hin.
    + exact (Nl _ Fl Hin).
  - unfold get_commit_history, bind. rewrite Hrepo. cbn [negb]. rewrite Hrun.
    unfold ret. rewrite history_fold, Eout.
    rewrite (@splitlines_break 12 line (log_line forged)
               eq_refl ltac:(discriminate) Lline).
    rewrite (@splitlines_single (log_line forged) Fne Fl).
    cbn [flat_map app]. rewrite Fc. unfold line.
    rewrite commit_of_wellformed_line by (apply has_bar_false; assumption).
    reflexivity.
  - rewrite Hsub. intros E.
    assert (L : List.length before
                = List.length (before ++ 12%N :: log_line forged))
      by (rewrite <- E; reflexivity).
    rewrite length_app in L. cbn [List.length] in L. lia.
Qed.


Lemma py_marker : py "* " = [42%N; 32%N].
Proof. vm_compute. reflexivity. Qed.

Lemma py_two_spaces : py "  " = [32%N; 32%N].
Proof. vm_compute. reflexivity. Qed.

Lemma strip_decompose (s : pystr) :
  exists ws1 ws2, s = ws1 ++ strip s ++ ws2.
Proof.
  unfold strip. destruct (lstrip_decompose s) as (ws1 & E1 & _).
  destruct (rstrip_decompose (lstrip s)) as (ws2 & E2 & _).
  exists ws1, ws2. rewrite <- E2. exact E1.
Qed.

Lemma has_linebreak_strip (s : pystr) :
  has_linebreak s = false -> has_linebreak (strip s) = false.
Proof.
  intros Hs. destruct (strip_decompose s) as (ws1 & ws2 & E).
  rewrite E, !has_linebreak_app in Hs.
  apply orb_false_iff in Hs as [_ Hs]. apply orb_false_iff in Hs as [Hs _].
  exact Hs.
Qed.

Lemma has_linebreak_skipn (n : nat) (a : pystr) :
  has_linebreak a = false -> has_linebreak (skipn n a) = false.
Proof.
  intros Ha. rewrite <- (firstn_skipn n a), has_linebreak_app in Ha.
  apply orb_false_iff in Ha as [_ Ha]. exact Ha.
Qed.

Lemma trimmed_rstrip (s : pystr) : is_trimmed s = true -> rstrip s = s.
Proof.
  intros Ht. destruct s as [|c s]; [reflexivity|].
  destruct (@exists_last _ (c :: s)) as (s' & d & E); [discriminate|].
  rewrite E in *. apply rstrip_last. apply (is_trimmed_last _ _ Ht).
Qed.

Lemma rstrip_fixed_last (s : pystr) (c : N) :
  rstrip (s ++ [c]) = s ++ [c] -> isspace c = false.
Proof.
  unfold rstrip. rewrite rev_app_distr. simpl.
  destruct (isspace c); [|reflexivity].
  intros E. apply (f_equal (@List.length N)) in E.
  rewrite length_rev, length_app in E. simpl in E.
  destruct (lstrip_decompose (rev s)) as (ws & Ews & _).
  apply (f_equal (@List.length N)) in Ews.
  rewrite length_rev, length_app in Ews. lia.
Qed.

Lemma branch_entry (t : pystr) :
  truthy t = true -> is_trimmed t = true -> has_linebreak t = false ->
  strip_marker t <> [] /\ rstrip (strip_marker t) = strip_marker t
  /\ has_linebreak (strip_marker t) = false.
Proof.
  intros Hne Ht Hnb. unfold strip_marker.
  destruct (startswith (py "* ") t) eqn:Hm.
  - apply startswith_prefix in Hm as (rest & ->). rewrite py_marker in *.
    cbn [app skipn] in *.
    destruct (@exists_last _ (42%N :: 32%N :: rest)) as (u & d & E); [discriminate|].
    assert (Hd : isspace d = false).
    { rewrite E in Ht. apply (is_trimmed_last _ _ Ht). }
    destruct rest as [|r0 rest].
    + vm_compute in Ht. discriminate Ht.
    + destruct (@exists_last _ (r0 :: rest)) as (u' & d' & E'); [discriminate|].
      assert (d' = d).
      { rewrite E' in E. change (42%N :: 32%N :: u' ++ [d']) with ((42%N :: 32%N :: u') ++ [d']) in E.
        apply app_inj_tail in E as [_ ?]. assumption. }
      subst d'. split; [discriminate|]. split.
      * rewrite E'. apply rstrip_last. exact Hd.
      * change (42%N :: 32%N :: r0 :: rest) with ([42%N; 32%N] ++ r0 :: rest) in Hnb.
        rewrite has_linebreak_app in Hnb. apply orb_false_iff in Hnb as [_ Hnb].
        exact Hnb.
  - split; [destruct t; [discriminate|discriminate]|]. split.
    + apply trimmed_rstrip. exact Ht.
    + exact Hnb.
Qed.

(** X8.  Every branch name returned by [list_branches] is non-empty, ends
    with no white space and holds no line boundary. *)
Theorem list_branches_entries
  (cwd : option pystr) (s s' : State) (branches : list pystr) :
  list_branches cwd s = (Ok branches, s') ->
  Forall (fun b => b <> [] /\ rstrip b = b /\ has_linebreak b = false) branches.
Proof.
  unfold list_branches, bind.
  destruct (is_git_repo cwd s) as [[[|]|e] s1]; cbn [negb]; try discriminate.
  2: { unfold ret. intros E. inversion E. constructor. }
  destruct (run_git_command _ cwd true s1) as [[out|e] s2]; [|discriminate].
  unfold ret. intros E. inversion E; subst. clear E.
  rewrite list_branches_fold. cbn [app]. apply Forall_forall. intros b Hb.
  apply in_map_iff in Hb as (t & <- & Ht).
  apply filter_In in Ht as [Ht Hne].
  apply in_map_iff in Ht as (line & <- & Hline).
  apply branch_entry.
  - exact Hne.
  - apply strip_is_trimmed.
  - apply has_linebreak_strip.
    pose proof (splitlines_no_break out) as Hnb. rewrite Forall_forall in Hnb.
    apply Hnb. exact Hline.
Qed.

Lemma clean_branch_line (current : bool) (name : pystr) :
  clean_branch name = true ->
  has_linebreak (branch_line current name) = false
  /\ truthy (strip (branch_line current name)) = true
  /\ strip_marker (strip (branch_line current name)) = name.
Proof.
  unfold clean_branch. rewrite !andb_true_iff, !negb_true_iff.
  intros (((Hne & Ht) & Hnb) & Hm).
  destruct name as [|c name]; [discriminate|].
  unfold branch_line. destruct current.
  - rewrite py_marker. cbn [app].
    assert (T : is_trimmed (42%N :: 32%N :: c :: name) = true).
    { unfold is_trimmed in *. apply andb_true_iff in Ht as [_ Hl].
      apply andb_true_iff. split; [reflexivity|].
      change (last (42%N :: 32%N :: c :: name) 42%N) with (last (c :: name) 42%N).
      destruct (@exists_last _ (c :: name)) as (u & d & E); [discriminate|].
      rewrite E in *. rewrite last_last in *. exact Hl. }
    rewrite (strip_trimmed _ T). split; [|split; [reflexivity|]].
    + change (42%N :: 32%N :: c :: name) with ([42%N; 32%N] ++ c :: name).
      rewrite has_linebreak_app, Hnb. reflexivity.
    + unfold strip_marker. rewrite py_marker. reflexivity.
  - rewrite py_two_spaces.
    replace ([32%N; 32%N] ++ c :: name) with ([32%N; 32%N] ++ (c :: name) ++ [])
      by (rewrite app_nil_r; reflexivity).
    rewrite strip_padded by (try reflexivity; exact Ht).
    split; [|split; [reflexivity|]].
    + rewrite app_nil_r, has_linebreak_app, Hnb. reflexivity.
    + unfold strip_marker. rewrite Hm. reflexivity.
Qed.

(** X9.  When [git branch --list] prints one line for each branch, the
    current one marked by [* ] and the others indented by two spaces, the
    result is the list of the names, in order, for names that are
    non-empty, trimmed, without line boundary and do not themselves start
    with the marker. *)
Theorem list_branches_round_trip
  (cwd : option pystr) (s s1 s2 : State) (listing : list (bool * pystr)) :
  is_git_repo cwd s = (Ok true, s1) ->
  run_git_command [py "branch"; py "--list"] cwd true s1
  = (Ok (unlines (List.map (fun b => branch_line (fst b) (snd b)) listing)), s2) ->
  forallb (fun b => clean_branch (snd b)) listing = true ->
  list_branches cwd s = (Ok (List.map snd listing), s2).
Proof.
  intros Hrepo Hrun Hclean. unfold list_branches, bind. rewrite Hrepo.
  cbn [negb]. rewrite Hrun. unfold ret. f_equal. f_equal.
  rewrite list_branches_fold. cbn [app].
  rewrite forallb_forall in Hclean.
  rewrite splitlines_unlines.
  - clear -Hclean. induction listing as [|[cur name] bs IH]; [reflexivity|].
    cbn [List.map filter fst snd].
    destruct (clean_branch_line cur name) as (_ & T & M);
      [apply (Hclean (cur, name)); left; reflexivity|].
    rewrite T. cbn [List.map]. rewrite M, IH; [reflexivity|].
    intros x Hx. apply Hclean. right. exact Hx.
  - apply Forall_forall. intros l Hl. apply in_map_iff in Hl as ([cur name] & <- & Hb).
    apply clean_branch_line. apply (Hclean _ Hb).
Qed.

Lemma nonblank_lines_entries (out : pystr) :
  Forall (fun f => has_linebreak f = false /\ strip f <> []) (nonblank_lines out)
  /\ subseq (nonblank_lines out) (splitlines out).
Proof.
  unfold nonblank_lines. pose proof (splitlines_no_break out) as Hnb.
  induction Hnb as [|l ls Hl _ [IH1 IH2]]; simpl.
  - split; constructor.
  - destruct (truthy (strip l)) eqn:Ht.
    + split; [constructor; [split; [exact Hl|]|exact IH1] | constructor; exact IH2].
      destruct (strip l); discriminate.
    + split; [exact IH1 | constructor; exact IH2].
Qed.

(** X10.  Every entry of the listings of staged, unstaged and conflicted
    files holds no line boundary and is not blank. *)
Theorem file_listing_entries
  (cwd : option pystr) (s s' : State) (files : list pystr) :
  staged_files cwd s = (Ok files, s')
  \/ unstaged_files cwd s = (Ok files, s')
  \/ conflicted_files cwd s = (Ok files, s') ->
  Forall (fun f => has_linebreak f = false /\ strip f <> []) files.
Proof.
  unfold staged_files, unstaged_files, conflicted_files, bind.
  destruct (is_git_repo cwd s) as [[[|]|e] s1]; cbn [negb].
  - intros [E|[E|E]];
      match type of E with
      | context [run_git_command ?a ?c ?k s1] =>
          destruct (run_git_command a c k s1) as [[out|e] s2]; [|discriminate]
      end;
      unfold ret in E; inversion E; subst; apply nonblank_lines_entries.
  - unfold ret. intros [E|[E|E]]; inversion E; constructor.
  - intros [E|[E|E]]; discriminate.
Qed.

(** X11.  In a working tree [conflicted_files] returns the non-blank lines
    of the output of its command whatever the exit code, while
    [staged_files] raises when its command ends with an exit code other
    than 0. *)
Theorem conflicted_files_ignores_exit_code
  (cwd : option pystr) (s s1 : State) (proc : CompletedProcess) (w : World) :
  is_git_repo cwd s = (Ok true, s1) ->
  subprocess_run (GIT_BIN s1 :: [py "diff"; py "--name-only"; py "--diff-filter=U"])
                 cwd 20 (world s1) = (Ok proc, w) ->
  conflicted_files cwd s
  = (Ok (nonblank_lines (stdout proc)),
     ran s1 (GIT_BIN s1 :: [py "diff"; py "--name-only"; py "--diff-filter=U"]) cwd w)
  /\ forall proc' w',
       subprocess_run (GIT_BIN s1 :: [py "diff"; py "--name-only"; py "--cached"])
                      cwd 20 (world s1) = (Ok proc', w') ->
       returncode proc' <> 0%Z ->
       exists e, fst (staged_files cwd s) = Raise e.
Proof.
  intros Hrepo Hrun. split.
  - unfold conflicted_files, bind. rewrite Hrepo. cbn [negb].
    rewrite run_git_command_unfold. cbv zeta. rewrite Hrun. reflexivity.
  - intros proc' w' Hrun' Hcode. unfold staged_files, bind. rewrite Hrepo.
    cbn [negb]. rewrite run_git_command_unfold. cbv zeta. rewrite Hrun'.
    destruct (returncode proc' =? 0)%Z eqn:Z0;
      [apply Z.eqb_eq in Z0; contradiction|].
    cbn [andb negb].
    destruct (contains (py "merge failed") (lower (stderr proc'))
              && contains (py "fix conflicts") (lower (stderr proc')));
      eexists; reflexivity.
Qed.


Lemma incoming_commits_empty
  (cwd : option pystr) (s s' : State) (commits : list CommitRecord) :
  get_incoming_commits cwd s = (Ok commits, s') -> commits = [].
Proof.
  unfold get_incoming_commits, bind at 1.
  destruct (is_git_repo cwd s) as [[[|]|e] s1]; cbn [negb]; try discriminate.
  - unfold try_except, bind, _parse_log_output, raise, ret.
    destruct (run_git_command _ cwd false s1) as [[out|e] s2].
    + cbn. discriminate.
    + destruct (isinstance e RuntimeError); intros E; inversion E; reflexivity.
  - unfold ret. intros E. inversion E. reflexivity.
Qed.

(** X12.  Whenever [get_incoming_commits] returns, it returns the empty
    list: it never reports an incoming commit.  It returns only where the
    probe [is_git_repo] answers no, or where the log command raised a
    [RuntimeError]. *)
Theorem get_incoming_commits_returns_nothing
  (cwd : option pystr) (s s' : State) (commits : list CommitRecord) :
  get_incoming_commits cwd s = (Ok commits, s') ->
  commits = []
  /\ (fst (is_git_repo cwd s) = Ok false
      \/ exists e,
           fst (run_git_command
                  [py "log"; py "--pretty=format:" ++ log_format; py "HEAD..@{u}"]
                  cwd false (snd (is_git_repo cwd s))) = Raise e
           /\ isinstance e RuntimeError = true).
Proof.
  intros E. split; [exact (incoming_commits_empty _ _ E)|].
  revert E. unfold get_incoming_commits, bind at 1.
  destruct (is_git_repo cwd s) as [[[|]|e] s1]; cbn [negb fst snd];
    try discriminate.
  - unfold try_except, bind, _parse_log_output, raise, ret.
    destruct (run_git_command _ cwd false s1) as [[out|e] s2].
    + cbn. discriminate.
    + destruct (isinstance e RuntimeError) eqn:I; [|discriminate].
      intros _. right. exists e. split; [reflexivity | exact I].
  - intros _. left. reflexivity.
Qed.

(** ** Discovery *)


Lemma subseq_refl {A} (l : list A) : subseq l l.
Proof. induction l; constructor; assumption. Qed.


(** X13.  The two searches for repositories raise [RuntimeError] and
    nothing else, whatever the search command raises. *)
Theorem discovery_raises_RuntimeError_only
  (root : pystr) (max_depth timeout_seconds : Z) (include_hidden : bool)
  (s s' : State) (e : exn) :
  find_git_repos root max_depth include_hidden s = (Raise e, s')
  \/ find_all_git_repos timeout_seconds s = (Raise e, s') ->
  exn_cls e = RuntimeError.
Proof.
  intros [E|E].
  - unfold find_git_repos in E.
    destruct (negb (truthy root)); [discriminate|].
    destruct (negb (os_path_isdir _ (world s))); [discriminate|].
    unfold try_except, any_Exception in E.
    match type of E with
    | context [bind ?m ?k s] => destruct (bind m k s) as [[r|e0] s0]
    end; [discriminate|].
    destruct (isinstance e0 FileNotFoundError || isinstance e0 TimeoutExpired);
      inversion E; reflexivity.
  - unfold find_all_git_repos, try_except, any_Exception in E. cbv zeta in E.
    match type of E with
    | context [bind ?m ?k s] => destruct (bind m k s) as [[r|e0] s0]
    end; [discriminate|].
    destruct (isinstance e0 FileNotFoundError);
      [|destruct (isinstance e0 TimeoutExpired)]; inversion E; reflexivity.
Qed.












(** X16.  For an absolute [file_path] the content read does not depend on
    [cwd]; reading a file runs no command; without [cwd] the function
    raises [TypeError]. *)
Theorem get_file_content_absolute_path
  (file_path dir dir' : pystr) (s : State) :
  (startswith (py "/") file_path = true ->
   get_file_content file_path (Some dir) s = get_file_content file_path (Some dir') s)
  /\ (forall cwd, trace (snd (get_file_content file_path cwd s)) = trace s)
  /\ (exists e, get_file_content file_path None s = (Raise e, s)
                /\ exn_cls e = TypeError).
Proof.
  split; [|split].
  - intros Habs. unfold get_file_content, os_path_join. rewrite Habs. reflexivity.
  - intros [d|]; unfold get_file_content; [|reflexivity].
    destruct (read_text _ (world s)); reflexivity.
  - eexists. split; reflexivity.
Qed.

End More.

(* ================================================================== *)
(** * Properties of the client and of the AI features *)
(* ================================================================== *)

Section MoreAIProps.
Context {H : Host}.

Lemma py_fence : py "```" = [96; 96; 96]%N.
Proof. vm_compute. reflexivity. Qed.

Lemma py_fence_json : py "```json" = [96; 96; 96; 106; 115; 111; 110]%N.
Proof. vm_compute. reflexivity. Qed.

Lemma py_json : py "json" = [106; 115; 111; 110]%N.
Proof. vm_compute. reflexivity. Qed.

Lemma endswith_app (p s : pystr) : endswith p (s ++ p) = true.
Proof.
  unfold endswith. rewrite rev_app_distr. apply startswith_prefix.
  exists (rev s). reflexivity.
Qed.

Lemma firstn_drop_suffix (s p : pystr) :
  firstn (List.length (s ++ p) - List.length p) (s ++ p) = s.
Proof.
  rewrite length_app. replace (List.length s + List.length p - List.length p)%nat
    with (List.length s + 0)%nat by lia.
  rewrite firstn_app_2. cbn [firstn]. apply app_nil_r.
Qed.

(** X17.  The removal of the code fence in [ask]: an answer wrapped in a
    fence, with or without the word json after the opening fence, is
    unwrapped to its body; an answer that starts with no fence is left as
    it is; and when a line break follows the closing fence, the closing
    fence stays in the answer. *)
Theorem strip_code_fence_unwraps (body : pystr) :
  strip_code_fence (py "```json" ++ body ++ py "```") = body
  /\ (startswith (py "json") body = false ->
      strip_code_fence (py "```" ++ body ++ py "```") = body)
  /\ (startswith (py "```") body = false -> strip_code_fence body = body)
  /\ strip_code_fence (py "```json" ++ body ++ py "```" ++ NL)
     = body ++ py "```" ++ NL.
Proof.
  rewrite py_fence_json, py_fence, py_json. split; [|split; [|split]].
  - unfold strip_code_fence. rewrite py_fence_json, py_fence.
    cbn [app startswith]. rewrite !N.eqb_refl. cbn [andb skipn].
    rewrite endswith_app.
    exact (firstn_drop_suffix body [96; 96; 96]%N).
  - intros Hj. unfold strip_code_fence. rewrite py_fence_json, py_fence.
    cbn [app].
    assert (E : startswith [96; 96; 96; 106; 115; 111; 110]%N
                  (96%N :: 96%N :: 96%N :: body ++ [96; 96; 96]%N) = false).
    { cbn [startswith]. rewrite !N.eqb_refl. cbn [andb].
      match goal with |- ?b = false => destruct b eqn:E; [|reflexivity] end.
      exfalso.
      change (startswith [106; 115; 111; 110]%N (body ++ [96; 96; 96]%N) = true) in E.
      apply startswith_prefix in E as (t & E).
      destruct body as [|b0 [|b1 [|b2 [|b3 body]]]]; cbn in E;
        try solve [inversion E].
      inversion E; subst. cbn in Hj. discriminate Hj. }
    rewrite E. cbn [startswith]. rewrite !N.eqb_refl. cbn [andb skipn].
    rewrite endswith_app.
    exact (firstn_drop_suffix body [96; 96; 96]%N).
  - intros Hf. unfold strip_code_fence. rewrite py_fence_json, py_fence.
    assert (E : startswith [96; 96; 96; 106; 115; 111; 110]%N body = false).
    { destruct (startswith [96; 96; 96; 106; 115; 111; 110]%N body) eqn:E;
        [|reflexivity].
      apply startswith_prefix in E as (t & ->). cbn in Hf. discriminate. }
    rewrite E, Hf. reflexivity.
  - unfold strip_code_fence. rewrite py_fence_json, py_fence.
    cbn [app startswith]. rewrite !N.eqb_refl. cbn [andb skipn].
    unfold endswith, NL. rewrite !rev_app_distr. reflexivity.
Qed.


Lemma ask_mocked (question : pystr) (timeout : option Z) (retries : Z) (s : State) :
  MOCK_MODE = true \/ ollama_imported = false ->
  ask question timeout retries s = (Ok (py "feat: update (mocked)"), s).
Proof.
  intros Hm. unfold ask, _ollama_available.
  destruct Hm as [-> | ->]; [reflexivity|].
  cbn [andb negb]. rewrite orb_true_r. reflexivity.
Qed.

Lemma ask_loop_outcome (question : pystr) (timeout : option Z) (attempts : nat)
  (last_exc : option exn) (s : State) :
  match ask_loop question timeout attempts last_exc s with
  | (Ok text, _) => is_trimmed text = true
  | (Raise e, _) =>
      exn_cls e = RuntimeError
      /\ startswith (py "Ollama request failed: ") (exn_msg e) = true
  end.
Proof.
  revert last_exc s. induction attempts as [|n IH]; intros last_exc s.
  - cbn [ask_loop]. unfold raise. cbn [exn_cls exn_msg]. split; [reflexivity|].
    apply startswith_prefix. eexists. reflexivity.
  - cbn [ask_loop]. unfold try_except, bind, any_Exception, ret.
    destruct (chat question timeout s) as [[content|e] s1].
    + apply strip_is_trimmed.
    + apply IH.
Qed.

(** X18.  What [ask] returns is trimmed; what it raises is a
    [RuntimeError] whose message starts with [Ollama request failed: ];
    a number of retries of 1 or less, 0 and the negative ones included,
    behaves as 1. *)
Theorem ask_outcome (question : pystr) (timeout : option Z) (retries : Z) (s : State) :
  match ask question timeout retries s with
  | (Ok text, _) => is_trimmed text = true /\ strip text = text
  | (Raise e, _) =>
      exn_cls e = RuntimeError
      /\ startswith (py "Ollama request failed: ") (exn_msg e) = true
  end
  /\ ((retries <= 1)%Z -> ask question timeout retries s = ask question timeout 1 s).
Proof.
  split.
  - unfold ask. destruct (MOCK_MODE || negb _ollama_available).
    + unfold ret. split; [vm_compute; reflexivity|].
      apply strip_trimmed. vm_compute. reflexivity.
    + pose proof (ask_loop_outcome question timeout
                    (Z.to_nat (Z.max 1 retries)) None s) as L.
      destruct (ask_loop _ _ _ _ s) as [[text|e] s1]; [|exact L].
      split; [exact L | apply strip_trimmed; exact L].
  - intros Hr. unfold ask. replace (Z.max 1 retries) with 1%Z by lia.
    reflexivity.
Qed.

(** X19.  [suggest_commit_messages] never returns a bare JSON object (an
    object is wrapped in a list).  In mock mode, or without the ollama
    package, the placeholder answer is parsed as JSON; when that fails
    the result is the error structure with the placeholder as raw
    response, and nothing is run. *)
Theorem suggest_commit_messages_result
  (diff_content context : pystr) (count : Z) (s : State) :
  (forall v s',
     suggest_commit_messages diff_content context count s = (Ok v, s') ->
     match v with JObject _ => False | _ => True end)
  /\ (MOCK_MODE = true \/ ollama_imported = false ->
      forall e,
        json_loads (py "feat: update (mocked)") = Raise e ->
        suggest_commit_messages diff_content context count s
        = (Ok (JArray [JObject [(py "error", JString (exn_msg e));
                                (py "raw_response", JString (py "feat: update (mocked)"))]]),
           s)).
Proof.
  split.
  - intros v s'. unfold suggest_commit_messages, suggest_except.
    destruct (ask _ None 1 s) as [[response|e] s1]; [|discriminate].
    destruct (json_loads response) as [[| | | | |]|e]; unfold ret;
      intros E; inversion E; exact I.
  - intros Hm e He. unfold suggest_commit_messages.
    rewrite ask_mocked by exact Hm. rewrite He. reflexivity.
Qed.

(** X20.  [summarize_history] answers an empty history with a fixed
    sentence, without asking the model.  Otherwise it asks the model once,
    with a prompt in which the line of every commit occurs; the answer
    depends on the subject, the author and the date of the commits only,
    not on their hashes. *)
Theorem summarize_history_uses (history history' : list CommitRecord) (s : State) :
  summarize_history [] s = (Ok (py "분석할 커밋 히스토리가 없습니다."), s)
  /\ (List.map (fun c => (subject c, author c, date c)) history
      = List.map (fun c => (subject c, author c, date c)) history' ->
      summarize_history history s = summarize_history history' s)
  /\ (history <> [] ->
      summarize_history history s
      = ask (summary_prompt (join NL (List.map history_line history))) None 1 s
      /\ forall c, In c history ->
           infix (history_line c)
                 (summary_prompt (join NL (List.map history_line history)))).
Proof.
  split; [reflexivity|]. split.
  - intros E.
    assert (L : List.map history_line history = List.map history_line history').
    { revert history' E. induction history as [|c cs IH]; intros [|c' cs'] E;
        try discriminate; [reflexivity|].
      cbn [List.map] in *. inversion E. unfold history_line at 1 3.
      rewrite H1, H2, H3. f_equal. apply IH. assumption. }
    destruct history as [|c cs], history' as [|c' cs']; try discriminate;
      [reflexivity|].
    unfold summarize_history. rewrite L. reflexivity.
  - intros Hne. destruct history as [|c0 cs]; [contradiction|].
    split; [reflexivity|]. intros c Hc.
    unfold summary_prompt.
    assert (J : infix (history_line c) (join NL (List.map history_line (c0 :: cs)))).
    { clear Hne. revert Hc. generalize (c0 :: cs). intros l.
      induction l as [|x l IH]; [intros []|]. intros [->|Hin].
      - destruct l; [apply infix_refl|].
        change (join NL (List.map history_line (c :: c0 :: l)))
          with (history_line c ++ NL ++ join NL (List.map history_line (c0 :: l))).
        apply infix_app_r, infix_refl.
      - destruct l as [|y l]; [destruct Hin|].
        change (join NL (List.map history_line (x :: y :: l)))
          with (history_line x ++ NL ++ join NL (List.map history_line (y :: l))).
        apply infix_app_l, infix_app_l, IH. exact Hin. }
    repeat (first [exact J | apply infix_app_r; exact J | apply infix_app_l]).
Qed.

(** X21.  The task of the status check, when it returns a report, reports
    no incoming commit. *)
Theorem check_status_task_reports_no_incoming
  (current_project : pystr) (s s' : State) (report : StatusReport) :
  check_status_task current_project s = (Ok report, s') ->
  status_incoming report = [].
Proof.
  unfold check_status_task, bind.
  destruct (unstaged_files _ s) as [[unstaged|e] s1]; [|discriminate].
  destruct (staged_files _ s1) as [[staged|e] s2]; [|discriminate].
  destruct (fetch_remote _ s2) as [[fetched|e] s3]; [|discriminate].
  destruct (get_incoming_commits _ s3) as [[incoming|e] s4] eqn:Ei; [|discriminate].
  apply incoming_commits_empty in Ei. subst.
  unfold ret. intros E. inversion E. reflexivity.
Qed.

End MoreAIProps.

(* ================================================================== *)
(** * Properties of the configuration *)
(* ================================================================== *)

Section ConfigProps.

Variable number_eqb : json -> json -> bool.

Lemma dict_get_set_string (k k' : pystr) (v : json) (d : pydict) :
  dict_get number_eqb (JString k) (dict_set number_eqb (JString k') v d)
  = if str_eqb k k' then Some v else dict_get number_eqb (JString k) d.
Proof.
  induction d as [|[key val] d IH]; cbn [dict_set dict_get].
  - cbn [key_eqb]. reflexivity.
  - destruct (key_eqb number_eqb (JString k') key) eqn:E'.
    + cbn [dict_get].
      destruct key; cbn [key_eqb] in E'; try discriminate.
      apply str_eqb_eq in E'. subst. cbn [key_eqb].
      destruct (str_eqb k s); reflexivity.
    + cbn [dict_get]. rewrite IH.
      destruct (key_eqb number_eqb (JString k) key) eqn:E; [|reflexivity].
      destruct key; cbn [key_eqb] in E, E'; try discriminate.
      apply str_eqb_eq in E. subst.
      destruct (str_eqb s k') eqn:E2; [|reflexivity].
      apply str_eqb_eq in E2. subst. rewrite str_eqb_refl in E'. discriminate.
Qed.

Lemma dict_set_keeps (k k' v : json) (d : pydict) :
  dict_get number_eqb k d <> None ->
  dict_get number_eqb k (dict_set number_eqb k' v d) <> None.
Proof.
  induction d as [|[key val] d IH]; cbn [dict_set dict_get]; [congruence|].
  destruct (key_eqb number_eqb k' key); cbn [dict_get];
    destruct (key_eqb number_eqb k key); try discriminate; auto.
Qed.

Lemma dict_update_keeps (k : json) (d d' : pydict) (other : json) :
  dict_update number_eqb d other = Some d' ->
  dict_get number_eqb k d <> None -> dict_get number_eqb k d' <> None.
Proof.
  destruct other as [| | |s|items|members]; cbn [dict_update]; try discriminate.
  - destruct s; [|discriminate]. intros E; inversion E; subst. auto.
  - revert d. induction items as [|item items IH]; intros d; cbn [dict_update_sequence].
    + intros E; inversion E; subst. auto.
    + destruct (pair_of_item item) as [[key val]|]; [|discriminate].
      intros E Hk. apply (IH _ E). apply dict_set_keeps. exact Hk.
  - intros E; inversion E; subst. clear E. revert d.
    induction members as [|[key val] members IH]; intros d Hk; cbn [fold_left]; [exact Hk|].
    apply IH. apply dict_set_keeps. exact Hk.
Qed.

Lemma dict_update_members (k : pystr) (members : list (pystr * json)) (d : pydict) :
  dict_get number_eqb (JString k)
    (fold_left (fun acc kv => dict_set number_eqb (JString (fst kv)) (snd kv) acc)
               members d)
  = match member k members with
    | Some v => Some v
    | None => dict_get number_eqb (JString k) d
    end.
Proof.
  revert d. induction members as [|[key val] members IH]; intros d;
    cbn [fold_left member]; [reflexivity|].
  rewrite IH. cbn [fst snd]. destruct (member k members); [reflexivity|].
  rewrite dict_get_set_string. destruct (str_eqb k key); reflexivity.
Qed.

(** X22.  The configuration loaded has a value for each of the five
    default keys, whatever the file holds.  When the file holds a JSON
    object, a key has the value the object gives it and otherwise its
    default, keys unknown to the defaults included; without a file, or
    when reading or parsing raises, the configuration is the defaults. *)
Theorem load_config_merges
  (which_git : option pystr) (file_exists : bool) (loaded : result json) :
  let config := load_config number_eqb which_git file_exists loaded in
  let defaults := config_defaults which_git in
  (forall k,
     In k [py "max_diff_bytes"; py "ai_timeout_seconds"; py "git_executable";
           py "ollama_host"; py "ollama_model"] ->
     dict_get number_eqb (JString k) config <> None)
  /\ (forall members,
        file_exists = true -> loaded = Ok (JObject members) ->
        forall k,
          dict_get number_eqb (JString k) config
          = match member k members with
            | Some v => Some v
            | None => dict_get number_eqb (JString k) defaults
            end)
  /\ (file_exists = false \/ (exists e, loaded = Raise e) -> config = defaults).
Proof.
  cbv zeta. split; [|split].
  - intros k Hk.
    assert (D : dict_get number_eqb (JString k) (config_defaults which_git) <> None).
    { cbn in Hk. destruct Hk as [<-|[<-|[<-|[<-|[<-|[]]]]]];
        vm_compute; discriminate. }
    unfold load_config. destruct (negb file_exists); [exact D|].
    destruct loaded as [user|e]; [|exact D].
    destruct (dict_update number_eqb (config_defaults which_git) user) eqn:E;
      [|exact D].
    apply (dict_update_keeps _ _ _ E). exact D.
  - intros members -> -> k. unfold load_config. cbn [negb dict_update].
    apply dict_update_members.
  - intros [-> | (e & ->)]; unfold load_config; [reflexivity|].
    destruct (negb file_exists); reflexivity.
Qed.

End ConfigProps.

(* ================================================================== *)
(** * Properties of the assistant *)
(* ================================================================== *)

Section ChatProps.

Context {H : Host}.
Variable py_str : json -> pystr.
Variable type_error_text : json -> pystr.

Lemma member_existsb (key : pystr) (members : list (pystr * json)) :
  existsb (fun kv => str_eqb (fst kv) key) members = true
  <-> member key members <> None.
Proof.
  induction members as [|[k v] members IH]; cbn [existsb member fst].
  - split; [discriminate|congruence].
  - destruct (member key members) as [v'|].
    + split; [discriminate|]. intros _. apply orb_true_iff. right.
      apply IH. discriminate.
    + destruct (str_eqb k key) eqn:E.
      * apply str_eqb_eq in E. subst. rewrite str_eqb_refl.
        split; [discriminate|reflexivity].
      * assert (E' : str_eqb key k = false).
        { destruct (str_eqb key k) eqn:E'; [|reflexivity].
          apply str_eqb_eq in E'. subst. rewrite str_eqb_refl in E. discriminate. }
        rewrite E'. cbn [orb]. split.
        -- intros X. apply IH in X. congruence.
        -- congruence.
Qed.

(** X23.  The callback of the chat: a failed task gives one line with the
    error.  Otherwise the signal [command_requested] is emitted exactly
    when the reply, once its fences are removed, parses to a JSON object
    with the key [command], and it carries that object; a reply that is no
    JSON, or an object without that key, is shown as it was received; a
    reply that parses to a number, a boolean or null raises [TypeError]. *)
Theorem chat_reply_classified (err : option exn) (response : pystr) :
  let outcome := chat_done_cb py_str type_error_text err response in
  let parsed := json_loads (clean_response response) in
  (forall e, err = Some e ->
     outcome = Ok [add_chat_message (py "AI")
                     (py "오류가 발생했습니다: " ++ exn_msg e)])
  /\ (err = None ->
      (forall data,
         (exists events, outcome = Ok events /\ In (command_requested data) events)
         <-> (parsed = Ok (JObject data) /\ member (py "command") data <> None))
      /\ (forall e, parsed = Raise e -> isinstance e JSONDecodeError = true ->
            outcome = Ok [add_chat_message (py "AI") response])
      /\ (forall data, parsed = Ok (JObject data) ->
            member (py "command") data = None ->
            outcome = Ok [add_chat_message (py "AI") response])
      /\ (parsed = Ok JNull \/ (exists b, parsed = Ok (JBool b))
          \/ (exists n, parsed = Ok (JNumber n)) ->
          exists e, outcome = Raise e /\ exn_cls e = TypeError)).
Proof.
  cbv zeta. split; [intros e ->; reflexivity|].
  intros ->. unfold chat_done_cb.
  destruct (json_loads (clean_response response)) as [v|e] eqn:P.
  - split; [|split; [|split]].
    + intros data. split.
      * intros (events & E & Hin).
        destruct v as [| | |t|items|members]; cbn [str_in] in E; try discriminate.
        -- destruct (contains (py "command") t); [discriminate|].
           inversion E; subst. destruct Hin as [X|[]]. discriminate X.
        -- destruct (existsb _ items); [discriminate|].
           inversion E; subst. destruct Hin as [X|[]]. discriminate X.
        -- destruct (existsb _ members) eqn:Ex.
           ++ destruct (member (py "command") members) as [c|] eqn:Mb; [|discriminate].
              inversion E; subst.
              destruct Hin as [X|[X|[]]]; [discriminate X|].
              inversion X; subst. split; [reflexivity|congruence].
           ++ inversion E; subst. destruct Hin as [X|[]]. discriminate X.
      * intros [E Mb]. inversion E; subst. cbn [str_in].
        pose proof (proj2 (member_existsb (py "command") data) Mb) as Ex.
        rewrite Ex. destruct (member (py "command") data) as [c|]; [|congruence].
        eexists. split; [reflexivity|]. right. left. reflexivity.
    + discriminate.
    + intros data E Mb. inversion E; subst. cbn [str_in].
      destruct (existsb _ data) eqn:Ex; [|reflexivity].
      apply member_existsb in Ex. congruence.
    + intros [E|[(b & E)|(n & E)]]; inversion E; subst; cbn [str_in];
        eexists; (split; [reflexivity|reflexivity]).
  - split; [|split; [|split]].
    + intros data. split.
      * intros (events & E & Hin).
        destruct (isinstance e JSONDecodeError); [|discriminate].
        inversion E; subst. destruct Hin as [X|[]]. discriminate X.
      * intros [E _]. discriminate.
    + intros e' E He. inversion E; subst. rewrite He. reflexivity.
    + discriminate.
    + intros [E|[(b & E)|(n & E)]]; discriminate.
Qed.

End ChatProps.

Section DispatchProps.

Variable number_truthy : pystr -> bool.
Variable type_error_text : json -> pystr.

(** X24.  The slot that runs the commands of the assistant.  Without an
    open project it only adds a message.  With one: the command [push]
    raises [TypeError]; [stage] stages everything when the list [files]
    holds the string all and does nothing otherwise; [reset] is hard
    exactly when [mode] is the string hard, and soft otherwise, also
    without a mode; a command of no known name does nothing; and in no
    case is [on_push] called. *)
Theorem assistant_command_dispatch
  (current_project : option pystr) (user_input : pystr)
  (command_data : list (pystr * json)) :
  let outcome := on_ai_command_requested number_truthy type_error_text
                   current_project user_input command_data in
  let command := get (py "command") JNull command_data in
  (open_project current_project = false ->
     exists text, outcome = Ok [system_message text])
  /\ (open_project current_project = true ->
      (command = JString (py "push") ->
         exists e, outcome = Raise e /\ exn_cls e = TypeError)
      /\ (command = JString (py "stage") ->
          forall items,
            get (py "files") (JArray []) command_data = JArray items ->
            outcome = if existsb (fun v => json_eq_str v (py "all")) items
                      then Ok [call on_stage_all] else Ok [])
      /\ (command = JString (py "reset") ->
          outcome = if json_eq_str (get (py "mode") (JString (py "soft")) command_data)
                                   (py "hard")
                    then Ok [call on_undo_commit_hard]
                    else Ok [call on_undo_commit_soft])
      /\ ((forall name,
             In name [py "stage"; py "commit"; py "push"; py "pull"; py "checkout";
                      py "merge"; py "reset"; py "check_status"] ->
             command <> JString name) ->
          outcome = Ok [])
      /\ (forall actions, outcome = Ok actions -> ~ In (call on_push) actions)).
Proof.
  cbv zeta. unfold on_ai_command_requested, open_project. split.
  - intros ->. cbn [negb]. eexists. reflexivity.
  - intros ->. cbn [negb]. split; [|split; [|split; [|split]]].
    + intros ->. vm_compute. eexists. split; reflexivity.
    + intros -> items ->. cbn [str_in].
      replace (json_eq_str (JString (py "stage")) (py "stage")) with true
        by (vm_compute; reflexivity).
      destruct (existsb _ items); reflexivity.
    + intros ->.
      replace (json_eq_str (JString (py "reset")) (py "stage")) with false
        by (vm_compute; reflexivity).
      replace (json_eq_str (JString (py "reset")) (py "commit")) with false
        by (vm_compute; reflexivity).
      replace (json_eq_str (JString (py "reset")) (py "push")) with false
        by (vm_compute; reflexivity).
      replace (json_eq_str (JString (py "reset")) (py "pull")) with false
        by (vm_compute; reflexivity).
      replace (json_eq_str (JString (py "reset")) (py "checkout")) with false
        by (vm_compute; reflexivity).
      replace (json_eq_str (JString (py "reset")) (py "merge")) with false
        by (vm_compute; reflexivity).
      replace (json_eq_str (JString (py "reset")) (py "reset")) with true
        by (vm_compute; reflexivity).
      destruct (json_eq_str _ (py "hard")); reflexivity.
    + intros Hn.
      assert (F : forall name,
                In name [py "stage"; py "commit"; py "push"; py "pull"; py "checkout";
                         py "merge"; py "reset"; py "check_status"] ->
                json_eq_str (get (py "command") JNull command_data) name = false).
      { intros name Hin. specialize (Hn name Hin).
        destruct (get (py "command") JNull command_data); try reflexivity.
        cbn [json_eq_str]. destruct (str_eqb s name) eqn:E; [|reflexivity].
        apply str_eqb_eq in E. subst. congruence. }
      rewrite !F by (cbn [In]; tauto). reflexivity.
    + intros actions.
      set (command := get (py "command") JNull command_data).
      cbv [call_with_done_cb has_done_cb].
      repeat match goal with
             | |- (if ?c then _ else _) = _ -> _ => destruct c
             | |- match ?c with _ => _ end = _ -> _ => destruct c
             end;
        intros E; try discriminate E; inversion E; subst;
        cbn [In]; intuition discriminate.
Qed.

End DispatchProps.

Section PullCallbackProps.

Context {H : Host}.

(** X25.  A pull started with a callback [done_cb]: when [git pull]
    returns, [done_cb] is called once, last, without error and with the
    trimmed output (a fixed sentence for an empty output); when it raises,
    [done_cb] is not called and the callback of the worker ends with an
    exception, an [UnboundLocalError] unless the handler of a merge
    conflict raised. *)
Theorem pull_callback_reports_success_only
  (conflict_handler : option exn) (current_project : pystr) (s : State) :
  exists events outcome s',
    on_pull_run true conflict_handler current_project s = ([(events, outcome)], s')
    /\ match pull (Some current_project) s with
       | (Ok out, s1) =>
           s' = s1 /\ outcome = None
           /\ exists before,
                events
                = before ++ [done_cb_call None
                               (if truthy out then strip out
                                else py "원격 변경사항이 병합되었습니다.")]
                /\ existsb is_done_cb_call before = false
       | (Raise e, s1) =>
           s' = s1 /\ existsb is_done_cb_call events = false
           /\ exists e', outcome = Some e'
                /\ (conflict_handler = None \/ isinstance e GitConflictError = false ->
                    exn_cls e' = UnboundLocalError)
       end.
Proof.
  unfold on_pull_run, Worker_run, pull_task, bind.
  destruct (pull (Some current_project) s) as [[out|e] s1]; cbn [ret List.map].
  - do 3 eexists. split; [reflexivity|].
    split; [reflexivity|]. split; [reflexivity|].
    eexists. split; [reflexivity|]. reflexivity.
  - unfold pull_internal_done_cb.
    destruct (isinstance e GitConflictError) eqn:I.
    + destruct conflict_handler as [e'|].
      * do 3 eexists. split; [reflexivity|].
        split; [reflexivity|]. split; [reflexivity|].
        eexists. split; [reflexivity|]. intros [X|X]; discriminate X.
      * do 3 eexists. split; [reflexivity|].
        split; [reflexivity|]. split; [reflexivity|].
        eexists. split; [reflexivity|]. reflexivity.
    + do 3 eexists. split; [reflexivity|].
      split; [reflexivity|]. split; [reflexivity|].
      eexists. split; [reflexivity|]. reflexivity.
Qed.

End PullCallbackProps.

(* ================================================================== *)
(** * The further properties at work in the scenarios *)
(* ================================================================== *)

(** The name of the branch in the scenario [committing]. *)
Lemma run_git_command_returns_iff_witness :
  run_git_command (H := committing) [py "rev-parse"; py "--abbrev-ref"; py "HEAD"]
    None true (start committing tt)
  = (Ok (py "main" ++ NL),
     ran (start committing tt)
         (GIT_BIN (start committing tt)
          :: [py "rev-parse"; py "--abbrev-ref"; py "HEAD"]) None tt).
Proof.
  apply (proj2 (@run_git_command_returns_iff committing
                  [py "rev-parse"; py "--abbrev-ref"; py "HEAD"] None true
                  (start committing tt) _ (py "main" ++ NL))).
  exists {| returncode := 0; stdout := py "main" ++ NL; stderr := [] |}, tt.
  split; [vm_compute; reflexivity|].
  split; [right; reflexivity|]. split; reflexivity.
Defined.

(** Outside a working tree the probe of incoming commits returns the
    empty list. *)
Lemma get_incoming_commits_returns_nothing_witness :
  exists commits,
    fst (get_incoming_commits (H := outside) None (start outside tt)) = Ok commits
    /\ commits = [].
Proof.
  destruct (get_incoming_commits (H := outside) None (start outside tt))
    as [[commits|e] s'] eqn:E.
  - exists commits. split; [reflexivity|].
    exact (proj1 (@get_incoming_commits_returns_nothing outside None _ s' commits E)).
  - vm_compute in E. discriminate E.
Defined.

(** With the executable set to [/usr/bin/git], that path is run. *)
Lemma configured_executable_is_used_witness :
  trace (snd (run_git_command (H := merging) [py "status"] None true
                (snd (set_git_executable (py "/usr/bin/git") (start merging tt)))))
  = trace (start merging tt)
    ++ [{| inv_cmd := py "/usr/bin/git" :: [py "status"]; inv_cwd := None |}].
Proof.
  apply (@configured_executable_is_used merging (py "/usr/bin/git") (py "git")
           [py "status"] None true (start merging tt)).
  vm_compute. discriminate.
Defined.

(** Three listings outside a working tree. *)
Lemma outside_working_tree_is_empty_witness :
  fst (staged_files (H := outside) None (start outside tt)) = Ok []
  /\ fst (list_branches (H := outside) None (start outside tt)) = Ok []
  /\ fst (get_commit_history (H := outside) None 100 (start outside tt)) = Ok [].
Proof.
  set (s0 := start outside tt).
  set (s1 := snd (is_git_repo None s0)).
  assert (R : is_git_repo None s0 = (Ok false, s1)) by (vm_compute; reflexivity).
  destruct (@outside_working_tree_is_empty outside None s0 s1 100 [] R)
    as (A & _ & _ & B & C & _).
  rewrite A, B, C. repeat split.
Defined.

(** The size of the staged diff of the scenario [multibyte]. *)
Lemma staged_diff_size_bounds_witness :
  exists n,
    fst (staged_diff_size (H := multibyte) None (start multibyte tt)) = Ok n
    /\ (Z.of_nat (List.length multibyte_diff) <= n
        <= 4 * Z.of_nat (List.length multibyte_diff))%Z.
Proof.
  set (s0 := start multibyte tt).
  set (s1 := snd (is_git_repo None s0)).
  set (s2 := snd (diff_staged None s1)).
  assert (R : is_git_repo None s0 = (Ok true, s1)) by (vm_compute; reflexivity).
  assert (D : diff_staged None s1 = (Ok multibyte_diff, s2))
    by (vm_compute; reflexivity).
  destruct (staged_diff_size None s0) as [[n|e] s3] eqn:E.
  - exists n. split; [reflexivity|].
    exact (proj1 (@staged_diff_size_bounds multibyte None s0 s1 s2 s3
                    multibyte_diff n R D E)).
  - vm_compute in E. discriminate E.
Defined.

(** The guarded commit with the limit -1 on a small diff. *)
Lemma safe_commit_negative_limit_witness :
  exists e,
    fst (safe_commit (H := committing) (py "msg") None (-1) (start committing tt))
    = Raise e.
Proof.
  apply (@safe_commit_negative_limit committing (py "msg") None (-1)
           (start committing tt)).
  lia.
Defined.

(** The records of the scenario [logging]. *)
Lemma commit_history_fields_witness :
  exists history,
    fst (get_commit_history (H := logging) None 100 (start logging tt)) = Ok history
    /\ Forall (fun c => (List.length (hash c) <= 7)%nat
                        /\ has_linebreak (subject c) = false) history.
Proof.
  destruct (get_commit_history (H := logging) None 100 (start logging tt))
    as [[history|e] s'] eqn:E.
  - exists history. split; [reflexivity|].
    pose proof (@commit_history_fields logging None 100 _ s' history E) as F.
    revert F. apply Forall_impl. intros c (L & _ & _ & _ & _ & _ & _ & S).
    split; assumption.
  - vm_compute in E. discriminate E.
Defined.

(** The history of the scenario [forging]: one line of the log, two
    records, the second one forged. *)
Lemma get_commit_history_cuts_subject_witness :
  get_commit_history (H := forging) None 100 (start forging tt)
  = (Ok [{| hash := firstn 7 (hash form_feed_commit);
            author := author form_feed_commit; date := date form_feed_commit;
            subject := py "page" |};
         short_hash forged_commit],
     snd (run_git_command (H := forging)
            [py "log"; py "--pretty=format:" ++ log_format; py "-n" ++ str_of_int 100]
            None true (snd (is_git_repo (H := forging) None (start forging tt)))))
  /\ List.map subject [form_feed_commit]
     <> [py "page"; subject forged_commit].
Proof.
  split.
  - apply (@get_commit_history_cuts_subject forging None 100 (start forging tt)
             (snd (is_git_repo (H := forging) None (start forging tt)))
             _ form_feed_commit forged_commit (py "page"));
      vm_compute; reflexivity.
  - vm_compute. discriminate.
Defined.

(** The history of the scenario [recording] is its two commits. *)
Lemma commit_history_round_trip_witness :
  get_commit_history (H := recording) None 100 (start recording tt)
  = (Ok (List.map short_hash two_commits),
     snd (run_git_command (H := recording)
            [py "log"; py "--pretty=format:" ++ log_format; py "-n" ++ str_of_int 100]
            None true (snd (is_git_repo (H := recording) None (start recording tt))))).
Proof.
  apply (@commit_history_round_trip recording None 100 (start recording tt)
           (snd (is_git_repo (H := recording) None (start recording tt)))).
  - vm_compute. reflexivity.
  - vm_compute. reflexivity.
  - vm_compute. reflexivity.
Defined.

(** The branches of the scenario [listing]. *)
Lemma list_branches_entries_witness :
  exists branches,
    fst (list_branches (H := listing) None (start listing tt)) = Ok branches
    /\ Forall (fun b => b <> [] /\ rstrip b = b /\ has_linebreak b = false) branches.
Proof.
  destruct (list_branches (H := listing) None (start listing tt))
    as [[branches|e] s'] eqn:E.
  - exists branches. split; [reflexivity|].
    exact (@list_branches_entries listing None _ s' branches E).
  - vm_compute in E. discriminate E.
Defined.

(** The branches of the scenario [listing] are main and dev. *)
Lemma list_branches_round_trip_witness :
  list_branches (H := listing) None (start listing tt)
  = (Ok (List.map snd [(true, py "main"); (false, py "dev")]),
     snd (run_git_command (H := listing) [py "branch"; py "--list"] None true
            (snd (is_git_repo (H := listing) None (start listing tt))))).
Proof.
  apply (@list_branches_round_trip listing None (start listing tt)
           (snd (is_git_repo (H := listing) None (start listing tt)))).
  - vm_compute. reflexivity.
  - vm_compute. reflexivity.
  - vm_compute. reflexivity.
Defined.

(** The staged files of the scenario [listing]. *)
Lemma file_listing_entries_witness :
  exists files,
    fst (staged_files (H := listing) None (start listing tt)) = Ok files
    /\ Forall (fun f => has_linebreak f = false /\ strip f <> []) files.
Proof.
  destruct (staged_files (H := listing) None (start listing tt))
    as [[files|e] s'] eqn:E.
  - exists files. split; [reflexivity|].
    apply (@file_listing_entries listing None (start listing tt) s' files).
    left. exact E.
  - vm_compute in E. discriminate E.
Defined.

(** With the exit code 1 the files in conflict are listed, and the staged
    files are not. *)
Lemma conflicted_files_ignores_exit_code_witness :
  fst (conflicted_files (H := conflicting) None (start conflicting tt))
  = Ok (nonblank_lines (stdout conflict_listing))
  /\ exists e, fst (staged_files (H := conflicting) None (start conflicting tt))
               = Raise e.
Proof.
  set (s0 := start conflicting tt).
  set (s1 := snd (is_git_repo None s0)).
  assert (R : is_git_repo None s0 = (Ok true, s1)) by (vm_compute; reflexivity).
  destruct (@conflicted_files_ignores_exit_code conflicting None s0 s1
              conflict_listing tt R) as (A & B).
  - vm_compute. reflexivity.
  - rewrite A. split; [reflexivity|].
    apply (B conflict_listing tt).
    + vm_compute. reflexivity.
    + vm_compute. discriminate.
Defined.

(** Without [find] the search raises [RuntimeError]. *)
Lemma discovery_raises_RuntimeError_only_witness :
  exists e,
    fst (find_all_git_repos (H := no_find) 60 (start no_find tt)) = Raise e
    /\ exn_cls e = RuntimeError.
Proof.
  destruct (find_all_git_repos (H := no_find) 60 (start no_find tt))
    as [[paths|e] s'] eqn:E.
  - vm_compute in E. discriminate E.
  - exists e. split; [reflexivity|].
    apply (@discovery_raises_RuntimeError_only no_find [] 0 60 false
             (start no_find tt) s' e).
    right. exact E.
Defined.



(** An absolute path read from two directories. *)
Lemma get_file_content_absolute_path_witness :
  get_file_content (H := merging) (py "/etc/hosts") (Some (py "/a"))
    (start merging tt)
  = get_file_content (H := merging) (py "/etc/hosts") (Some (py "/b"))
      (start merging tt).
Proof.
  apply (@get_file_content_absolute_path merging (py "/etc/hosts") (py "/a")
           (py "/b") (start merging tt)).
  vm_compute. reflexivity.
Defined.

(** A list in a plain fence. *)
Lemma strip_code_fence_unwraps_witness :
  strip_code_fence (py "```" ++ (NL ++ py "[1]" ++ NL) ++ py "```")
  = NL ++ py "[1]" ++ NL.
Proof.
  apply (@strip_code_fence_unwraps (NL ++ py "[1]" ++ NL)).
  vm_compute. reflexivity.
Defined.

(** No retry at all is one attempt. *)
Lemma ask_outcome_witness :
  ask (H := unreachable) (py "hello") None 0 (start unreachable tt)
  = ask (H := unreachable) (py "hello") None 1 (start unreachable tt).
Proof.
  apply (@ask_outcome unreachable (py "hello") None 0 (start unreachable tt)).
  lia.
Defined.

(** The suggestion in mock mode. *)
Lemma suggest_commit_messages_result_witness :
  suggest_commit_messages (H := mocked) (py "+ line") [] 3 (start mocked tt)
  = (Ok (JArray
           [JObject
              [(py "error",
                JString (exn_msg (Exn JSONDecodeError
                                    (py "Expecting value: line 1 column 1 (char 0)"))));
               (py "raw_response", JString (py "feat: update (mocked)"))]]),
     start mocked tt).
Proof.
  apply (@suggest_commit_messages_result mocked (py "+ line") [] 3 (start mocked tt)).
  - left. reflexivity.
  - reflexivity.
Defined.

(** The prompt for the two commits holds the line of each. *)
Lemma summarize_history_uses_witness :
  Forall (fun c => infix (history_line c)
                         (summary_prompt (join NL (List.map history_line two_commits))))
         two_commits.
Proof.
  apply Forall_forall.
  apply (@summarize_history_uses unreachable two_commits two_commits
           (start unreachable tt)).
  vm_compute. discriminate.
Defined.

(** The status check in a directory that is no working tree. *)
Lemma check_status_task_reports_no_incoming_witness :
  exists report,
    fst (check_status_task (H := plain_directory) (py "/tmp/d")
           (start plain_directory tt)) = Ok report
    /\ status_incoming report = [].
Proof.
  destruct (check_status_task (H := plain_directory) (py "/tmp/d")
              (start plain_directory tt)) as [[report|e] s'] eqn:E.
  - exists report. split; [reflexivity|].
    exact (@check_status_task_reports_no_incoming plain_directory (py "/tmp/d")
             _ s' report E).
  - vm_compute in E. discriminate E.
Defined.

(** A file that sets the model: the model is the user's, the limit of the
    diff the default. *)
Lemma load_config_merges_witness :
  dict_get no_number_eqb (JString (py "ollama_model"))
    (load_config no_number_eqb None true (Ok (JObject user_settings)))
  = Some (JString (py "llama3"))
  /\ dict_get no_number_eqb (JString (py "max_diff_bytes"))
       (load_config no_number_eqb None true (Ok (JObject user_settings)))
     = Some (JNumber (py "2000000")).
Proof.
  pose proof (proj1 (proj2 (load_config_merges no_number_eqb None true
                              (Ok (JObject user_settings))))
                user_settings eq_refl eq_refl) as T.
  rewrite !T. split; vm_compute; reflexivity.
Defined.

(** A reply that reads as the command pull is dispatched. *)
Lemma chat_reply_classified_witness :
  exists events,
    chat_done_cb (H := commanding) plain_str no_text None (py "{}") = Ok events
    /\ In (command_requested pull_command) events.
Proof.
  apply (proj1 (proj2 (@chat_reply_classified commanding plain_str no_text
                         None (py "{}")) eq_refl)).
  split; [reflexivity|]. vm_compute. discriminate.
Defined.

(** The command push, with a project open. *)
Lemma assistant_command_dispatch_witness :
  exists e,
    on_ai_command_requested nonzero no_text (Some (py "/repo")) []
      [(py "command", JString (py "push"))] = Raise e
    /\ exn_cls e = TypeError.
Proof.
  apply (@assistant_command_dispatch nonzero no_text (Some (py "/repo")) []
           [(py "command", JString (py "push"))]).
  - vm_compute. reflexivity.
  - vm_compute. reflexivity.
Defined.

(** A pull that fails, started by the assistant. *)
Lemma pull_callback_reports_success_only_witness :
  exists events e,
    fst (on_pull_run (H := outside) true None (py "/tmp/d") (start outside tt))
    = [(events, Some e)]
    /\ existsb is_done_cb_call events = false
    /\ exn_cls e = UnboundLocalError.
Proof.
  destruct (@pull_callback_reports_success_only outside None (py "/tmp/d")
              (start outside tt)) as (events & outcome & s' & E & T).
  destruct (pull (H := outside) (Some (py "/tmp/d")) (start outside tt))
    as [[out|e] s1] eqn:P.
  - vm_compute in P. discriminate P.
  - destruct T as (_ & N & e' & -> & C).
    exists events, e'. rewrite E. split; [reflexivity|].
    split; [exact N|]. apply C. left. reflexivity.
Defined.
